(** * Foggy-CycleGAN: the training engine of [lib/train.py]

    A shallow embedding of the [Trainer] class: its loss functions, the
    config and checkpoint persistence, the per-batch optimisation step, the
    sample evaluation callback and the epoch loop, followed by the
    properties of the specification that concern them.

    Conventions of the embedding.
    - Tensors are float32 arrays: a tensor is its shape and the list of
      its elements in row-major order.  Element-wise operations broadcast
      their operands as TensorFlow does, and raise when the shapes do not
      broadcast.
    - float32 and float64 arithmetic is IEEE 754 binary32 / binary64 with
      round-to-nearest-even, as specified by [SpecFloat].
    - Python attributes that [load_config] may overwrite hold arbitrary
      JSON-representable Python values ([pyval]).
    - Effects are explicit: a method is a function from the program state
      (the [Trainer] object and the outside world: files, clock, and the
      trace of calls to collaborators) to a result, which is a value or a
      raised exception, and the next state.
    - The networks, the autodiff tape, the optimiser update, the Keras
      cross-entropy kernel and the clock are external collaborators: they
      are parameters of the development. *)

From Stdlib Require Import ZArith Bool List Lia Ascii String.
From Stdlib Require Import Floats.SpecFloat.
From stdpp Require Import gmap strings list.

Local Open Scope Z_scope.
Local Open Scope string_scope.

(** ** IEEE 754 arithmetic *)

Module F32.
Definition prec : Z := 24.
Definition emax : Z := 128.

Definition add := SFadd prec emax.
Definition sub := SFsub prec emax.
Definition mul := SFmul prec emax.
Definition div := SFdiv prec emax.
Definition abs := SFabs.

Definition zero : spec_float := S754_zero false.
Definition one : spec_float := Eval cbv in binary_normalize prec emax 1 0 false.
Definition half : spec_float := Eval cbv in binary_normalize prec emax 1 (-1) false.
Definition nan : spec_float := S754_nan.

(** An integer (an element count, a Python [int]) as a float32. *)
Definition of_Z (z : Z) : spec_float := binary_normalize prec emax z 0 false.

(** A Python [float] (binary64) rounded to float32, as when a Python
    scalar meets a float32 tensor in an arithmetic operation. *)
Definition of_f64 (x : spec_float) : spec_float :=
  match x with
  | S754_finite s m e => binary_round prec emax s m e
  | _ => x
  end.
End F32.

Module F64.
Definition prec : Z := 53.
Definition emax : Z := 1024.

Definition add := SFadd prec emax.
Definition sub := SFsub prec emax.
Definition mul := SFmul prec emax.

Definition of_Z (z : Z) : spec_float := binary_normalize prec emax z 0 false.
Definition half : spec_float := Eval cbv in binary_normalize prec emax 1 (-1) false.
End F64.

(** A float that is neither an infinity nor a NaN. *)
Definition is_finite (x : spec_float) : bool :=
  match x with
  | S754_zero _ | S754_finite _ _ _ => true
  | _ => false
  end.

(** [x == 0] on floats: both signed zeros compare equal to zero. *)
Definition is_zero (x : spec_float) : bool :=
  match x with
  | S754_zero _ => true
  | _ => false
  end.

(** A float that is not a zero and not a NaN (finite and non-zero, or
    infinite), with sign [s]. *)
Definition is_nonzero_with_sign (s : bool) (x : spec_float) : Prop :=
  match x with
  | S754_finite s' _ _ | S754_infinity s' => s' = s
  | _ => False
  end.

(** ** Exceptions and results *)

(** The exceptions of Python and of the libraries.  [IncompatibleShapes]
    is TensorFlow's report of two operands whose shapes do not broadcast:
    an eager operation raises it as [tf.errors.InvalidArgumentError], the
    tracing of a [tf.function] as [ValueError]; the model keeps one
    exception for both. *)
Inductive exn :=
| PyException (msg : string)
| KeyError (key : string)
| AttributeError (msg : string)
| TypeError (msg : string)
| ZeroDivisionError (msg : string)
| FileNotFoundError (path : string)
| JSONDecodeError (path : string)
| OSError (path : string)
| ValueError (msg : string)
| IncompatibleShapes.

Inductive res (A : Type) :=
| Ok (a : A)
| Raise (e : exn).
Arguments Ok {A} a.
Arguments Raise {A} e.

#[global] Instance res_ret : MRet res := fun A a => Ok a.
#[global] Instance res_bind : MBind res := fun A B k r =>
  match r with
  | Ok a => k a
  | Raise e => Raise e
  end.
#[global] Instance res_throw : MThrow exn res := fun A e => Raise e.

(** ** Tensors *)

(** A float32 tensor: its shape, outermost dimension first, and its
    elements in row-major order. *)
Record tensor := {
  shape : list nat;
  elements : list spec_float;
}.

(** The tensor of rank 1 that holds the given elements. *)
Definition vec (l : list spec_float) : tensor :=
  {| shape := [length l]; elements := l |}.

Module tf.
(** The number of elements of a tensor of shape [sh]. *)
Definition size (sh : list nat) : nat := fold_right Nat.mul 1%nat sh.

Definition ones_like (t : tensor) : tensor :=
  {| shape := shape t; elements := repeat F32.one (size (shape t)) |}.
Definition zeros_like (t : tensor) : tensor :=
  {| shape := shape t; elements := repeat F32.zero (size (shape t)) |}.

Definition abs (t : tensor) : tensor :=
  {| shape := shape t; elements := map F32.abs (elements t) |}.

(** Broadcasting.  Two dimensions are compatible when they are equal or
    one of them is 1. *)
Definition broadcast_dim (x y : nat) : option nat :=
  if Nat.eqb x y then Some x
  else if Nat.eqb x 1 then Some y
  else if Nat.eqb y 1 then Some x
  else None.

(** Two shapes are aligned at their innermost dimensions; the dimensions
    are given innermost first here. *)
Fixpoint broadcast_dims (a b : list nat) : option (list nat) :=
  match a, b with
  | [], _ => Some b
  | _, [] => Some a
  | x :: a', y :: b' =>
      match broadcast_dim x y, broadcast_dims a' b' with
      | Some d, Some r => Some (d :: r)
      | _, _ => None
      end
  end.

Definition broadcast_shape (a b : list nat) : option (list nat) :=
  option_map (@rev nat) (broadcast_dims (rev a) (rev b)).

(** The row-major position, in a tensor of dimensions [src], of the
    element that stands at position [i] once the tensor is broadcast to
    the dimensions [out] (both innermost first): along a dimension of
    size 1, and along the dimensions that [src] lacks, the element is
    repeated. *)
Fixpoint source_index (out src : list nat) (i : nat) : nat :=
  match out, src with
  | r :: out', d :: src' =>
      ((if Nat.eqb d 1 then 0 else i mod r) + d * source_index out' src' (i / r))%nat
  | _, _ => 0%nat
  end.

Definition broadcast_to (out : list nat) (t : tensor) : list spec_float :=
  map (fun i => nth (source_index (rev out) (rev (shape t)) i) (elements t) F32.zero)
      (seq 0 (size out)).

Definition elementwise (f : spec_float -> spec_float -> spec_float)
    (a b : tensor) : option tensor :=
  match broadcast_shape (shape a) (shape b) with
  | Some out =>
      Some {| shape := out;
              elements := zip_with f (broadcast_to out a) (broadcast_to out b) |}
  | None => None
  end.

(** [a - b] on tensors. *)
Definition subtract (a b : tensor) : res tensor :=
  match elementwise F32.sub a b with
  | Some r => Ok r
  | None => Raise IncompatibleShapes
  end.

(** The sum of all elements, here added one after the other in
    row-major order (the order in which a kernel of TensorFlow adds them
    is not part of its interface). *)
Definition reduce_sum (t : tensor) : spec_float :=
  fold_left F32.add (elements t) F32.zero.

(** The mean of all elements: their sum divided by their count.  On an
    empty tensor this is [0/0]. *)
Definition reduce_mean (t : tensor) : spec_float :=
  F32.div (reduce_sum t) (F32.of_Z (Z.of_nat (length (elements t)))).
End tf.

(** ** Python values and paths *)

(** The values [json.load] can produce, which are also the values
    [json.dump] writes back unchanged. *)
#[warnings="-register-all"]
Inductive pyval :=
| PNone
| PBool (b : bool)
| PInt (z : Z)
| PFloat (x : spec_float)
| PStr (s : string)
| PList (l : list pyval)
| PDict (d : list (string * pyval)).

Definition is_None (v : pyval) : bool :=
  match v with PNone => true | _ => false end.

(** [v + 1] for the integer literal [1]. *)
Definition py_add_one (v : pyval) : res pyval :=
  match v with
  | PInt z => Ok (PInt (z + 1))
  | PBool b => Ok (PInt ((if b then 1 else 0) + 1))
  | PFloat x => Ok (PFloat (F64.add x (F64.of_Z 1)))
  | _ => Raise (TypeError "unsupported operand type(s) for +")
  end.

(** [v + suffix] for a string literal [suffix]. *)
Definition py_add_str (v : pyval) (suffix : string) : res string :=
  match v with
  | PStr s => Ok (s ++ suffix)
  | _ => Raise (TypeError "unsupported operand type(s) for +")
  end.

(** [a % b] on integers, where [b] may be [None]. *)
Definition py_mod (a : Z) (b : option Z) : res Z :=
  match b with
  | None => Raise (TypeError "unsupported operand type(s) for %: 'int' and 'NoneType'")
  | Some 0 => Raise (ZeroDivisionError "integer division or modulo by zero")
  | Some d => Ok (a mod d)
  end.

Fixpoint dict_get (d : list (string * pyval)) (key : string) : option pyval :=
  match d with
  | [] => None
  | (k, v) :: d' => if String.eqb k key then Some v else dict_get d' key
  end.

Fixpoint is_substring (fuel : nat) (needle hay : string) : bool :=
  if String.prefix needle hay then true
  else match fuel, hay with
       | S fuel', String _ hay' => is_substring fuel' needle hay'
       | _, _ => false
       end.

Definition is_str (key : string) (v : pyval) : bool :=
  match v with PStr s => String.eqb s key | _ => false end.

(** [key in container]. *)
Definition py_contains (key : string) (container : pyval) : res bool :=
  match container with
  | PDict d => Ok (match dict_get d key with Some _ => true | None => false end)
  | PList l => Ok (existsb (is_str key) l)
  | PStr s => Ok (is_substring (String.length s) key s)
  | _ => Raise (TypeError "argument is not iterable")
  end.

(** [container[key]] for a string [key]. *)
Definition py_getitem (container : pyval) (key : string) : res pyval :=
  match container with
  | PDict d =>
      match dict_get d key with
      | Some v => Ok v
      | None => Raise (KeyError key)
      end
  | _ => Raise (TypeError "indices must be integers")
  end.

Module os_path.
Definition slash : ascii := "/"%char.
Definition is_slash (c : ascii) : bool := Ascii.eqb c slash.

Definition ends_with_slash (s : string) : bool :=
  match rev (list_ascii_of_string s) with
  | c :: _ => is_slash c
  | [] => false
  end.

(** [os.path.join(a, b)] (POSIX). *)
Definition join (a b : string) : string :=
  if String.prefix "/" b then b
  else if String.eqb a "" || ends_with_slash a then a ++ b
  else a ++ "/" ++ b.

Fixpoint drop_while (p : ascii -> bool) (l : list ascii) : list ascii :=
  match l with
  | c :: l' => if p c then drop_while p l' else l
  | [] => []
  end.

(** [os.path.dirname(p)] (POSIX). *)
Definition dirname (p : string) : string :=
  let head_rev := drop_while (fun c => negb (is_slash c)) (rev (list_ascii_of_string p)) in
  if forallb is_slash head_rev then string_of_list_ascii (rev head_rev)
  else string_of_list_ascii (rev (drop_while is_slash head_rev)).

(** The first argument of [os.path.join], an attribute of the trainer (a
    value of the JSON data model), which must be a string. *)
Definition fspath (a : pyval) : res string :=
  match a with
  | PStr s => Ok s
  | _ => Raise (TypeError "expected str, bytes or os.PathLike object")
  end.

(** [os.path.join(a, b)] where [a] is an attribute of the trainer: a
    value of the JSON data model, of which only a string is a path (an
    attribute never holds an [os.PathLike] object here). *)
Definition join_val (a : pyval) (b : string) : res string :=
  match a with
  | PStr s => Ok (join s b)
  | _ => Raise (TypeError "expected str, bytes or os.PathLike object")
  end.
End os_path.

(** ** The trainer object and the outside world *)

Inductive net_id :=
| generator_clear2fog_id
| generator_fog2clear_id
| discriminator_clear_id
| discriminator_fog_id.

(** The variables of a network, in the order of its layers. *)
Definition weights := list tensor.

(** Two lists of variables have the same structure: as many variables,
    of the same shapes. *)
Definition same_shapes (a b : weights) : bool :=
  bool_decide (map shape a = map shape b).

(** [tf.keras.optimizers.Adam]: its hyperparameters and its running
    moments. *)
Record Adam := {
  learning_rate : spec_float;
  adam_beta_1 : spec_float;
  iterations : Z;
  moments : list tensor;
}.

(** [tf.keras.losses.BinaryCrossentropy]. *)
Record BinaryCrossentropy := { from_logits : bool }.

(** The attributes of a [Trainer].  [LAMBDA] is a Python number, kept as
    the binary64 float it denotes; a network attribute holds the variables
    of the network (its architecture is the [forward] function of the
    backend); the attributes that [load_config] can overwrite hold any
    JSON value; [config_path] is a string or [None]. *)
Record Trainer := {
  LAMBDA : spec_float;
  generator_clear2fog : weights;
  generator_fog2clear : weights;
  discriminator_fog : weights;
  discriminator_clear : weights;
  normalized_input : bool;
  loss_obj : BinaryCrossentropy;
  generator_clear2fog_optimizer : Adam;
  generator_fog2clear_optimizer : Adam;
  discriminator_fog_optimizer : Adam;
  discriminator_clear_optimizer : Adam;
  weights_path : pyval;
  tensorboard_base_logdir : pyval;
  total_epochs : pyval;
  image_log_path : pyval;
  config_path : option string;
  tensorboard_current_logdir : pyval;
}.

Definition new_Adam (lr beta_1 : spec_float) : Adam :=
  {| learning_rate := lr; adam_beta_1 := beta_1; iterations := 0; moments := [] |}.

(** [Trainer.__init__]. *)
Definition init (g_c2f g_f2c d_fog d_clear : weights)
    (LAMBDA lr beta_1 : spec_float) (normalized_input : bool) : Trainer :=
  {| LAMBDA := LAMBDA;
     generator_clear2fog := g_c2f;
     generator_fog2clear := g_f2c;
     discriminator_fog := d_fog;
     discriminator_clear := d_clear;
     normalized_input := normalized_input;
     loss_obj := {| from_logits := true |};
     generator_clear2fog_optimizer := new_Adam lr beta_1;
     generator_fog2clear_optimizer := new_Adam lr beta_1;
     discriminator_fog_optimizer := new_Adam lr beta_1;
     discriminator_clear_optimizer := new_Adam lr beta_1;
     weights_path := PNone;
     tensorboard_base_logdir := PStr "tensorboard_logs";
     total_epochs := PInt 0;
     image_log_path := PStr "image_logs";
     config_path := Some "trainer_config.json";
     tensorboard_current_logdir := PNone |}.

(** The defaults of the keyword arguments of [__init__]. *)
Definition default_LAMBDA : spec_float := Eval cbv in F64.of_Z 10.
Definition default_lr : spec_float := Eval cbv in binary_normalize 53 1024 7378697629483821 (-65) false.
Definition default_beta_1 : spec_float := F64.half.

(** The attribute updates of the methods. *)
Definition set_weights_path (v : pyval) (t : Trainer) : Trainer :=
  {| LAMBDA := LAMBDA t;
     generator_clear2fog := generator_clear2fog t;
     generator_fog2clear := generator_fog2clear t;
     discriminator_fog := discriminator_fog t;
     discriminator_clear := discriminator_clear t;
     normalized_input := normalized_input t;
     loss_obj := loss_obj t;
     generator_clear2fog_optimizer := generator_clear2fog_optimizer t;
     generator_fog2clear_optimizer := generator_fog2clear_optimizer t;
     discriminator_fog_optimizer := discriminator_fog_optimizer t;
     discriminator_clear_optimizer := discriminator_clear_optimizer t;
     weights_path := v;
     tensorboard_base_logdir := tensorboard_base_logdir t;
     total_epochs := total_epochs t;
     image_log_path := image_log_path t;
     config_path := config_path t;
     tensorboard_current_logdir := tensorboard_current_logdir t |}.

Definition set_tensorboard_base_logdir (v : pyval) (t : Trainer) : Trainer :=
  {| LAMBDA := LAMBDA t;
     generator_clear2fog := generator_clear2fog t;
     generator_fog2clear := generator_fog2clear t;
     discriminator_fog := discriminator_fog t;
     discriminator_clear := discriminator_clear t;
     normalized_input := normalized_input t;
     loss_obj := loss_obj t;
     generator_clear2fog_optimizer := generator_clear2fog_optimizer t;
     generator_fog2clear_optimizer := generator_fog2clear_optimizer t;
     discriminator_fog_optimizer := discriminator_fog_optimizer t;
     discriminator_clear_optimizer := discriminator_clear_optimizer t;
     weights_path := weights_path t;
     tensorboard_base_logdir := v;
     total_epochs := total_epochs t;
     image_log_path := image_log_path t;
     config_path := config_path t;
     tensorboard_current_logdir := tensorboard_current_logdir t |}.

Definition set_total_epochs (v : pyval) (t : Trainer) : Trainer :=
  {| LAMBDA := LAMBDA t;
     generator_clear2fog := generator_clear2fog t;
     generator_fog2clear := generator_fog2clear t;
     discriminator_fog := discriminator_fog t;
     discriminator_clear := discriminator_clear t;
     normalized_input := normalized_input t;
     loss_obj := loss_obj t;
     generator_clear2fog_optimizer := generator_clear2fog_optimizer t;
     generator_fog2clear_optimizer := generator_fog2clear_optimizer t;
     discriminator_fog_optimizer := discriminator_fog_optimizer t;
     discriminator_clear_optimizer := discriminator_clear_optimizer t;
     weights_path := weights_path t;
     tensorboard_base_logdir := tensorboard_base_logdir t;
     total_epochs := v;
     image_log_path := image_log_path t;
     config_path := config_path t;
     tensorboard_current_logdir := tensorboard_current_logdir t |}.

Definition set_image_log_path (v : pyval) (t : Trainer) : Trainer :=
  {| LAMBDA := LAMBDA t;
     generator_clear2fog := generator_clear2fog t;
     generator_fog2clear := generator_fog2clear t;
     discriminator_fog := discriminator_fog t;
     discriminator_clear := discriminator_clear t;
     normalized_input := normalized_input t;
     loss_obj := loss_obj t;
     generator_clear2fog_optimizer := generator_clear2fog_optimizer t;
     generator_fog2clear_optimizer := generator_fog2clear_optimizer t;
     discriminator_fog_optimizer := discriminator_fog_optimizer t;
     discriminator_clear_optimizer := discriminator_clear_optimizer t;
     weights_path := weights_path t;
     tensorboard_base_logdir := tensorboard_base_logdir t;
     total_epochs := total_epochs t;
     image_log_path := v;
     config_path := config_path t;
     tensorboard_current_logdir := tensorboard_current_logdir t |}.

Definition set_tensorboard_current_logdir (v : pyval) (t : Trainer) : Trainer :=
  {| LAMBDA := LAMBDA t;
     generator_clear2fog := generator_clear2fog t;
     generator_fog2clear := generator_fog2clear t;
     discriminator_fog := discriminator_fog t;
     discriminator_clear := discriminator_clear t;
     normalized_input := normalized_input t;
     loss_obj := loss_obj t;
     generator_clear2fog_optimizer := generator_clear2fog_optimizer t;
     generator_fog2clear_optimizer := generator_fog2clear_optimizer t;
     discriminator_fog_optimizer := discriminator_fog_optimizer t;
     discriminator_clear_optimizer := discriminator_clear_optimizer t;
     weights_path := weights_path t;
     tensorboard_base_logdir := tensorboard_base_logdir t;
     total_epochs := total_epochs t;
     image_log_path := image_log_path t;
     config_path := config_path t;
     tensorboard_current_logdir := v |}.

Definition net_weights (n : net_id) (t : Trainer) : weights :=
  match n with
  | generator_clear2fog_id => generator_clear2fog t
  | generator_fog2clear_id => generator_fog2clear t
  | discriminator_clear_id => discriminator_clear t
  | discriminator_fog_id => discriminator_fog t
  end.

Definition net_optimizer (n : net_id) (t : Trainer) : Adam :=
  match n with
  | generator_clear2fog_id => generator_clear2fog_optimizer t
  | generator_fog2clear_id => generator_fog2clear_optimizer t
  | discriminator_clear_id => discriminator_clear_optimizer t
  | discriminator_fog_id => discriminator_fog_optimizer t
  end.

(** Replace the variables and the optimiser of one network. *)
Definition set_net (n : net_id) (w : weights) (o : Adam) (t : Trainer) : Trainer :=
  let pick (m : net_id) (old : weights) :=
    match n, m with
    | generator_clear2fog_id, generator_clear2fog_id
    | generator_fog2clear_id, generator_fog2clear_id
    | discriminator_clear_id, discriminator_clear_id
    | discriminator_fog_id, discriminator_fog_id => w
    | _, _ => old
    end in
  let pick_opt (m : net_id) (old : Adam) :=
    match n, m with
    | generator_clear2fog_id, generator_clear2fog_id
    | generator_fog2clear_id, generator_fog2clear_id
    | discriminator_clear_id, discriminator_clear_id
    | discriminator_fog_id, discriminator_fog_id => o
    | _, _ => old
    end in
  {| LAMBDA := LAMBDA t;
     generator_clear2fog := pick generator_clear2fog_id (generator_clear2fog t);
     generator_fog2clear := pick generator_fog2clear_id (generator_fog2clear t);
     discriminator_fog := pick discriminator_fog_id (discriminator_fog t);
     discriminator_clear := pick discriminator_clear_id (discriminator_clear t);
     normalized_input := normalized_input t;
     loss_obj := loss_obj t;
     generator_clear2fog_optimizer := pick_opt generator_clear2fog_id (generator_clear2fog_optimizer t);
     generator_fog2clear_optimizer := pick_opt generator_fog2clear_id (generator_fog2clear_optimizer t);
     discriminator_fog_optimizer := pick_opt discriminator_fog_id (discriminator_fog_optimizer t);
     discriminator_clear_optimizer := pick_opt discriminator_clear_id (discriminator_clear_optimizer t);
     weights_path := weights_path t;
     tensorboard_base_logdir := tensorboard_base_logdir t;
     total_epochs := total_epochs t;
     image_log_path := image_log_path t;
     config_path := config_path t;
     tensorboard_current_logdir := tensorboard_current_logdir t |}.

(** The files the trainer reads back, by content kind. *)
Inductive file :=
| JsonFile (v : pyval)
| H5File (w : weights)
| OtherFile.

(** The argument [sample_test]: [None], a list, a tuple, or any other
    object (a single tensor, a dict, a dataset, ...). *)
Inductive sample_arg :=
| SNone
| SList (l : list tensor)
| STuple (l : list tensor)
| SOther.

(** A loss total of an epoch: the integer it is initialised with, or the
    float32 scalar it becomes with the first batch. *)
Inductive total :=
| TInt (z : Z)
| TF32 (x : spec_float).

(** Calls to collaborators ([print], the networks, the optimisers, the
    functions of [lib/plot.py], [tf.io], [tf.summary]) as they happen.  A
    message or file name built with [str.format] is kept as its template
    and its arguments.  Image and summary outputs are recorded here and
    are not tracked as files. *)
Inductive event :=
| Print (template : string) (args : list pyval)
| PrintWithTimestamp (template : string) (args : list pyval)
| PrintProgress (n : Z) (length : option Z)
| PrintTimeTaken (epoch : Z) (total : pyval) (taken effective : spec_float)
| PrintLosses (clear2fog fog2clear disc_clear disc_fog : total)
| CreateDir (path : pyval)
| Call (n : net_id) (training : bool) (x : tensor)
| LoadWeights (n : net_id) (path : string)
| SaveWeights (n : net_id) (path : string)
| ApplyGradients (n : net_id)
| PlotGeneratorsAndDiscriminatorsPredictions
    (sample_clear prediction_clear2fog sample_fog prediction_fog2clear
     discriminator_clear_output discriminator_fog_output
     discriminator_fakeclear_output discriminator_fakefog_output : tensor)
    (normalized_input : bool)
| Savefig (dir template : string) (epoch : pyval)
| Show
| PlotGeneratorsPredictionsV2
    (sample_clear prediction_clear2fog sample_fog prediction_fog2clear : tensor)
    (normalized_input : bool)
| GetGeneratorSquareImage
    (sample_clear prediction_clear2fog sample_fog prediction_fog2clear : tensor)
    (normalized_input : bool)
| WriteJpeg (dir template : string) (epoch : pyval)
| CreateFileWriter (logdir : string)
| SummaryScalar (logdir name : string) (value : total) (step : pyval) (description : string)
| ClearOutputCallback.

(** The world outside the trainer object.  [files] holds the files that
    the trainer reads back, the config files and the weight files (with
    whatever else lies at a path it reads); the image files, the summary
    event files and the directories that its collaborators create are not
    part of it: those calls are in the trace.  [trace] has the latest
    event first.  [clock] counts the readings of the system clock. *)
Record World := {
  files : gmap string file;
  trace : list event;
  clock : nat;
}.

Record State := {
  self : Trainer;
  world : World;
}.

(** The external collaborators. *)
Class Backend := {
  (** the loss kernel of [BinaryCrossentropy]: [from_logits], [y_true],
      [y_pred] *)
  keras_binary_crossentropy : bool -> tensor -> tensor -> spec_float;
  (** a network applied to a batch: its variables, [training], the input *)
  forward : net_id -> weights -> bool -> tensor -> tensor;
  (** [tape.gradient] of a network's loss with respect to its variables,
      from the recording made with the trainer's networks on a batch *)
  tape_gradient : net_id -> Trainer -> tensor -> tensor -> list tensor;
  (** [optimizer.apply_gradients] *)
  apply_gradients : Adam -> list tensor -> weights -> weights * Adam;
  (** the variables a network is left with when [load_weights] has failed
      on stored variables of another structure (Keras may have assigned
      some of them before it raised): the network, its variables, the
      stored variables *)
  failed_load : net_id -> weights -> weights -> weights;
  (** [time.time()] at a clock reading *)
  time_time : nat -> spec_float;
  (** [datetime.datetime.now().strftime("%Y%m%d-%H%M%S")] at a clock reading *)
  strftime_now : nat -> string;
}.

(** ** The state-and-exception monad of the methods *)

Definition M (A : Type) : Type := State -> res A * State.

#[global] Instance M_ret : MRet M := fun A a s => (Ok a, s).
#[global] Instance M_bind : MBind M := fun A B k m s =>
  match m s with
  | (Ok a, s') => k a s'
  | (Raise e, s') => (Raise e, s')
  end.
#[global] Instance M_throw : MThrow exn M := fun A e s => (Raise e, s).

Definition lift {A} (r : res A) : M A := fun s => (r, s).
Definition get_self : M Trainer := fun s => (Ok (self s), s).
Definition get_world : M World := fun s => (Ok (world s), s).
Definition modify_self (f : Trainer -> Trainer) : M unit :=
  fun s => (Ok tt, {| self := f (self s); world := world s |}).
Definition modify_world (f : World -> World) : M unit :=
  fun s => (Ok tt, {| self := self s; world := f (world s) |}).

Definition log_event (e : event) (w : World) : World :=
  {| files := files w; trace := e :: trace w; clock := clock w |}.
Definition emit (e : event) : M unit := modify_world (log_event e).

Definition tick (w : World) : World :=
  {| files := files w; trace := trace w; clock := S (clock w) |}.
Definition read_clock : M nat :=
  w ← get_world;
  modify_world tick;;
  mret (clock w).

Definition write_file (path : string) (f : file) (w : World) : World :=
  {| files := <[path := f]> (files w); trace := trace w; clock := clock w |}.

(** [os.path.exists] / [os.path.isfile]: only regular files are tracked,
    and no file has the empty path. *)
Definition path_exists (path : string) (w : World) : bool :=
  if String.eqb path "" then false
  else match files w !! path with Some _ => true | None => false end.

(** [for x in xs: body(x)]. *)
Fixpoint for_each {A} (xs : list A) (body : A -> M unit) : M unit :=
  match xs with
  | [] => mret tt
  | x :: xs' => body x ;; for_each xs' body
  end.

(** Modelled from the spec: [tools.create_dir] ([lib/tools.py] is not part
    of the sources), the "directory-creation utility" that the trainer
    consumes.  The call is recorded in the trace; directories are not
    tracked as files. *)
Definition create_dir (path : pyval) : M unit := emit (CreateDir path).

(** Modelled from the spec: [tools.print_with_timestamp] ([lib/tools.py] is
    not part of the sources), the "timestamped-print utility" that the
    trainer consumes.  The call is recorded in the trace. *)
Definition print_with_timestamp (template : string) (args : list pyval) : M unit :=
  emit (PrintWithTimestamp template args).

Definition print (template : string) (args : list pyval) : M unit :=
  emit (Print template args).

(** ** Persistence of the configuration *)

(** [open(path, 'w')] followed by [json.dump]: the file is created or
    replaced. *)
Definition open_and_dump (path : string) (v : pyval) : M unit :=
  if String.eqb path "" then mthrow (FileNotFoundError path)
  else modify_world (write_file path (JsonFile v)).

(** [open(path, 'r')] followed by [json.load]. *)
Definition open_and_load (path : string) : M pyval :=
  w ← get_world;
  match files w !! path with
  | Some (JsonFile v) => mret v
  | Some _ => mthrow (JSONDecodeError path)
  | None => mthrow (FileNotFoundError path)
  end.

Definition config_of (t : Trainer) : pyval :=
  PDict [ ("weights_path", weights_path t);
          ("tensorboard_base_logdir", tensorboard_base_logdir t);
          ("tensorboard_current_logdir", tensorboard_current_logdir t);
          ("total_epochs", total_epochs t);
          ("image_log_path", image_log_path t) ].

Definition save_config : M unit :=
  t ← get_self;
  let config := config_of t in
  match config_path t with
  | None => mthrow (TypeError "expected str, bytes or os.PathLike object, not NoneType")
  | Some path =>
      create_dir (PStr (os_path.dirname path));;
      open_and_dump path config;;
      print "Trainer config saved in {}" [PStr path]
  end.

(** [if key in config: self.<attr> = config[key]]. *)
Definition load_key (config : pyval) (key : string)
    (set : pyval -> Trainer -> Trainer) : M unit :=
  present ← lift (py_contains key config);
  if (present : bool) then
    v ← lift (py_getitem config key);
    modify_self (set v)
  else mret tt.

Definition load_config (load_tensorboard_current_logdir : bool) : M unit :=
  t ← get_self;
  match config_path t with
  | None => mthrow (TypeError "stat: path should be string, bytes, os.PathLike or integer, not NoneType")
  | Some path =>
      w ← get_world;
      if negb (path_exists path w) then
        print "Config path doesn't exist. Ignoring load config." []
      else
        config ← open_and_load path;
        load_key config "weights_path" set_weights_path;;
        load_key config "tensorboard_base_logdir" set_tensorboard_base_logdir;;
        (if load_tensorboard_current_logdir
         then load_key config "tensorboard_current_logdir" set_tensorboard_current_logdir
         else mret tt);;
        load_key config "total_epochs" set_total_epochs;;
        load_key config "image_log_path" set_image_log_path;;
        print "Trainer config loaded from {}" [PStr path]
  end.

(** ** The loss engine *)

Section Losses.
Context {B : Backend}.

(** [self.loss_obj(y_true, y_pred)]. *)
Definition loss_call (l : BinaryCrossentropy) (y_true y_pred : tensor) : spec_float :=
  keras_binary_crossentropy (from_logits l) y_true y_pred.

Definition discriminator_loss (self : Trainer) (real generated : tensor) : spec_float :=
  let real_loss := loss_call (loss_obj self) (tf.ones_like real) real in
  let generated_loss := loss_call (loss_obj self) (tf.zeros_like generated) generated in
  let total_disc_loss := F32.add real_loss generated_loss in
  F32.mul total_disc_loss F32.half.

Definition generator_loss (self : Trainer) (generated : tensor) : spec_float :=
  loss_call (loss_obj self) (tf.ones_like generated) generated.
End Losses.

Definition calc_cycle_loss (self : Trainer) (real_image cycled_image : tensor) : res spec_float :=
  d ← tf.subtract real_image cycled_image;
  let loss1 := tf.reduce_mean (tf.abs d) in
  mret (F32.mul (F32.of_f64 (LAMBDA self)) loss1).

Definition identity_loss (self : Trainer) (real_image same_image : tensor) : res spec_float :=
  d ← tf.subtract real_image same_image;
  let loss := tf.reduce_mean (tf.abs d) in
  mret (F32.mul (F32.of_f64 (F64.mul (LAMBDA self) F64.half)) loss).

(** ** Checkpoints *)

Definition all_nets : list net_id :=
  [generator_clear2fog_id; generator_fog2clear_id; discriminator_clear_id; discriminator_fog_id].

Definition get_models_and_paths (self : Trainer) : res (list net_id * list string) :=
  generator_clear2fog_weights_path ← os_path.join_val (weights_path self) "generator_clear2fog.h5";
  generator_fog2clear_weights_path ← os_path.join_val (weights_path self) "generator_fog2clear.h5";
  discriminator_clear_weights_path ← os_path.join_val (weights_path self) "discriminator_clear.h5";
  discriminator_fog_weights_path ← os_path.join_val (weights_path self) "discriminator_fog.h5";
  let models := all_nets in
  let paths := [generator_clear2fog_weights_path;
                generator_fog2clear_weights_path;
                discriminator_clear_weights_path;
                discriminator_fog_weights_path] in
  mret (models, paths).

Section Checkpoints.
Context {B : Backend}.

(** [model.load_weights(path)] on an HDF5 file.  Keras raises when the
    stored variables do not have the structure of the variables of the
    network. *)
Definition load_weights (n : net_id) (path : string) : M unit :=
  w ← get_world;
  match files w !! path with
  | Some (H5File ws) =>
      t ← get_self;
      if same_shapes (net_weights n t) ws then
        modify_self (fun t => set_net n ws (net_optimizer n t) t);;
        emit (LoadWeights n path)
      else
        modify_self (fun t => set_net n (failed_load n (net_weights n t) ws)
                                      (net_optimizer n t) t);;
        mthrow (ValueError "the weight file does not fit the network")
  | Some _ => mthrow (OSError path)
  | None => mthrow (FileNotFoundError path)
  end.

(** [model.save_weights(path)].  Directories are not part of the world of
    the model: the directory of [path] is taken to exist. *)
Definition save_model_weights (n : net_id) (path : string) : M unit :=
  t ← get_self;
  modify_world (write_file path (H5File (net_weights n t)));;
  emit (SaveWeights n path).

(** The body of the loop of [configure_checkpoint]. *)
Definition restore_one (model : net_id) (path : string) : M unit :=
  w ← get_world;
  if path_exists path w then
    load_weights model path;;
    print "Weights loaded: {}" [PStr path]
  else
    print "Not found: {}" [PStr path].

Definition configure_checkpoint (weights_path : pyval) : M unit :=
  modify_self (set_weights_path weights_path);;
  t ← get_self;
  '(models, paths) ← lift (get_models_and_paths t);
  create_dir weights_path;;
  for_each (zip models paths) (fun '(model, path) => restore_one model path).

Definition save_weights : M unit :=
  t ← get_self;
  '(models, paths) ← lift (get_models_and_paths t);
  for_each (zip models paths) (fun '(model, path) =>
    save_model_weights model path).
End Checkpoints.

(** ** The optimisation step, the sample callback and the epoch loop *)

Record TrainArgs := {
  epochs : Z;
  epoch_save_rate : option Z;
  progress_print_rate : Z;
  clear_output_callback : bool;
  use_tensorboard : bool;
  sample_test : sample_arg;
  plot_sample_generator : bool;
  plot_sample_gen_and_disc : bool;
  save_sample_generator_output : bool;
  save_sample_gen_and_disc_output : bool;
  load_config_first : bool;
  save_config_each_epoch : bool;
}.

(** The defaults of the keyword arguments of [train]. *)
Definition default_args : TrainArgs :=
  {| epochs := 40;
     epoch_save_rate := Some 1;
     progress_print_rate := 10;
     clear_output_callback := false;
     use_tensorboard := false;
     sample_test := SNone;
     plot_sample_generator := false;
     plot_sample_gen_and_disc := true;
     save_sample_generator_output := true;
     save_sample_gen_and_disc_output := true;
     load_config_first := true;
     save_config_each_epoch := true |}.

(** [total += loss]. *)
Definition total_add (acc : total) (loss : spec_float) : total :=
  match acc with
  | TInt z => TF32 (F32.add (F32.of_Z z) loss)
  | TF32 x => TF32 (F32.add x loss)
  end.

(** The guard of the checkpoint save:
    [self.weights_path is not None and epoch_save_rate is not None
     and (epoch + 1) % epoch_save_rate == 0]. *)
Definition save_guard (self : Trainer) (epoch : Z) (epoch_save_rate : option Z) : res bool :=
  if is_None (weights_path self) then mret false
  else match epoch_save_rate with
       | None => mret false
       | Some _ =>
           r ← py_mod (epoch + 1) epoch_save_rate;
           mret (Z.eqb r 0)
       end.

(** [range(n)]. *)
Definition range (n : Z) : list Z := map Z.of_nat (seq 0 (Z.to_nat n)).

Section Training.
Context {B : Backend}.

(** A network called on a batch. *)
Definition call (n : net_id) (training : bool) (x : tensor) : M tensor :=
  t ← get_self;
  emit (Call n training x);;
  mret (forward n (net_weights n t) training x).

(** [optimizer.apply_gradients(zip(gradients, model.trainable_variables))]. *)
Definition optimizer_apply (n : net_id) (gradients : list tensor) : M unit :=
  t ← get_self;
  let '(w, o) := apply_gradients (net_optimizer n t) gradients (net_weights n t) in
  modify_self (set_net n w o);;
  emit (ApplyGradients n).

Definition train_step (real_clear real_fog : tensor)
    : M (spec_float * spec_float * spec_float * spec_float) :=
  self ← get_self;
  fake_fog ← call generator_clear2fog_id true real_clear;
  cycled_clear ← call generator_fog2clear_id true fake_fog;
  fake_clear ← call generator_fog2clear_id true real_fog;
  cycled_fog ← call generator_clear2fog_id true fake_clear;
  same_clear ← call generator_fog2clear_id true real_clear;
  same_fog ← call generator_clear2fog_id true real_fog;
  disc_real_clear ← call discriminator_clear_id true real_clear;
  disc_real_fog ← call discriminator_fog_id true real_fog;
  disc_fake_clear ← call discriminator_clear_id true fake_clear;
  disc_fake_fog ← call discriminator_fog_id true fake_fog;
  let gen_clear2fog_loss := generator_loss self disc_fake_fog in
  let gen_fog2clear_loss := generator_loss self disc_fake_clear in
  cycle_clear ← lift (calc_cycle_loss self real_clear cycled_clear);
  cycle_fog ← lift (calc_cycle_loss self real_fog cycled_fog);
  let total_cycle_loss := F32.add cycle_clear cycle_fog in
  identity_fog ← lift (identity_loss self real_fog same_fog);
  let total_gen_clear2fog_loss :=
    F32.add (F32.add gen_clear2fog_loss total_cycle_loss) identity_fog in
  identity_clear ← lift (identity_loss self real_clear same_clear);
  let total_gen_fog2clear_loss :=
    F32.add (F32.add gen_fog2clear_loss total_cycle_loss) identity_clear in
  let disc_clear_loss := discriminator_loss self disc_real_clear disc_fake_clear in
  let disc_fog_loss := discriminator_loss self disc_real_fog disc_fake_fog in
  let generator_clear2fog_gradients :=
    tape_gradient generator_clear2fog_id self real_clear real_fog in
  let generator_fog2clear_gradients :=
    tape_gradient generator_fog2clear_id self real_clear real_fog in
  let discriminator_clear_gradients :=
    tape_gradient discriminator_clear_id self real_clear real_fog in
  let discriminator_fog_gradients :=
    tape_gradient discriminator_fog_id self real_clear real_fog in
  optimizer_apply generator_clear2fog_id generator_clear2fog_gradients;;
  optimizer_apply generator_fog2clear_id generator_fog2clear_gradients;;
  optimizer_apply discriminator_clear_id discriminator_clear_gradients;;
  optimizer_apply discriminator_fog_id discriminator_fog_gradients;;
  mret (total_gen_clear2fog_loss, total_gen_fog2clear_loss, disc_clear_loss, disc_fog_loss).

Definition epoch_callback (sample_test : sample_arg)
    (plot_sample_generator plot_sample_gen_and_disc
     save_sample_generator_output save_sample_gen_and_disc_output : bool) : M unit :=
  match sample_test with
  | SNone => mret tt
  | SOther => mthrow (PyException "sample_test should be a list or tuple!")
  | SList elements | STuple elements =>
      match elements with
      | [sample_clear; sample_fog] =>
          prediction_clear2fog ← call generator_clear2fog_id false sample_clear;
          prediction_fog2clear ← call generator_fog2clear_id false sample_fog;
          discriminator_clear_output ← call discriminator_clear_id false sample_clear;
          discriminator_fog_output ← call discriminator_fog_id false sample_fog;
          discriminator_fakeclear_output ← call discriminator_clear_id false prediction_fog2clear;
          discriminator_fakefog_output ← call discriminator_fog_id false prediction_clear2fog;
          self ← get_self;
          (if plot_sample_gen_and_disc || save_sample_gen_and_disc_output then
             emit (PlotGeneratorsAndDiscriminatorsPredictions
                     sample_clear prediction_clear2fog sample_fog prediction_fog2clear
                     discriminator_clear_output discriminator_fog_output
                     discriminator_fakeclear_output discriminator_fakefog_output
                     (normalized_input self));;
             (if save_sample_gen_and_disc_output then
                dir ← lift (os_path.fspath (image_log_path self));
                emit (Savefig dir "gen_and_disc_output_epoch_{}.jpg" (total_epochs self))
              else mret tt);;
             (if plot_sample_gen_and_disc then emit Show else mret tt)
           else mret tt);;
          (if plot_sample_generator then
             emit (PlotGeneratorsPredictionsV2
                     sample_clear prediction_clear2fog sample_fog prediction_fog2clear
                     (normalized_input self));;
             emit Show
           else mret tt);;
          (if save_sample_generator_output then
             emit (GetGeneratorSquareImage
                     sample_clear prediction_clear2fog sample_fog prediction_fog2clear
                     (normalized_input self));;
             dir ← lift (os_path.fspath (image_log_path self));
             emit (WriteJpeg dir "gen_output_epoch_{}.jpg" (total_epochs self))
           else mret tt)
      | _ => mthrow (PyException "sample_test should contain 2 elements!")
      end
  end.

(** The loop over the zipped dataset of one epoch; [n] counts the
    batches done, [length] is the batch count of the previous epoch
    ([None] for ["Unknown"]). *)
Fixpoint batch_loop (progress_print_rate : Z) (length : option Z)
    (dataset : list (tensor * tensor)) (n : Z)
    (totals : total * total * total * total)
    : M (Z * (total * total * total * total)) :=
  match dataset with
  | [] => mret (n, totals)
  | (image_clear, image_fog) :: rest =>
      let '(clear2fog_loss_total, fog2clear_loss_total,
            disc_clear_loss_total, disc_fog_loss_total) := totals in
      '(clear2fog_loss, fog2clear_loss, disc_clear_loss, disc_fog_loss)
        ← train_step image_clear image_fog;
      let totals' := (total_add clear2fog_loss_total clear2fog_loss,
                      total_add fog2clear_loss_total fog2clear_loss,
                      total_add disc_clear_loss_total disc_clear_loss,
                      total_add disc_fog_loss_total disc_fog_loss) in
      r ← lift (py_mod n (Some progress_print_rate));
      (if Z.eqb r 0 then emit (PrintProgress n length) else mret tt);;
      batch_loop progress_print_rate length rest (n + 1) totals'
  end.

(** One iteration of [for epoch in range(epochs)]; returns the new
    [length].  [writers] holds the log directories of the two summary
    writers, which exist exactly when [use_tensorboard] is set. *)
Definition epoch_body (train_clear train_fog : list tensor) (a : TrainArgs)
    (writers : option (string * string)) (length : option Z) (epoch : Z) : M Z :=
  self ← get_self;
  total_next ← lift (py_add_one (total_epochs self));
  print_with_timestamp "Starting with epoch {} (total {})" [PInt (epoch + 1); total_next];;
  epoch_callback (sample_test a) (plot_sample_generator a) (plot_sample_gen_and_disc a)
                 (save_sample_generator_output a) (save_sample_gen_and_disc_output a);;
  let dataset := zip train_clear train_fog in
  start ← read_clock;
  '(n, (clear2fog_loss_total, fog2clear_loss_total,
        disc_clear_loss_total, disc_fog_loss_total))
    ← batch_loop (progress_print_rate a) length dataset 0 (TInt 0, TInt 0, TInt 0, TInt 0);
  end_ ← read_clock;
  (if clear_output_callback a then emit ClearOutputCallback else mret tt);;
  self ← get_self;
  save ← lift (save_guard self epoch (epoch_save_rate a));
  (if (save : bool) then
     save_weights;;
     total_next ← lift (py_add_one (total_epochs self));
     print_with_timestamp "Saving checkpoint for epoch {} (total {}) at {}"
                          [PInt (epoch + 1); total_next; weights_path self]
   else mret tt);;
  total_next ← lift (py_add_one (total_epochs self));
  now ← read_clock;
  emit (PrintTimeTaken (epoch + 1) total_next
          (F64.sub (time_time now) (time_time start))
          (F64.sub (time_time end_) (time_time start)));;
  emit (PrintLosses clear2fog_loss_total fog2clear_loss_total
                    disc_clear_loss_total disc_fog_loss_total);;
  (if use_tensorboard a then
     match writers with
     | Some (logdir_clear, logdir_fog) =>
         step ← lift (py_add_one (total_epochs self));
         emit (SummaryScalar logdir_clear "generator" fog2clear_loss_total step "fog2clear loss");;
         step ← lift (py_add_one (total_epochs self));
         emit (SummaryScalar logdir_clear "discriminator" disc_clear_loss_total step
                             "discriminator_clear loss");;
         step ← lift (py_add_one (total_epochs self));
         emit (SummaryScalar logdir_fog "generator" clear2fog_loss_total step "clear2fog loss");;
         step ← lift (py_add_one (total_epochs self));
         emit (SummaryScalar logdir_fog "discriminator" disc_fog_loss_total step
                             "discriminator_fog loss")
     | None => mthrow (AttributeError "'NoneType' object has no attribute 'as_default'")
     end
   else mret tt);;
  self ← get_self;
  total_next ← lift (py_add_one (total_epochs self));
  modify_self (set_total_epochs total_next);;
  (if save_config_each_epoch a then save_config else mret tt);;
  mret n.

Fixpoint epoch_loop (train_clear train_fog : list tensor) (a : TrainArgs)
    (writers : option (string * string)) (length : option Z) (es : list Z) : M unit :=
  match es with
  | [] => mret tt
  | epoch :: es' =>
      n ← epoch_body train_clear train_fog a writers length epoch;
      epoch_loop train_clear train_fog a writers (Some n) es'
  end.

Definition train (train_clear train_fog : list tensor) (a : TrainArgs) : M unit :=
  self ← get_self;
  (if load_config_first a && bool_decide (config_path self ≠ None)
   then load_config true else mret tt);;
  (if save_sample_generator_output a || save_sample_gen_and_disc_output a then
     self ← get_self;
     create_dir (image_log_path self)
   else mret tt);;
  writers ← (if use_tensorboard a then
               self ← get_self;
               (if is_None (tensorboard_current_logdir self) then
                  now ← read_clock;
                  dir ← lift (os_path.join_val (tensorboard_base_logdir self) (strftime_now now));
                  modify_self (set_tensorboard_current_logdir (PStr dir))
                else mret tt);;
               self ← get_self;
               tensorboard_logdir_clear ← lift (py_add_str (tensorboard_current_logdir self) "-clear");
               tensorboard_logdir_fog ← lift (py_add_str (tensorboard_current_logdir self) "-fog");
               emit (CreateFileWriter tensorboard_logdir_clear);;
               emit (CreateFileWriter tensorboard_logdir_fog);;
               mret (Some (tensorboard_logdir_clear, tensorboard_logdir_fog))
             else mret None);
  epoch_loop train_clear train_fog a writers None (range (epochs a)).
End Training.

(** ** Definitions used to state the properties *)

(** A generator or discriminator output, a loss: [r] is a zero. *)
Definition loss_is_zero (r : res spec_float) : Prop :=
  exists z, r = Ok z /\ is_zero z = true.

(** The file of a network under a checkpoint directory. *)
Definition net_file_name (n : net_id) : string :=
  match n with
  | generator_clear2fog_id => "generator_clear2fog.h5"
  | generator_fog2clear_id => "generator_fog2clear.h5"
  | discriminator_clear_id => "discriminator_clear.h5"
  | discriminator_fog_id => "discriminator_fog.h5"
  end.

Definition checkpoint_path (dir : string) (n : net_id) : string :=
  os_path.join dir (net_file_name n).

(** The attributes that [save_config] persists. *)
Definition persisted (t : Trainer) : pyval * pyval * pyval * pyval * pyval :=
  (weights_path t, tensorboard_base_logdir t, tensorboard_current_logdir t,
   total_epochs t, image_log_path t).

(** Everything of the trainer object except the persisted attributes. *)
Definition unpersisted (t : Trainer) :=
  (LAMBDA t, normalized_input t, config_path t, loss_obj t,
   (generator_clear2fog t, generator_fog2clear t, discriminator_clear t, discriminator_fog t),
   (generator_clear2fog_optimizer t, generator_fog2clear_optimizer t,
    discriminator_clear_optimizer t, discriminator_fog_optimizer t)).

(** The value an attribute has after a merge with the stored config [d]. *)
Definition merged (d : list (string * pyval)) (key : string) (old : pyval) : pyval :=
  match dict_get d key with
  | Some v => v
  | None => old
  end.

Definition count_events (p : event -> bool) (tr : list event) : nat :=
  length (List.filter p tr).

(** A training step is complete when its last optimiser has been applied. *)
Definition is_step_end (e : event) : bool :=
  match e with
  | ApplyGradients discriminator_fog_id => true
  | _ => false
  end.

Definition is_save_weights (e : event) : bool :=
  match e with
  | SaveWeights _ _ => true
  | _ => false
  end.

Definition is_inference (e : event) : bool :=
  match e with
  | Call _ _ _ => true
  | _ => false
  end.

(** The argument is a list or a tuple of exactly two elements. *)
Definition is_pair (sample_test : sample_arg) : bool :=
  match sample_test with
  | SList [_; _] | STuple [_; _] => true
  | _ => false
  end.

(** The errors raised by [raise Exception(...)]. *)
Definition is_invalid_argument (e : exn) : bool :=
  match e with
  | PyException _ => true
  | _ => false
  end.

(** The four networks and their optimisers. *)
Definition networks_of (t : Trainer) :=
  (generator_clear2fog t, generator_fog2clear t, discriminator_fog t, discriminator_clear t,
   generator_clear2fog_optimizer t, generator_fog2clear_optimizer t,
   discriminator_fog_optimizer t, discriminator_clear_optimizer t).

(** The events of training: a network called in training mode, an
    optimiser applied. *)
Definition is_training_event (e : event) : bool :=
  match e with
  | Call _ true _ | ApplyGradients _ => true
  | _ => false
  end.

(** What a training step reads and what it leaves: the trainer object,
    and the events of training so far (latest first). *)
Definition training_input_of (s : State) :=
  (self s, List.filter is_training_event (trace (world s))).

(** What training has made: the networks and their optimisers, and the
    events of training so far. *)
Definition training_of (s : State) :=
  (networks_of (self s), List.filter is_training_event (trace (world s))).

(** The training steps of an epoch as the specification words them: the
    batch at position [i] of the clear stream is paired with the batch at
    position [i] of the fog stream, for every [i] below the length of the
    shorter stream, in this order. *)
Section LockstepSpec.
Context {B : Backend}.

Definition lockstep_steps (train_clear train_fog : list tensor) : M unit :=
  for_each (seq 0 (min (length train_clear) (length train_fog))) (fun i =>
    match train_clear !! i, train_fog !! i with
    | Some image_clear, Some image_fog => train_step image_clear image_fog;; mret tt
    | _, _ => mret tt
    end).
End LockstepSpec.

(** The losses of a step as the specification composes them. *)
Section StepSpec.
Context {B : Backend}.

Definition train_step_spec (self : Trainer) (real_clear real_fog : tensor)
    : res (spec_float * spec_float * spec_float * spec_float) :=
  let G_c2f := forward generator_clear2fog_id (generator_clear2fog self) true in
  let G_f2c := forward generator_fog2clear_id (generator_fog2clear self) true in
  let D_clear := forward discriminator_clear_id (discriminator_clear self) true in
  let D_fog := forward discriminator_fog_id (discriminator_fog self) true in
  let fake_fog := G_c2f real_clear in
  let cycled_clear := G_f2c fake_fog in
  let fake_clear := G_f2c real_fog in
  let cycled_fog := G_c2f fake_clear in
  let same_clear := G_f2c real_clear in
  let same_fog := G_c2f real_fog in
  cycle_clear ← calc_cycle_loss self real_clear cycled_clear;
  cycle_fog ← calc_cycle_loss self real_fog cycled_fog;
  let combined_cycle_loss := F32.add cycle_clear cycle_fog in
  identity_fog ← identity_loss self real_fog same_fog;
  identity_clear ← identity_loss self real_clear same_clear;
  mret (F32.add (F32.add (generator_loss self (D_fog fake_fog)) combined_cycle_loss) identity_fog,
        F32.add (F32.add (generator_loss self (D_clear fake_clear)) combined_cycle_loss) identity_clear,
        discriminator_loss self (D_clear real_clear) (D_clear fake_clear),
        discriminator_loss self (D_fog real_fog) (D_fog fake_fog)).
End StepSpec.

(** A method leaves a relation between the state before and the state
    after, whatever it returns or raises. *)
Definition preserves {A} (I : State -> State -> Prop) (m : M A) : Prop :=
  forall s, I s (m s).2.

(** The relation that keeps an observation of the state. *)
Definition same {X} (f : State -> X) : State -> State -> Prop :=
  fun s s' => f s' = f s.

(** A postcondition on the result and final state of a method. *)
Definition wp {A} (m : M A) (s : State) (Q : res A -> State -> Prop) : Prop :=
  Q (m s).1 (m s).2.

(** Observations of the state. *)
Definition total_epochs_of (s : State) : pyval := total_epochs (self s).
Definition config_path_of (s : State) : option string := config_path (self s).
Definition unpersisted_of (s : State) := unpersisted (self s).
Definition save_count_of (s : State) : nat := count_events is_save_weights (trace (world s)).
Definition step_count_of (s : State) : nat := count_events is_step_end (trace (world s)).

(** No weight file appears or changes. *)
Definition no_new_h5 (s s' : State) : Prop :=
  forall path w, files (world s') !! path = Some (H5File w) ->
                 files (world s) !! path = Some (H5File w).

(** A sequence of process lifetimes: a restart builds a fresh trainer and
    points it at the same config file; a call runs [train]. *)
Inductive session_step :=
| Restart (g_c2f g_f2c d_fog d_clear : weights) (LAMBDA lr beta_1 : spec_float)
          (normalized_input : bool)
| Train (train_clear train_fog : list tensor) (a : TrainArgs).

Definition with_config_path (path : option string) (t : Trainer) : Trainer :=
  {| LAMBDA := LAMBDA t;
     generator_clear2fog := generator_clear2fog t;
     generator_fog2clear := generator_fog2clear t;
     discriminator_fog := discriminator_fog t;
     discriminator_clear := discriminator_clear t;
     normalized_input := normalized_input t;
     loss_obj := loss_obj t;
     generator_clear2fog_optimizer := generator_clear2fog_optimizer t;
     generator_fog2clear_optimizer := generator_fog2clear_optimizer t;
     discriminator_fog_optimizer := discriminator_fog_optimizer t;
     discriminator_clear_optimizer := discriminator_clear_optimizer t;
     weights_path := weights_path t;
     tensorboard_base_logdir := tensorboard_base_logdir t;
     total_epochs := total_epochs t;
     image_log_path := image_log_path t;
     config_path := path;
     tensorboard_current_logdir := tensorboard_current_logdir t |}.

Definition is_train (st : session_step) : bool :=
  match st with Train _ _ _ => true | Restart _ _ _ _ _ _ _ _ => false end.

(** A call [train(..., epochs=1)] that loads the config first and saves
    it after the epoch. *)
Definition persistent_single_epoch (st : session_step) : bool :=
  match st with
  | Train _ _ a =>
      Z.eqb (epochs a) 1 && load_config_first a && save_config_each_epoch a
  | Restart _ _ _ _ _ _ _ _ => true
  end.

Section Session.
Context {B : Backend}.

Fixpoint run_session (path : string) (steps : list session_step) : M unit :=
  match steps with
  | [] => mret tt
  | Restart g_c2f g_f2c d_fog d_clear LAMBDA lr beta_1 normalized_input :: rest =>
      modify_self (fun _ => with_config_path (Some path)
                              (init g_c2f g_f2c d_fog d_clear LAMBDA lr beta_1 normalized_input));;
      run_session path rest
  | Train train_clear train_fog a :: rest =>
      train train_clear train_fog a;;
      run_session path rest
  end.
End Session.

(** ** A concrete backend and concrete states, for examples *)

Definition toy_backend : Backend :=
  {| keras_binary_crossentropy := fun _ _ _ => F32.one;
     forward := fun _ _ _ x => x;
     tape_gradient := fun _ _ _ _ => [];
     apply_gradients := fun o _ w => (w, o);
     failed_load := fun _ w _ => w;
     time_time := fun n => F64.of_Z (Z.of_nat n);
     strftime_now := fun _ => "20200101-000000" |}.

Definition empty_world : World := {| files := ∅; trace := []; clock := 0 |}.

Definition fresh_trainer : Trainer :=
  init [] [] [] [] default_LAMBDA default_lr default_beta_1 true.

Definition fresh_state : State := {| self := fresh_trainer; world := empty_world |}.

Definition single_epoch : TrainArgs :=
  {| epochs := 1;
     epoch_save_rate := Some 1;
     progress_print_rate := 10;
     clear_output_callback := false;
     use_tensorboard := false;
     sample_test := SNone;
     plot_sample_generator := false;
     plot_sample_gen_and_disc := true;
     save_sample_generator_output := true;
     save_sample_gen_and_disc_output := true;
     load_config_first := true;
     save_config_each_epoch := true |}.

(** A trainer that has trained for three epochs with a checkpoint
    directory, and a world whose config file holds only [total_epochs]. *)
Definition trained_trainer : Trainer :=
  set_total_epochs (PInt 3) (set_weights_path (PStr "weights") fresh_trainer).

Definition trained_state : State := {| self := trained_trainer; world := empty_world |}.

Definition partial_config_state : State :=
  {| self := trained_trainer;
     world := write_file "trainer_config.json"
                (JsonFile (PDict [("total_epochs", PInt 7)])) empty_world |}.

Definition net_id_eqb (a b : net_id) : bool :=
  match a, b with
  | generator_clear2fog_id, generator_clear2fog_id
  | generator_fog2clear_id, generator_fog2clear_id
  | discriminator_clear_id, discriminator_clear_id
  | discriminator_fog_id, discriminator_fog_id => true
  | _, _ => false
  end.

(** The number of times the weights of network [n] were loaded. *)
Definition load_count (n : net_id) (tr : list event) : nat :=
  count_events (fun e => match e with
                         | LoadWeights m _ => net_id_eqb m n
                         | _ => false
                         end) tr.

(** A world with the weight files of the two generators, and none of the
    discriminators. *)
Definition two_of_four_world : World :=
  write_file "weights/generator_clear2fog.h5" (H5File [vec [F32.one]])
    (write_file "weights/generator_fog2clear.h5" (H5File [vec [F32.half]]) empty_world).

(** A trainer whose four networks have one variable of one element. *)
Definition small_trainer : Trainer :=
  init [vec [F32.zero]] [vec [F32.zero]] [vec [F32.zero]] [vec [F32.zero]]
       default_LAMBDA default_lr default_beta_1 true.

Definition two_of_four_state : State :=
  {| self := small_trainer; world := two_of_four_world |}.

(** The exceptions a method or a computation can raise. *)
Definition raises_only {A} (E : exn -> Prop) (m : M A) : Prop :=
  forall s e, (m s).1 = Raise e -> E e.

Definition res_raises_only {A} (E : exn -> Prop) (r : res A) : Prop :=
  forall e, r = Raise e -> E e.

(** The error of [(epoch + 1) % None]. *)
Definition mod_none_error : exn :=
  TypeError "unsupported operand type(s) for %: 'int' and 'NoneType'".

(** The epoch counter and the config path of the trainer. *)
Definition counter_of (s : State) : pyval * option string :=
  (total_epochs (self s), config_path (self s)).

(** No checkpoint is written: no [save_weights] call happens and no
    weight file appears or changes. *)
Definition no_checkpoint (s s' : State) : Prop :=
  save_count_of s' = save_count_of s /\ no_new_h5 s s'.

(** One epoch with [epoch_save_rate=None]. *)
Definition no_save_args : TrainArgs :=
  {| epochs := 1;
     epoch_save_rate := None;
     progress_print_rate := 10;
     clear_output_callback := false;
     use_tensorboard := false;
     sample_test := SNone;
     plot_sample_generator := false;
     plot_sample_gen_and_disc := true;
     save_sample_generator_output := true;
     save_sample_gen_and_disc_output := true;
     load_config_first := true;
     save_config_each_epoch := true |}.

(** Batch streams of five and of three batches. *)
Definition five_batches : list tensor :=
  [vec [F32.one]; vec [F32.half]; vec [F32.one]; vec [F32.half]; vec [F32.one]].
Definition three_batches : list tensor :=
  [vec [F32.half]; vec [F32.one]; vec [F32.half]].

(** [a <= b] on epoch counters that are integers. *)
Definition int_le (a b : pyval) : Prop :=
  match a, b with
  | PInt x, PInt y => x <= y
  | _, _ => True
  end.

(** The number of [train] calls of a session. *)
Definition train_calls (steps : list session_step) : nat :=
  length (List.filter is_train steps).

(** What a session keeps true between its steps: the trainer points at
    the config file, and the file, once written, holds the number [k] of
    epochs completed so far; before the first save the trainer is at 0. *)
Definition session_inv (path : string) (k : nat) (s : State) : Prop :=
  config_path (self s) = Some path /\
  match files (world s) !! path with
  | None => k = 0%nat /\ total_epochs (self s) = PInt 0
  | Some (JsonFile (PDict d)) => dict_get d "total_epochs" = Some (PInt (Z.of_nat k))
  | Some _ => False
  end.

(** Two epochs that are not persisted, and the states of three calls:
    one persisted epoch, two epochs without saving the config, one more
    persisted epoch. *)
Definition two_epochs_unsaved : TrainArgs :=
  {| epochs := 2;
     epoch_save_rate := Some 1;
     progress_print_rate := 10;
     clear_output_callback := false;
     use_tensorboard := false;
     sample_test := SNone;
     plot_sample_generator := false;
     plot_sample_gen_and_disc := true;
     save_sample_generator_output := true;
     save_sample_gen_and_disc_output := true;
     load_config_first := true;
     save_config_each_epoch := false |}.

Definition after_first_call : State :=
  (@train toy_backend [] [] single_epoch fresh_state).2.
Definition after_unsaved_call : State :=
  (@train toy_backend [] [] two_epochs_unsaved after_first_call).2.
Definition after_third_call : State :=
  (@train toy_backend [] [] single_epoch after_unsaved_call).2.

Definition example_session : list session_step :=
  [ Train five_batches three_batches single_epoch;
    Restart [] [] [] [] default_LAMBDA default_lr default_beta_1 true;
    Train three_batches five_batches single_epoch;
    Train [] [] single_epoch ].

(** ** Definitions used to state further properties *)

(** The value is a Python string. *)
Definition is_string (v : pyval) : bool :=
  match v with PStr _ => true | _ => false end.

(** The value is a Python dict. *)
Definition is_dict (v : pyval) : bool :=
  match v with PDict _ => true | _ => false end.

(** A network called in training mode. *)
Definition is_training_call (e : event) : bool :=
  match e with
  | Call _ true _ => true
  | _ => false
  end.

(** A call to a visualization collaborator ([lib/plot.py], [savefig],
    [show], [tf.io.write_file]). *)
Definition is_visualization (e : event) : bool :=
  match e with
  | PlotGeneratorsAndDiscriminatorsPredictions _ _ _ _ _ _ _ _ _
  | Savefig _ _ _ | Show
  | PlotGeneratorsPredictionsV2 _ _ _ _ _
  | GetGeneratorSquareImage _ _ _ _ _
  | WriteJpeg _ _ _ => true
  | _ => false
  end.

(** Everything a training step leaves alone: the hyperparameters, the
    persisted attributes, the files and the clock. *)
Definition hyperparameters_of (s : State) :=
  (LAMBDA (self s), normalized_input (self s), config_path (self s), loss_obj (self s),
   persisted (self s), files (world s), clock (world s)).

(** Everything inference leaves alone: the trainer object, the clock,
    the training-mode calls and the optimisation steps. *)
Definition untouched_by_inference (s : State) :=
  (self s, clock (world s),
   count_events is_training_call (trace (world s)),
   step_count_of s).

(** The epoch counter and the number of completed training steps. *)
Definition progress_of (s : State) : pyval * nat := (total_epochs (self s), step_count_of s).

(** A trainer with a checkpoint directory and four different networks. *)
Definition distinct_trainer : Trainer :=
  set_weights_path (PStr "weights")
    (init [vec [F32.one]] [vec [F32.half]] [vec [F32.zero]] [vec [F32.one; F32.half]]
          default_LAMBDA default_lr default_beta_1 true).

Definition distinct_state : State := {| self := distinct_trainer; world := empty_world |}.

(** A trainer with these four networks that has called
    [configure_checkpoint] on a directory without weight files, and a
    trainer with new networks of the same structure. *)
Definition checkpointed_state : State :=
  (@configure_checkpoint toy_backend (PStr "weights")
     {| self := init [vec [F32.one]] [vec [F32.half]] [vec [F32.zero]] [vec [F32.one; F32.half]]
                     default_LAMBDA default_lr default_beta_1 true;
        world := empty_world |}).2.

Definition blank_trainer : Trainer :=
  init [vec [F32.zero]] [vec [F32.zero]] [vec [F32.zero]] [vec [F32.zero; F32.zero]]
       default_LAMBDA default_lr default_beta_1 true.

(** A backend whose optimiser replaces the variables by the gradients and
    counts its iterations, and whose gradient is the clear batch. *)
Definition stepping_backend : Backend :=
  {| keras_binary_crossentropy := fun _ _ _ => F32.one;
     forward := fun _ _ _ x => x;
     tape_gradient := fun _ _ real_clear _ => [real_clear];
     apply_gradients := fun o g _ =>
       (g, {| learning_rate := learning_rate o; adam_beta_1 := adam_beta_1 o;
              iterations := iterations o + 1; moments := moments o |});
     failed_load := fun _ w _ => w;
     time_time := fun n => F64.of_Z (Z.of_nat n);
     strftime_now := fun _ => "20200101-000000" |}.

(** A backend whose networks add an element to their input, so that a
    cycled image never has the shape of the real one. *)
Definition growing_backend : Backend :=
  {| keras_binary_crossentropy := fun _ _ _ => F32.one;
     forward := fun _ _ _ x => vec (F32.one :: elements x);
     tape_gradient := fun _ _ real_clear _ => [real_clear];
     apply_gradients := fun o g _ => (g, o);
     failed_load := fun _ w _ => w;
     time_time := fun n => F64.of_Z (Z.of_nat n);
     strftime_now := fun _ => "20200101-000000" |}.

(** A world whose config file holds a JSON string instead of an object,
    and one whose config file is not JSON at all. *)
Definition string_config_state : State :=
  {| self := trained_trainer;
     world := write_file "trainer_config.json"
                (JsonFile (PStr "the total_epochs are lost")) empty_world |}.

Definition garbage_config_state : State :=
  {| self := trained_trainer;
     world := write_file "trainer_config.json" OtherFile empty_world |}.


(** Arguments of a call that does not reload the config. *)
Definition no_reload_args (n : Z) (save_rate : option Z) (print_rate : Z)
    (tensorboard : bool) (sample : sample_arg) : TrainArgs :=
  {| epochs := n;
     epoch_save_rate := save_rate;
     progress_print_rate := print_rate;
     clear_output_callback := true;
     use_tensorboard := tensorboard;
     sample_test := sample;
     plot_sample_generator := false;
     plot_sample_gen_and_disc := true;
     save_sample_generator_output := true;
     save_sample_gen_and_disc_output := true;
     load_config_first := false;
     save_config_each_epoch := true |}.

(** Two epochs with a progress report every zero batches. *)
Definition zero_rate_args : TrainArgs := no_reload_args 2 (Some 1) 0 false SNone.

(** What a call of [train] has not touched when it has not reached the
    networks: the networks and optimisers, and the numbers of network
    calls, training steps and weight files written. *)
Definition untrained (s : State) :=
  (networks_of (self s),
   count_events is_inference (trace (world s)), step_count_of s, save_count_of s).

(** A call with a sample of three images. *)
Definition three_sample_args : TrainArgs :=
  no_reload_args 2 (Some 1) 10 true (SList [vec [F32.one]; vec [F32.half]; vec [F32.zero]]).

(** The checkpoint directory and the number of weight files written. *)
Definition cadence_of (s : State) : pyval * nat := (weights_path (self s), save_count_of s).

(** Five epochs with a checkpoint every second epoch. *)
Definition every_second_args : TrainArgs := no_reload_args 5 (Some 2) 10 false SNone.

(** A summary writer is created. *)
Definition is_file_writer (e : event) : bool :=
  match e with
  | CreateFileWriter _ => true
  | _ => false
  end.

(** The summary writers created so far, latest first. *)
Definition file_writers_of (s : State) : list event :=
  List.filter is_file_writer (trace (world s)).

(** The log directory of the run and the summary writers created. *)
Definition logdir_of (s : State) : pyval * list event :=
  (tensorboard_current_logdir (self s), file_writers_of s).

(** What the choice of the log directory depends on. *)
Definition logdir_inputs_of (s : State) :=
  (tensorboard_current_logdir (self s), tensorboard_base_logdir (self s),
   clock (world s), file_writers_of s).

(** Two epochs with summaries. *)
Definition tensorboard_args : TrainArgs := no_reload_args 2 (Some 1) 10 true SNone.

(** * Properties *)

(** ** Facts of IEEE arithmetic *)

Section Rounding.
Variables prec emax : Z.
Hypothesis prec_pos : 0 < prec.

Lemma digits2_pos_lower (p : positive) :
  2 ^ (Z.pos (digits2_pos p) - 1) <= Z.pos p.
Proof.
  induction p as [p IH | p IH |]; simpl digits2_pos.
  - rewrite Pos2Z.inj_succ.
    replace (Z.succ (Z.pos (digits2_pos p)) - 1) with (Z.succ (Z.pos (digits2_pos p) - 1)) by lia.
    rewrite Z.pow_succ_r by lia. lia.
  - rewrite Pos2Z.inj_succ.
    replace (Z.succ (Z.pos (digits2_pos p)) - 1) with (Z.succ (Z.pos (digits2_pos p) - 1)) by lia.
    rewrite Z.pow_succ_r by lia. lia.
  - simpl. lia.
Qed.

Lemma shr_1_m (mrs : shr_record) :
  0 <= shr_m mrs -> shr_m (shr_1 mrs) = shr_m mrs / 2.
Proof.
  destruct mrs as [m r s0]. simpl. intros Hm.
  destruct m as [| [p | p |] | p]; simpl; try lia.
  - reflexivity.
  - rewrite Pos2Z.inj_xI. apply Z.div_unique with (r := 1); lia.
  - rewrite Pos2Z.inj_xO. apply Z.div_unique with (r := 0); lia.
  - reflexivity.
Qed.

Lemma iter_pos_shr_1_m (n : positive) : forall mrs,
  0 <= shr_m mrs ->
  shr_m (SpecFloat.iter_pos shr_1 n mrs) = shr_m mrs / 2 ^ Z.pos n.
Proof.
  assert (Hp : forall k, 0 < 2 ^ Z.pos k) by (intros k; apply Z.pow_pos_nonneg; lia).
  assert (Hnn : forall k mrs, 0 <= shr_m mrs ->
            shr_m (SpecFloat.iter_pos shr_1 k mrs) = shr_m mrs / 2 ^ Z.pos k ->
            0 <= shr_m (SpecFloat.iter_pos shr_1 k mrs)).
  { intros k mrs Hm ->. apply Z.div_pos; [lia | apply Hp]. }
  induction n as [n IH | n IH |]; intros mrs Hm; simpl SpecFloat.iter_pos.
  - assert (H1 : 0 <= shr_m (shr_1 mrs)).
    { rewrite shr_1_m by lia. apply Z.div_pos; lia. }
    rewrite IH by (apply Hnn; [lia | apply IH; lia]).
    rewrite IH by lia. rewrite shr_1_m by lia.
    pose proof (Hp n) as Hn.
    rewrite !Z.div_div by lia.
    f_equal.
    replace (Z.pos n~1) with (1 + Z.pos n + Z.pos n) by lia.
    rewrite !Z.pow_add_r by lia. lia.
  - rewrite IH by (apply Hnn; [lia | apply IH; lia]).
    rewrite IH by lia.
    pose proof (Hp n) as Hn.
    rewrite !Z.div_div by lia.
    f_equal.
    replace (Z.pos n~0) with (Z.pos n + Z.pos n) by lia.
    rewrite !Z.pow_add_r by lia. lia.
  - rewrite shr_1_m by lia. reflexivity.
Qed.

Lemma shr_record_of_loc_m (m : Z) (l : location) :
  shr_m (shr_record_of_loc m l) = m.
Proof. destruct l as [| []]; reflexivity. Qed.

(** Rounding a positive mantissa whose exponent is not below [emin]
    keeps a positive mantissa. *)
Lemma shr_fexp_pos (m e : Z) (l : location) :
  0 < m -> emin prec emax <= e ->
  0 < shr_m (fst (shr_fexp prec emax m e l)) /\ e <= snd (shr_fexp prec emax m e l).
Proof.
  intros Hm He. unfold shr_fexp, shr.
  destruct m as [| p | p]; try lia. simpl Zdigits2.
  pose proof (digits2_pos_lower p) as Hd.
  destruct (fexp prec emax (Z.pos (digits2_pos p) + e) - e) as [| n | n] eqn:Hn;
    simpl fst; simpl snd; rewrite ?shr_record_of_loc_m; try lia.
  rewrite iter_pos_shr_1_m by (rewrite shr_record_of_loc_m; lia).
  rewrite shr_record_of_loc_m. split; [| lia].
  assert (Hle : Z.pos n <= Z.pos (digits2_pos p) - 1).
  { unfold fexp in Hn. lia. }
  apply Z.div_str_pos. split; [apply Z.pow_pos_nonneg; lia |].
  apply Z.le_trans with (2 ^ (Z.pos (digits2_pos p) - 1)); [| exact Hd].
  apply Z.pow_le_mono_r; lia.
Qed.

Lemma round_nearest_even_ge (m : Z) (l : location) : m <= round_nearest_even m l.
Proof. destruct l as [| []]; simpl; try lia. destruct (Z.even m); lia. Qed.

Lemma binary_round_aux_nonzero (s : bool) (m e : Z) (l : location) :
  0 < m -> emin prec emax <= e ->
  is_nonzero_with_sign s (binary_round_aux prec emax s m e l).
Proof.
  intros Hm He. unfold binary_round_aux.
  destruct (shr_fexp_pos m e l Hm He) as [H1 H2].
  destruct (shr_fexp prec emax m e l) as [mrs' e'] eqn:E1. simpl in H1, H2.
  pose proof (round_nearest_even_ge (shr_m mrs') (loc_of_shr_record mrs')) as Hr.
  destruct (shr_fexp_pos (round_nearest_even (shr_m mrs') (loc_of_shr_record mrs')) e' loc_Exact)
    as [H3 H4]; [lia | lia |].
  destruct (shr_fexp prec emax _ e' loc_Exact) as [mrs'' e''] eqn:E2. simpl in H3, H4.
  destruct (shr_m mrs'') as [| q | q]; try lia.
  destruct (Z.leb e'' (emax - prec)); reflexivity.
Qed.

Lemma binary_normalize_pos_nonzero (p : positive) :
  emin prec emax <= 0 ->
  is_nonzero_with_sign false (binary_normalize prec emax (Z.pos p) 0 false).
Proof.
  intros Hemin. unfold binary_normalize, binary_round, shl_align.
  destruct (fexp prec emax (Z.pos (digits2_pos p) + 0) - 0) as [| d | d] eqn:Hd;
    apply binary_round_aux_nonzero; try lia.
  unfold fexp in *. lia.
Qed.
End Rounding.

Lemma F32_mul_comm (x y : spec_float) : F32.mul x y = F32.mul y x.
Proof.
  unfold F32.mul.
  destruct x as [sx | sx | | sx mx ex], y as [sy | sy | | sy my ey]; simpl;
    rewrite ?(xorb_comm sx sy); try reflexivity.
  rewrite (Pos.mul_comm mx my), (Z.add_comm ex ey). reflexivity.
Qed.

Lemma F32_sub_diag (x : spec_float) :
  is_finite x = true -> F32.sub x x = F32.zero.
Proof.
  destruct x as [s | s | | s m e]; simpl; try discriminate; intros _.
  - destruct s; reflexivity.
  - unfold F32.sub, SFsub. rewrite Z.sub_diag. reflexivity.
Qed.

Lemma F32_count_nonzero (n : nat) :
  (0 < n)%nat -> is_nonzero_with_sign false (F32.of_Z (Z.of_nat n)).
Proof.
  intros Hn. unfold F32.of_Z.
  destruct (Z.of_nat n) as [| p | p] eqn:E; try lia.
  apply binary_normalize_pos_nonzero; [reflexivity | discriminate].
Qed.

Lemma F32_div_zero_nonzero (c : spec_float) :
  is_nonzero_with_sign false c -> F32.div F32.zero c = F32.zero.
Proof. destruct c as [s | s | | s m e]; simpl; try tauto; intros ->; reflexivity. Qed.

Lemma F32_mul_finite_zero (w : spec_float) :
  is_finite w = true -> is_zero (F32.mul w F32.zero) = true.
Proof. destruct w; simpl; try discriminate; reflexivity. Qed.

(** ** The loss engine *)

Lemma broadcast_dims_diag (a : list nat) : tf.broadcast_dims a a = Some a.
Proof.
  induction a as [| x a IH]; simpl; [reflexivity |].
  unfold tf.broadcast_dim. rewrite Nat.eqb_refl, IH. reflexivity.
Qed.

Lemma broadcast_shape_diag (sh : list nat) : tf.broadcast_shape sh sh = Some sh.
Proof.
  unfold tf.broadcast_shape. rewrite broadcast_dims_diag. simpl.
  rewrite rev_involutive. reflexivity.
Qed.

Lemma length_broadcast_to (out : list nat) (t : tensor) :
  length (tf.broadcast_to out t) = tf.size out.
Proof. unfold tf.broadcast_to. rewrite length_map, length_seq. reflexivity. Qed.

Lemma broadcast_to_finite (out : list nat) (t : tensor) :
  forallb is_finite (elements t) = true ->
  forallb is_finite (tf.broadcast_to out t) = true.
Proof.
  intros Hfin. unfold tf.broadcast_to. rewrite forallb_forall. intros y Hy.
  apply in_map_iff in Hy as (i & <- & _).
  destruct (nth_in_or_default (tf.source_index (rev out) (rev (shape t)) i)
              (elements t) F32.zero) as [Hin | ->]; [| reflexivity].
  rewrite forallb_forall in Hfin. exact (Hfin _ Hin).
Qed.

Lemma zip_with_sub_diag (l : list spec_float) :
  forallb is_finite l = true ->
  zip_with F32.sub l l = repeat F32.zero (length l).
Proof.
  induction l as [| a l IH]; simpl; [reflexivity |]. intros Hfin.
  apply andb_true_iff in Hfin as [Ha Hl].
  rewrite (IH Hl), (F32_sub_diag a Ha). reflexivity.
Qed.

Lemma subtract_diag (x : tensor) :
  forallb is_finite (elements x) = true -> tf.subtract x x = Ok (tf.zeros_like x).
Proof.
  intros Hfin. unfold tf.subtract, tf.elementwise. rewrite broadcast_shape_diag.
  rewrite (zip_with_sub_diag _ (broadcast_to_finite (shape x) x Hfin)).
  rewrite length_broadcast_to. reflexivity.
Qed.

Lemma abs_zeros (x : tensor) : tf.abs (tf.zeros_like x) = tf.zeros_like x.
Proof.
  unfold tf.abs, tf.zeros_like. simpl. f_equal.
  induction (tf.size (shape x)) as [| n IH]; simpl; [reflexivity |]. f_equal. exact IH.
Qed.

Lemma reduce_sum_zeros (x : tensor) : tf.reduce_sum (tf.zeros_like x) = F32.zero.
Proof.
  unfold tf.reduce_sum, tf.zeros_like. simpl.
  induction (tf.size (shape x)) as [| n IH]; simpl; [reflexivity | exact IH].
Qed.

Lemma reduce_mean_zeros (x : tensor) :
  tf.size (shape x) <> 0%nat -> tf.reduce_mean (tf.zeros_like x) = F32.zero.
Proof.
  intros Hne. unfold tf.reduce_mean. rewrite reduce_sum_zeros.
  apply F32_div_zero_nonzero, F32_count_nonzero.
  unfold tf.zeros_like. simpl. rewrite repeat_length. lia.
Qed.

(** C8 (as amended).  For every non-empty tensor [x] whose elements are
    all finite, and every weight [LAMBDA] that is finite once rounded to
    float32 (as is [LAMBDA * 0.5] for the identity loss),
    [calc_cycle_loss(x, x)] and [identity_loss(x, x)] are zero. *)
Theorem identical_images_zero_loss (self : Trainer) (x : tensor) :
  tf.size (shape x) <> 0%nat ->
  forallb is_finite (elements x) = true ->
  is_finite (F32.of_f64 (LAMBDA self)) = true ->
  is_finite (F32.of_f64 (F64.mul (LAMBDA self) F64.half)) = true ->
  loss_is_zero (calc_cycle_loss self x x) /\ loss_is_zero (identity_loss self x x).
Proof.
  intros Hne Hfin Hw Hw'. unfold loss_is_zero, calc_cycle_loss, identity_loss.
  rewrite (subtract_diag x Hfin). simpl.
  rewrite abs_zeros, (reduce_mean_zeros x Hne).
  split; eexists; (split; [reflexivity |]); apply F32_mul_finite_zero; assumption.
Qed.

Lemma identical_images_zero_loss_witness :
  loss_is_zero (calc_cycle_loss fresh_trainer (vec [F32.one; F32.half]) (vec [F32.one; F32.half])) /\
  loss_is_zero (identity_loss fresh_trainer (vec [F32.one; F32.half]) (vec [F32.one; F32.half])).
Proof.
  apply (identical_images_zero_loss fresh_trainer (vec [F32.one; F32.half])).
  - discriminate.
  - reflexivity.
  - vm_compute. reflexivity.
  - vm_compute. reflexivity.
Defined.

(** C8 (as stated) fails: a tensor that holds a NaN has a NaN loss with
    itself, under the default weight. *)
Lemma nan_image_loss_not_zero :
  calc_cycle_loss fresh_trainer (vec [F32.nan]) (vec [F32.nan]) = Ok F32.nan /\
  identity_loss fresh_trainer (vec [F32.nan]) (vec [F32.nan]) = Ok F32.nan /\
  ~ (forall (self : Trainer) (x : tensor),
       loss_is_zero (calc_cycle_loss self x x) /\ loss_is_zero (identity_loss self x x)).
Proof.
  split; [reflexivity |]. split; [reflexivity |].
  intros H. destruct (H fresh_trainer (vec [F32.nan])) as [[z [Hz Hzero]] _].
  vm_compute in Hz. inversion Hz; subst z. discriminate.
Qed.

(** The other conditions of the amended C8 are needed as well: an
    infinite element, an empty tensor and an infinite weight all give a
    NaN loss. *)
Example infinite_image_loss :
  calc_cycle_loss fresh_trainer (vec [S754_infinity false]) (vec [S754_infinity false]) = Ok F32.nan.
Proof. reflexivity. Qed.

Example empty_image_loss : calc_cycle_loss fresh_trainer (vec []) (vec []) = Ok F32.nan.
Proof. reflexivity. Qed.

Example infinite_weight_loss :
  calc_cycle_loss
    (init [] [] [] [] (S754_infinity false) default_lr default_beta_1 true)
    (vec [F32.one]) (vec [F32.one]) = Ok F32.nan.
Proof. reflexivity. Qed.

(** C3.  [discriminator_loss(real, generated)] is
    [0.5 * (bce(ones, real) + bce(zeros, generated))], where [bce] is the
    cross-entropy kernel on raw logits ([from_logits = true], as
    [__init__] sets it). *)
Theorem discriminator_loss_formula `{B : Backend} (self : Trainer) (real generated : tensor) :
  from_logits (loss_obj self) = true ->
  discriminator_loss self real generated =
    F32.mul F32.half
      (F32.add (keras_binary_crossentropy true (tf.ones_like real) real)
               (keras_binary_crossentropy true (tf.zeros_like generated) generated)).
Proof.
  intros Hlogits. unfold discriminator_loss, loss_call. rewrite Hlogits.
  apply F32_mul_comm.
Qed.

Lemma discriminator_loss_formula_witness :
  @discriminator_loss toy_backend fresh_trainer (vec [F32.one]) (vec [F32.half]) =
    F32.mul F32.half
      (F32.add (@keras_binary_crossentropy toy_backend true (tf.ones_like (vec [F32.one])) (vec [F32.one]))
               (@keras_binary_crossentropy toy_backend true (tf.zeros_like (vec [F32.half])) (vec [F32.half]))).
Proof.
  apply (@discriminator_loss_formula toy_backend fresh_trainer (vec [F32.one]) (vec [F32.half])).
  reflexivity.
Defined.

(** [__init__] builds the loss object on logits, and no attribute update
    replaces it. *)
Lemma init_from_logits g_c2f g_f2c d_fog d_clear L lr b1 ni :
  from_logits (loss_obj (init g_c2f g_f2c d_fog d_clear L lr b1 ni)) = true.
Proof. reflexivity. Qed.

(** ** Reasoning about methods *)

Lemma bind_unfold {A B} (m : M A) (k : A -> M B) (s : State) :
  (m ≫= k) s = match m s with
               | (Ok a, s') => k a s'
               | (Raise e, s') => (Raise e, s')
               end.
Proof. reflexivity. Qed.

Section Preserves.
Context (I : State -> State -> Prop).
Hypothesis I_refl : forall s, I s s.
Hypothesis I_trans : forall s1 s2 s3, I s1 s2 -> I s2 s3 -> I s1 s3.

Lemma preserves_ret {A} (a : A) : preserves I (mret a).
Proof. intros s. apply I_refl. Qed.

Lemma preserves_throw {A} (e : exn) : preserves I (mthrow e : M A).
Proof. intros s. apply I_refl. Qed.

Lemma preserves_lift {A} (r : res A) : preserves I (lift r).
Proof. intros s. apply I_refl. Qed.

Lemma preserves_get_self : preserves I get_self.
Proof. intros s. apply I_refl. Qed.

Lemma preserves_get_world : preserves I get_world.
Proof. intros s. apply I_refl. Qed.

Lemma preserves_bind {A B} (m : M A) (k : A -> M B) :
  preserves I m -> (forall a, preserves I (k a)) -> preserves I (m ≫= k).
Proof.
  intros Hm Hk s. rewrite bind_unfold. specialize (Hm s).
  destruct (m s) as [[a | e] s1]; simpl in *; [| exact Hm].
  eapply I_trans; [exact Hm | apply Hk].
Qed.

Lemma preserves_for_each {A} (xs : list A) (body : A -> M unit) :
  (forall x, preserves I (body x)) -> preserves I (for_each xs body).
Proof.
  intros Hbody. induction xs as [| x xs IH]; simpl.
  - apply preserves_ret.
  - apply preserves_bind; [apply Hbody | intros _; exact IH].
Qed.

(** Sequencing under a preserved relation. *)
Lemma wp_bind_preserves {A B} (m : M A) (k : A -> M B) (s0 s : State)
    (Q : res B -> State -> Prop) :
  preserves I m ->
  I s0 s ->
  (forall a s1, I s0 s1 -> wp (k a) s1 Q) ->
  (forall e s1, I s0 s1 -> Q (Raise e) s1) ->
  wp (m ≫= k) s Q.
Proof.
  intros Hm Hs Hok Herr. unfold wp. rewrite bind_unfold. specialize (Hm s).
  destruct (m s) as [[a | e] s1]; simpl in *.
  - apply Hok. eapply I_trans; eassumption.
  - apply Herr. eapply I_trans; eassumption.
Qed.
End Preserves.

Lemma same_refl {X} (f : State -> X) : forall s, same f s s.
Proof. reflexivity. Qed.

Lemma same_trans {X} (f : State -> X) :
  forall s1 s2 s3, same f s1 s2 -> same f s2 s3 -> same f s1 s3.
Proof. unfold same. congruence. Qed.

Lemma wp_get_self {B} (k : Trainer -> M B) (s : State) (Q : res B -> State -> Prop) :
  wp (k (self s)) s Q -> wp (get_self ≫= k) s Q.
Proof. exact (fun H => H). Qed.

Lemma wp_get_world {B} (k : World -> M B) (s : State) (Q : res B -> State -> Prop) :
  wp (k (world s)) s Q -> wp (get_world ≫= k) s Q.
Proof. exact (fun H => H). Qed.

Lemma wp_lift {A B} (r : res A) (k : A -> M B) (s : State) (Q : res B -> State -> Prop) :
  match r with
  | Ok a => wp (k a) s Q
  | Raise e => Q (Raise e) s
  end ->
  wp (lift r ≫= k) s Q.
Proof. destruct r; exact (fun H => H). Qed.

Lemma wp_modify_self {B} (f : Trainer -> Trainer) (k : unit -> M B) (s : State)
    (Q : res B -> State -> Prop) :
  wp (k tt) {| self := f (self s); world := world s |} Q -> wp (modify_self f ≫= k) s Q.
Proof. exact (fun H => H). Qed.

Lemma wp_modify_world {B} (f : World -> World) (k : unit -> M B) (s : State)
    (Q : res B -> State -> Prop) :
  wp (k tt) {| self := self s; world := f (world s) |} Q -> wp (modify_world f ≫= k) s Q.
Proof. exact (fun H => H). Qed.

Lemma wp_ret {A} (a : A) (s : State) (Q : res A -> State -> Prop) :
  Q (Ok a) s -> wp (mret a) s Q.
Proof. exact (fun H => H). Qed.

Lemma save_guard_None (t : Trainer) (epoch : Z) (save : bool) :
  save_guard t epoch None = Ok save -> save = false.
Proof.
  unfold save_guard. destruct (is_None (weights_path t)); intros H; inversion H; reflexivity.
Qed.

Lemma preserves_bind_lift (I : State -> State -> Prop)
    (I_refl : forall s, I s s) {A C} (r : res A) (k : A -> M C) :
  (forall a, r = Ok a -> preserves I (k a)) -> preserves I (lift r ≫= k).
Proof.
  intros Hk s. rewrite bind_unfold. unfold lift. destruct r as [a | e]; simpl.
  - apply Hk. reflexivity.
  - apply I_refl.
Qed.

Ltac head_of t :=
  lazymatch t with
  | ?f _ => head_of f
  | _ => t
  end.

(** Prove [preserves I m] by following the structure of [m]; [leaf]
    proves the attribute and world updates.  Facts about loops are taken
    from the context. *)
Ltac frame_step I_refl I_trans leaf :=
  lazymatch goal with
  | |- preserves _ (mbind _ (lift _)) =>
      apply (preserves_bind_lift _ I_refl);
      let a := fresh "a" in let Hl := fresh "Hl" in
      intros a Hl; try (apply save_guard_None in Hl; subst a)
  | |- preserves _ (mbind _ _) => apply (preserves_bind _ I_trans); [| intros ?]
  | |- preserves _ (mret _) => apply (preserves_ret _ I_refl)
  | |- preserves _ (mthrow _) => apply (preserves_throw _ I_refl)
  | |- preserves _ (lift _) => apply (preserves_lift _ I_refl)
  | |- preserves _ get_self => apply (preserves_get_self _ I_refl)
  | |- preserves _ get_world => apply (preserves_get_world _ I_refl)
  | |- preserves _ (for_each _ _) => apply (preserves_for_each _ I_refl I_trans); intros ?
  | |- preserves _ (modify_self _) => leaf
  | |- preserves _ (modify_world _) => leaf
  | |- preserves _ (match ?x with _ => _ end) => destruct x
  | |- preserves _ ?m => let h := head_of m in unfold h
  end.

Ltac frame I_refl I_trans leaf :=
  repeat first [ assumption
               | match goal with H : _ |- preserves _ _ => apply H end
               | progress (lazy beta iota)
               | frame_step I_refl I_trans leaf ].

(** Prove that a method keeps an observation [f]. *)
Ltac keeps f :=
  frame (same_refl f) (same_trans f) ltac:(intros ?; reflexivity).

(** Evaluate the monadic plumbing of a method applied to a state. *)
Ltac run :=
  repeat (rewrite ?bind_unfold;
          cbv beta iota delta [get_self get_world lift modify_self modify_world
                               mret M_ret mthrow M_throw emit print create_dir
                               print_with_timestamp];
          cbn [fst snd self world]).

(** ** Persistence of the configuration *)

Lemma load_key_dict (d : list (string * pyval)) (key : string)
    (set : pyval -> Trainer -> Trainer) (s : State) :
  load_key (PDict d) key set s =
    (Ok tt, {| self := match dict_get d key with
                       | Some v => set v (self s)
                       | None => self s
                       end;
               world := world s |}).
Proof.
  unfold load_key. run. simpl. destruct (dict_get d key); run; [reflexivity |].
  destruct s; reflexivity.
Qed.

Lemma load_config_preserves_unpersisted (flag : bool) :
  preserves (same unpersisted_of) (load_config flag).
Proof. keeps unpersisted_of. Qed.

Lemma load_config_false_preserves_current_logdir :
  preserves (same (fun s => tensorboard_current_logdir (self s))) (load_config false).
Proof. keeps (fun s => tensorboard_current_logdir (self s)). Qed.

(** C10.  [load_config] never modifies [LAMBDA], [normalized_input] or
    [config_path], whatever the config file holds: nothing outside the
    five persisted attributes changes, and [tensorboard_current_logdir]
    stays as it is when [load_tensorboard_current_logdir] is false. *)
Theorem load_config_changes_only_persisted :
  (forall (flag : bool) (s : State),
     let t' := self (load_config flag s).2 in
     LAMBDA t' = LAMBDA (self s) /\
     normalized_input t' = normalized_input (self s) /\
     config_path t' = config_path (self s) /\
     unpersisted t' = unpersisted (self s)) /\
  (forall s : State,
     tensorboard_current_logdir (self (load_config false s).2) =
     tensorboard_current_logdir (self s)).
Proof.
  split.
  - intros flag s t'.
    pose proof (load_config_preserves_unpersisted flag s) as H.
    unfold same, unpersisted_of in H. fold t' in H.
    split; [| split; [| split]]; [| | | exact H];
      unfold unpersisted in H; congruence.
  - intros s. exact (load_config_false_preserves_current_logdir s).
Qed.

(** A config file with keys named after the other attributes: they are
    ignored. *)
Example load_config_ignores_foreign_keys :
  let config := PDict [("LAMBDA", PInt 99); ("normalized_input", PBool false);
                       ("config_path", PStr "elsewhere.json"); ("total_epochs", PInt 7)] in
  let s := {| self := fresh_trainer;
              world := write_file "trainer_config.json" (JsonFile config) empty_world |} in
  let t' := self (load_config true s).2 in
  LAMBDA t' = default_LAMBDA /\ normalized_input t' = true /\
  config_path t' = Some "trainer_config.json" /\ total_epochs t' = PInt 7.
Proof. vm_compute. auto. Qed.

Lemma save_config_run (s : State) (path : string) :
  config_path (self s) = Some path -> path <> "" ->
  save_config s =
    (Ok tt,
     {| self := self s;
        world := log_event (Print "Trainer config saved in {}" [PStr path])
                   (write_file path (JsonFile (config_of (self s)))
                      (log_event (CreateDir (PStr (os_path.dirname path))) (world s))) |}).
Proof.
  intros Hpath Hne. unfold save_config. run. rewrite Hpath. run.
  unfold open_and_dump. apply String.eqb_neq in Hne. rewrite Hne. run. reflexivity.
Qed.

Lemma load_config_missing (flag : bool) (s : State) (path : string) :
  config_path (self s) = Some path ->
  path_exists path (world s) = false ->
  load_config flag s =
    (Ok tt,
     {| self := self s;
        world := log_event (Print "Config path doesn't exist. Ignoring load config." [])
                           (world s) |}).
Proof.
  intros Hpath Hmiss. unfold load_config. run. rewrite Hpath. run.
  rewrite Hmiss. simpl. run. reflexivity.
Qed.

Lemma load_config_dict (s : State) (path : string) (d : list (string * pyval)) :
  config_path (self s) = Some path -> path <> "" ->
  files (world s) !! path = Some (JsonFile (PDict d)) ->
  exists t',
    load_config true s =
      (Ok tt, {| self := t';
                 world := log_event (Print "Trainer config loaded from {}" [PStr path])
                                    (world s) |}) /\
    persisted t' =
      (merged d "weights_path" (weights_path (self s)),
       merged d "tensorboard_base_logdir" (tensorboard_base_logdir (self s)),
       merged d "tensorboard_current_logdir" (tensorboard_current_logdir (self s)),
       merged d "total_epochs" (total_epochs (self s)),
       merged d "image_log_path" (image_log_path (self s))) /\
    unpersisted t' = unpersisted (self s).
Proof.
  intros Hpath Hne Hfile. unfold load_config. run. rewrite Hpath. run.
  unfold path_exists. apply String.eqb_neq in Hne. rewrite Hne, Hfile. simpl.
  unfold open_and_load. run. rewrite Hfile. run.
  repeat (rewrite load_key_dict; run).
  eexists. split; [reflexivity |]. unfold merged.
  destruct (dict_get d "weights_path"), (dict_get d "tensorboard_base_logdir"),
    (dict_get d "tensorboard_current_logdir"), (dict_get d "total_epochs"),
    (dict_get d "image_log_path"); split; reflexivity.
Qed.

(** C4.  Saving the config and loading it again, into the same or into
    another trainer object that uses the same config file, reproduces the
    five persisted attributes; loading a partial config overwrites the
    attributes whose keys are present and keeps the others; loading when
    the file does not exist returns normally and changes neither the
    trainer nor the files. *)
Theorem config_round_trip_and_merge :
  (forall (s : State) (path : string) (t : Trainer),
     config_path (self s) = Some path -> path <> "" ->
     config_path t = Some path ->
     exists s1 s2,
       save_config s = (Ok tt, s1) /\
       load_config true {| self := t; world := world s1 |} = (Ok tt, s2) /\
       persisted (self s2) = persisted (self s) /\
       unpersisted (self s2) = unpersisted t) /\
  (forall (s : State) (path : string) (d : list (string * pyval)),
     config_path (self s) = Some path -> path <> "" ->
     files (world s) !! path = Some (JsonFile (PDict d)) ->
     exists s',
       load_config true s = (Ok tt, s') /\
       weights_path (self s') = merged d "weights_path" (weights_path (self s)) /\
       tensorboard_base_logdir (self s') =
         merged d "tensorboard_base_logdir" (tensorboard_base_logdir (self s)) /\
       tensorboard_current_logdir (self s') =
         merged d "tensorboard_current_logdir" (tensorboard_current_logdir (self s)) /\
       total_epochs (self s') = merged d "total_epochs" (total_epochs (self s)) /\
       image_log_path (self s') = merged d "image_log_path" (image_log_path (self s)) /\
       unpersisted (self s') = unpersisted (self s)) /\
  (forall (s : State) (path : string) (flag : bool),
     config_path (self s) = Some path ->
     path_exists path (world s) = false ->
     exists s',
       load_config flag s = (Ok tt, s') /\
       self s' = self s /\ files (world s') = files (world s)).
Proof.
  split; [| split].
  - intros s path t Hpath Hne Ht.
    rewrite (save_config_run s path Hpath Hne).
    destruct (load_config_dict
                {| self := t;
                   world := log_event (Print "Trainer config saved in {}" [PStr path])
                              (write_file path (JsonFile (config_of (self s)))
                                 (log_event (CreateDir (PStr (os_path.dirname path)))
                                            (world s))) |}
                path _ Ht Hne (lookup_insert_eq _ _ _))
      as (t' & Hload & Hpers & Hunp).
    eexists. eexists. split; [reflexivity |]. split; [exact Hload |].
    split; [exact Hpers | exact Hunp].
  - intros s path d Hpath Hne Hfile.
    destruct (load_config_dict s path d Hpath Hne Hfile) as (t' & Hload & Hpers & Hunp).
    eexists. split; [exact Hload |]. simpl. unfold persisted in Hpers.
    inversion Hpers. repeat split; try reflexivity. exact Hunp.
  - intros s path flag Hpath Hmiss.
    rewrite (load_config_missing flag s path Hpath Hmiss).
    eexists. split; [reflexivity |]. split; reflexivity.
Qed.

Lemma config_round_trip_and_merge_witness :
  (exists s1 s2,
     save_config trained_state = (Ok tt, s1) /\
     load_config true {| self := fresh_trainer; world := world s1 |} = (Ok tt, s2) /\
     persisted (self s2) = persisted trained_trainer /\
     unpersisted (self s2) = unpersisted fresh_trainer) /\
  (exists s',
     load_config true partial_config_state = (Ok tt, s') /\
     total_epochs (self s') = PInt 7 /\
     weights_path (self s') = PStr "weights") /\
  (exists s',
     load_config true fresh_state = (Ok tt, s') /\
     self s' = fresh_trainer /\ files (world s') = ∅).
Proof.
  destruct config_round_trip_and_merge as (Hround & Hmerge & Hmissing).
  split; [| split].
  - apply (Hround trained_state "trainer_config.json" fresh_trainer);
      [reflexivity | discriminate | reflexivity].
  - destruct (Hmerge partial_config_state "trainer_config.json" [("total_epochs", PInt 7)])
      as (s' & Hload & Hw & _ & _ & Ht & _); [reflexivity | discriminate | reflexivity |].
    exists s'. split; [exact Hload |]. split; [exact Ht | exact Hw].
  - apply (Hmissing fresh_state "trainer_config.json" true); reflexivity.
Defined.

(** ** Checkpoints *)

Lemma checkpoint_path_nonempty (dir : string) (n : net_id) :
  String.eqb (checkpoint_path dir n) "" = false.
Proof.
  apply String.eqb_neq. unfold checkpoint_path, os_path.join.
  destruct n; simpl;
    (destruct (String.eqb dir "" || os_path.ends_with_slash dir);
     destruct dir; simpl; discriminate).
Qed.

Lemma get_models_and_paths_str (t : Trainer) (dir : string) :
  weights_path t = PStr dir ->
  get_models_and_paths t = Ok (all_nets, map (checkpoint_path dir) all_nets).
Proof. intros H. unfold get_models_and_paths. rewrite H. reflexivity. Qed.

(** One iteration of the restore loop, by the kind of the file. *)
Lemma restore_one_present `{B : Backend} (n : net_id) (path : string) (ws : weights)
    (s : State) :
  String.eqb path "" = false ->
  files (world s) !! path = Some (H5File ws) ->
  same_shapes (net_weights n (self s)) ws = true ->
  restore_one n path s =
  (Ok tt,
   {| self := set_net n ws (net_optimizer n (self s)) (self s);
      world := log_event (Print "Weights loaded: {}" [PStr path])
                 (log_event (LoadWeights n path) (world s)) |}).
Proof.
  intros Hne Hfile Hfit. unfold restore_one. run. unfold path_exists. rewrite Hne, Hfile.
  unfold load_weights. run. rewrite Hfile. run. rewrite Hfit. run. reflexivity.
Qed.

Lemma restore_one_unfit `{B : Backend} (n : net_id) (path : string) (ws : weights)
    (s : State) :
  String.eqb path "" = false ->
  files (world s) !! path = Some (H5File ws) ->
  same_shapes (net_weights n (self s)) ws = false ->
  restore_one n path s =
  (Raise (ValueError "the weight file does not fit the network"),
   {| self := set_net n (failed_load n (net_weights n (self s)) ws)
                      (net_optimizer n (self s)) (self s);
      world := world s |}).
Proof.
  intros Hne Hfile Hfit. unfold restore_one. run. unfold path_exists. rewrite Hne, Hfile.
  unfold load_weights. run. rewrite Hfile. run. rewrite Hfit. run. reflexivity.
Qed.

Lemma restore_one_missing `{B : Backend} (n : net_id) (path : string) (s : State) :
  files (world s) !! path = None ->
  restore_one n path s =
  (Ok tt,
   {| self := self s;
      world := log_event (Print "Not found: {}" [PStr path]) (world s) |}).
Proof.
  intros Hfile. unfold restore_one. run. unfold path_exists. rewrite Hfile.
  destruct (String.eqb path ""); run; reflexivity.
Qed.

Lemma for_each_cons {A} (x : A) (xs : list A) (body : A -> M unit) (s : State) :
  for_each (x :: xs) body s =
    match body x s with
    | (Ok _, s') => for_each xs body s'
    | (Raise e, s') => (Raise e, s')
    end.
Proof. reflexivity. Qed.

(** C5.  [configure_checkpoint] restores each network on its own: for
    every subset of the four weight files present (each holding variables
    of the structure of its network), it returns normally, loads the
    variables of exactly the networks whose file exists, leaves the
    variables of the others as they were, and prints a notice for each
    missing file. *)
Theorem configure_checkpoint_per_network `{B : Backend} (s : State) (dir : string) :
  (forall n, files (world s) !! checkpoint_path dir n = None \/
             exists ws, files (world s) !! checkpoint_path dir n = Some (H5File ws) /\
                        same_shapes (net_weights n (self s)) ws = true) ->
  exists s',
    configure_checkpoint (PStr dir) s = (Ok tt, s') /\
    (forall n,
       net_weights n (self s') =
         match files (world s) !! checkpoint_path dir n with
         | Some (H5File ws) => ws
         | _ => net_weights n (self s)
         end) /\
    (forall n,
       files (world s) !! checkpoint_path dir n = None ->
       In (Print "Not found: {}" [PStr (checkpoint_path dir n)]) (trace (world s')) /\
       load_count n (trace (world s')) = load_count n (trace (world s))) /\
    (forall n ws,
       files (world s) !! checkpoint_path dir n = Some (H5File ws) ->
       load_count n (trace (world s')) = S (load_count n (trace (world s)))) /\
    files (world s') = files (world s) /\
    weights_path (self s') = PStr dir.
Proof.
  intros Hkind. unfold configure_checkpoint. run.
  rewrite (get_models_and_paths_str _ dir) by reflexivity. run.
  simpl zip.
  destruct (Hkind generator_clear2fog_id) as [H1 | (w1 & H1 & F1)];
  destruct (Hkind generator_fog2clear_id) as [H2 | (w2 & H2 & F2)];
  destruct (Hkind discriminator_clear_id) as [H3 | (w3 & H3 & F3)];
  destruct (Hkind discriminator_fog_id) as [H4 | (w4 & H4 & F4)];
  repeat (rewrite for_each_cons; cbn beta iota;
          first [ rewrite restore_one_missing by eassumption
                | erewrite restore_one_present
                    by first [apply checkpoint_path_nonempty | eassumption] ]);
  (eexists; split; [reflexivity |]; cbn [self world trace files log_event];
   split; [| split; [| split; [| split; reflexivity]]];
   [ intros n; destruct n; rewrite ?H1, ?H2, ?H3, ?H4; reflexivity
   | intros n Hn; destruct n; try congruence;
     (split; [simpl; tauto | reflexivity])
   | intros n ws Hn; destruct n; try congruence; reflexivity ]).
Qed.

Lemma configure_checkpoint_per_network_witness :
  exists s',
    @configure_checkpoint toy_backend (PStr "weights") two_of_four_state = (Ok tt, s') /\
    net_weights generator_clear2fog_id (self s') = [vec [F32.one]] /\
    net_weights generator_fog2clear_id (self s') = [vec [F32.half]] /\
    net_weights discriminator_clear_id (self s') = [vec [F32.zero]] /\
    net_weights discriminator_fog_id (self s') = [vec [F32.zero]] /\
    In (Print "Not found: {}" [PStr "weights/discriminator_clear.h5"]) (trace (world s')) /\
    In (Print "Not found: {}" [PStr "weights/discriminator_fog.h5"]) (trace (world s')).
Proof.
  destruct (@configure_checkpoint_per_network toy_backend two_of_four_state "weights")
    as (s' & Hrun & Hnets & Hmissing & _).
  - intros n. destruct n; vm_compute; eauto.
  - exists s'. split; [exact Hrun |].
    repeat split.
    + exact (Hnets generator_clear2fog_id).
    + exact (Hnets generator_fog2clear_id).
    + exact (Hnets discriminator_clear_id).
    + exact (Hnets discriminator_fog_id).
    + apply (Hmissing discriminator_clear_id). reflexivity.
    + apply (Hmissing discriminator_fog_id). reflexivity.
Defined.

(** ** The exceptions of a method *)

Section Raises.
Context (E : exn -> Prop).

Lemma raises_ret {A} (a : A) : raises_only E (mret a).
Proof. intros s e H. discriminate H. Qed.

Lemma raises_get_self : raises_only E get_self.
Proof. intros s e H. discriminate H. Qed.

Lemma raises_get_world : raises_only E get_world.
Proof. intros s e H. discriminate H. Qed.

Lemma raises_modify_self (f : Trainer -> Trainer) : raises_only E (modify_self f).
Proof. intros s e H. discriminate H. Qed.

Lemma raises_modify_world (f : World -> World) : raises_only E (modify_world f).
Proof. intros s e H. discriminate H. Qed.

Lemma raises_throw {A} (e : exn) : E e -> raises_only E (mthrow e : M A).
Proof. intros He s e' H. inversion H. subst. exact He. Qed.

Lemma raises_lift {A} (r : res A) : res_raises_only E r -> raises_only E (lift r).
Proof. intros Hr s e H. apply Hr. exact H. Qed.

Lemma raises_bind {A C} (m : M A) (k : A -> M C) :
  raises_only E m -> (forall a, raises_only E (k a)) -> raises_only E (m ≫= k).
Proof.
  intros Hm Hk s e. rewrite bind_unfold. specialize (Hm s).
  destruct (m s) as [[a | e'] s1]; simpl in *.
  - apply Hk.
  - intros H. inversion H. subst. apply Hm. reflexivity.
Qed.

Lemma raises_for_each {A} (xs : list A) (body : A -> M unit) :
  (forall x, raises_only E (body x)) -> raises_only E (for_each xs body).
Proof.
  intros Hbody. induction xs as [| x xs IH]; simpl.
  - apply raises_ret.
  - apply raises_bind; [apply Hbody | intros _; exact IH].
Qed.

Lemma res_raises_ok {A} (a : A) : res_raises_only E (Ok a).
Proof. intros e H. discriminate H. Qed.

Lemma res_raises_ret {A} (a : A) : res_raises_only E (mret a).
Proof. intros e H. discriminate H. Qed.

Lemma res_raises_raise {A} (e : exn) : E e -> res_raises_only E (Raise e : res A).
Proof. intros He e' H. inversion H. subst. exact He. Qed.

Lemma res_raises_bind {A C} (r : res A) (k : A -> res C) :
  res_raises_only E r -> (forall a, res_raises_only E (k a)) -> res_raises_only E (r ≫= k).
Proof.
  intros Hr Hk e. destruct r as [a | e']; simpl.
  - apply Hk.
  - intros H. inversion H. subst. apply Hr. reflexivity.
Qed.
End Raises.

(** Prove [res_raises_only E r] and [raises_only E m] by following the
    structure of the computation; [leaf] proves [E e] at each [raise]. *)
Ltac res_raises_step leaf :=
  lazymatch goal with
  | |- res_raises_only _ (mbind _ _) => apply res_raises_bind; [| intros ?]
  | |- res_raises_only _ (mret _) => apply res_raises_ret
  | |- res_raises_only _ (Ok _) => apply res_raises_ok
  | |- res_raises_only _ (Raise _) => apply res_raises_raise; leaf
  | |- res_raises_only _ (match ?x with _ => _ end) => destruct x
  | |- res_raises_only _ ?r => let h := head_of r in unfold h
  end.

Ltac res_raises leaf :=
  repeat first [ assumption | progress (lazy beta iota) | res_raises_step leaf ].

Ltac raises_step leaf :=
  lazymatch goal with
  | |- raises_only _ (mbind _ _) => apply raises_bind; [| intros ?]
  | |- raises_only _ (mret _) => apply raises_ret
  | |- raises_only _ (mthrow _) => apply raises_throw; leaf
  | |- raises_only _ (lift _) => apply raises_lift; res_raises leaf
  | |- raises_only _ get_self => apply raises_get_self
  | |- raises_only _ get_world => apply raises_get_world
  | |- raises_only _ (modify_self _) => apply raises_modify_self
  | |- raises_only _ (modify_world _) => apply raises_modify_world
  | |- raises_only _ (for_each _ _) => apply raises_for_each; intros ?
  | |- raises_only _ (match ?x with _ => _ end) => destruct x
  | |- raises_only _ ?m => let h := head_of m in unfold h
  end.

Ltac raises leaf :=
  repeat first [ assumption
               | match goal with H : _ |- raises_only _ _ => apply H end
               | progress (lazy beta iota)
               | raises_step leaf ].

(** ** The sample evaluation callback *)

Lemma epoch_callback_list_pair_raises `{B : Backend}
    (sample_clear sample_fog : tensor) (p1 p2 p3 p4 : bool) :
  raises_only (fun e => is_invalid_argument e = false)
    (epoch_callback (SList [sample_clear; sample_fog]) p1 p2 p3 p4).
Proof. raises ltac:(reflexivity). Qed.

Lemma epoch_callback_tuple_pair_raises `{B : Backend}
    (sample_clear sample_fog : tensor) (p1 p2 p3 p4 : bool) :
  raises_only (fun e => is_invalid_argument e = false)
    (epoch_callback (STuple [sample_clear; sample_fog]) p1 p2 p3 p4).
Proof. raises ltac:(reflexivity). Qed.

(** C6.  The sample evaluation callback raises an invalid-argument error
    exactly when [sample_test] is not [None] and is not a list or tuple of
    two elements; it raises it before anything else happens (no network
    is called, the state is untouched); and on [None] it returns at once,
    leaving the state untouched. *)
Theorem epoch_callback_validation `{B : Backend} (sample_test : sample_arg)
    (p1 p2 p3 p4 : bool) (s : State) :
  let r := (epoch_callback sample_test p1 p2 p3 p4 s).1 in
  let s' := (epoch_callback sample_test p1 p2 p3 p4 s).2 in
  ((exists e, r = Raise e /\ is_invalid_argument e = true) <->
   (sample_test <> SNone /\ is_pair sample_test = false)) /\
  ((exists e, r = Raise e /\ is_invalid_argument e = true) ->
   s' = s /\
   count_events is_inference (trace (world s')) = count_events is_inference (trace (world s))) /\
  (sample_test = SNone -> r = Ok tt /\ s' = s).
Proof.
  assert (Hpair : forall m : M unit,
            raises_only (fun e => is_invalid_argument e = false) m ->
            ~ exists e, (m s).1 = Raise e /\ is_invalid_argument e = true).
  { intros m Hm (e & He & Hinv). apply Hm in He. congruence. }
  destruct sample_test as [| l | l |].
  - cbn. split; [| split]; [split | |].
    + intros (e & He & _). discriminate He.
    + intros [Hne _]. congruence.
    + intros _. split; reflexivity.
    + auto.
  - destruct l as [| a [| b [| c l]]];
      try (cbn; split; [| split];
           [ split; [intros _; split; [discriminate | reflexivity]
                    | intros _; eexists; split; reflexivity]
           | intros _; split; reflexivity
           | discriminate ]).
    pose proof (Hpair _ (epoch_callback_list_pair_raises a b p1 p2 p3 p4)) as Hno.
    cbv zeta. split; [| split].
    + split; [intros H; contradiction | intros [_ Hp]; discriminate Hp].
    + intros H. contradiction.
    + discriminate.
  - destruct l as [| a [| b [| c l]]];
      try (cbn; split; [| split];
           [ split; [intros _; split; [discriminate | reflexivity]
                    | intros _; eexists; split; reflexivity]
           | intros _; split; reflexivity
           | discriminate ]).
    pose proof (Hpair _ (epoch_callback_tuple_pair_raises a b p1 p2 p3 p4)) as Hno.
    cbv zeta. split; [| split].
    + split; [intros H; contradiction | intros [_ Hp]; discriminate Hp].
    + intros H. contradiction.
    + discriminate.
  - cbn. split; [| split].
    + split; [intros _; split; [discriminate | reflexivity]
             | intros _; eexists; split; reflexivity].
    + intros _. split; reflexivity.
    + discriminate.
Qed.

Lemma epoch_callback_validation_witness :
  (* evaluate([a, b, c]) raises, with the state untouched *)
  (exists e,
     (@epoch_callback toy_backend (SList [vec [F32.one]; vec [F32.one]; vec [F32.one]])
        false true true true fresh_state).1 = Raise e /\
     is_invalid_argument e = true) /\
  (@epoch_callback toy_backend (SList [vec [F32.one]; vec [F32.one]; vec [F32.one]])
     false true true true fresh_state).2 = fresh_state /\
  (* evaluate(None) returns, with the state untouched *)
  (@epoch_callback toy_backend SNone false true true true fresh_state).1 = Ok tt /\
  (@epoch_callback toy_backend SNone false true true true fresh_state).2 = fresh_state.
Proof.
  destruct (@epoch_callback_validation toy_backend
              (SList [vec [F32.one]; vec [F32.one]; vec [F32.one]]) false true true true fresh_state)
    as (Hiff & Hearly & _).
  destruct (@epoch_callback_validation toy_backend SNone false true true true fresh_state)
    as (_ & _ & Hnone).
  assert (Hraise : exists e,
            (@epoch_callback toy_backend (SList [vec [F32.one]; vec [F32.one]; vec [F32.one]])
               false true true true fresh_state).1 = Raise e /\
            is_invalid_argument e = true).
  { apply Hiff. split; [discriminate | reflexivity]. }
  split; [exact Hraise |]. split; [exact (proj1 (Hearly Hraise)) |].
  exact (Hnone eq_refl).
Defined.

(** ** The optimisation step *)

(** C2.  [train_step] returns the four losses as the specification
    composes them: per direction, the adversarial loss of the generator,
    plus the combined cycle loss shared by both directions, plus the
    identity loss on the identity probe of the other domain; and per
    domain, the discriminator loss of the scores on real and on fake. *)
Theorem train_step_losses `{B : Backend} (real_clear real_fog : tensor) (s : State) :
  (train_step real_clear real_fog s).1 = train_step_spec (self s) real_clear real_fog.
Proof.
  unfold train_step, train_step_spec, call, optimizer_apply.
  run. cbn [net_weights].
  destruct (calc_cycle_loss (self s) real_clear _) as [cycle_clear | e]; [| reflexivity].
  run. cbn [mbind res_bind].
  destruct (calc_cycle_loss (self s) real_fog _) as [cycle_fog | e]; [| reflexivity].
  run. cbn [mbind res_bind].
  destruct (identity_loss (self s) real_fog _) as [identity_fog | e]; [| reflexivity].
  run. cbn [mbind res_bind].
  destruct (identity_loss (self s) real_clear _) as [identity_clear | e]; [| reflexivity].
  run. cbn [mbind res_bind].
  repeat (match goal with
          | |- context [apply_gradients ?o ?g ?w] => destruct (apply_gradients o g w)
          end; run).
  reflexivity.
Qed.

(** A step that returns has applied the four optimisers: it completes
    exactly one step. *)
Lemma train_step_counts `{B : Backend} (real_clear real_fog : tensor) (s s' : State) v :
  train_step real_clear real_fog s = (Ok v, s') ->
  step_count_of s' = S (step_count_of s).
Proof.
  unfold train_step, call, optimizer_apply.
  run. cbn [net_weights].
  destruct (calc_cycle_loss (self s) real_clear _) as [cycle_clear | e]; [| discriminate].
  run.
  destruct (calc_cycle_loss (self s) real_fog _) as [cycle_fog | e]; [| discriminate].
  run.
  destruct (identity_loss (self s) real_fog _) as [identity_fog | e]; [| discriminate].
  run.
  destruct (identity_loss (self s) real_clear _) as [identity_clear | e]; [| discriminate].
  run.
  repeat (match goal with
          | |- context [apply_gradients ?o ?g ?w] => destruct (apply_gradients o g w)
          end; run).
  intros H. inversion H. reflexivity.
Qed.

(** ** Training without a save rate *)

Lemma no_checkpoint_refl : forall s, no_checkpoint s s.
Proof. intros s. split; [reflexivity | intros path w H; exact H]. Qed.

Lemma no_checkpoint_trans :
  forall s1 s2 s3, no_checkpoint s1 s2 -> no_checkpoint s2 s3 -> no_checkpoint s1 s3.
Proof.
  intros s1 s2 s3 [Hc1 Hf1] [Hc2 Hf2]. split; [congruence |].
  intros path w H. apply Hf1, Hf2, H.
Qed.

Ltac no_checkpoint_leaf :=
  idtac;
  let s := fresh "s" in
  intros s; split;
  [ reflexivity
  | let path := fresh "path" in let w := fresh "w" in let H := fresh "H" in
    intros path w H; cbn in H;
    first [ exact H
          | rewrite lookup_insert in H; destruct (decide _); [discriminate H | exact H] ] ].

Ltac no_checkpoint_frame := frame no_checkpoint_refl no_checkpoint_trans no_checkpoint_leaf.

Lemma batch_loop_no_checkpoint `{B : Backend} (dataset : list (tensor * tensor)) :
  forall rate len n totals, preserves no_checkpoint (batch_loop rate len dataset n totals).
Proof.
  induction dataset as [| [x y] rest IH]; intros; simpl; no_checkpoint_frame.
Qed.

Lemma epoch_body_no_checkpoint `{B : Backend} (tc tf : list tensor) (a : TrainArgs)
    writers len epoch :
  epoch_save_rate a = None ->
  preserves no_checkpoint (epoch_body tc tf a writers len epoch).
Proof.
  intros Hrate. pose proof batch_loop_no_checkpoint as Hbatch.
  unfold epoch_body. rewrite Hrate. no_checkpoint_frame.
Qed.

Lemma epoch_loop_no_checkpoint `{B : Backend} (tc tf : list tensor) (a : TrainArgs)
    writers (es : list Z) :
  epoch_save_rate a = None ->
  forall len, preserves no_checkpoint (epoch_loop tc tf a writers len es).
Proof.
  intros Hrate. pose proof (fun w l e => epoch_body_no_checkpoint tc tf a w l e Hrate) as Hbody.
  induction es as [| epoch es IH]; intros; simpl; no_checkpoint_frame.
Qed.

Lemma train_no_checkpoint `{B : Backend} (tc tf : list tensor) (a : TrainArgs) :
  epoch_save_rate a = None ->
  preserves no_checkpoint (train tc tf a).
Proof.
  intros Hrate. pose proof (fun w es l => epoch_loop_no_checkpoint tc tf a w es Hrate l) as Hloop.
  unfold train. no_checkpoint_frame.
Qed.

Lemma epoch_loop_raises `{B : Backend} (tc tf : list tensor) (a : TrainArgs)
    writers (es : list Z) :
  epoch_save_rate a = None ->
  forall len, raises_only (fun e => e <> mod_none_error) (epoch_loop tc tf a writers len es).
Proof.
  intros Hrate.
  assert (Hbatch : forall ds rate len n totals,
            raises_only (fun e => e <> mod_none_error) (batch_loop rate len ds n totals)).
  { induction ds as [| [x y] rest IH]; intros; simpl; raises ltac:(discriminate). }
  induction es as [| epoch es IH]; intros; simpl; [raises ltac:(discriminate) |].
  unfold epoch_body. rewrite Hrate. raises ltac:(discriminate).
Qed.

Lemma train_raises `{B : Backend} (tc tf : list tensor) (a : TrainArgs) :
  epoch_save_rate a = None ->
  raises_only (fun e => e <> mod_none_error) (train tc tf a).
Proof.
  intros Hrate. pose proof (fun w es l => epoch_loop_raises tc tf a w es Hrate l) as Hloop.
  unfold train. raises ltac:(discriminate).
Qed.

(** C9.  With [epoch_save_rate = None], [train] writes no checkpoint (no
    [save_weights] call, no weight file created or changed), and the save
    guard raises nothing: it is false before the modulo is reached, so
    [train] never raises the error of [(epoch + 1) % None]. *)
Theorem no_checkpoint_without_save_rate `{B : Backend} (train_clear train_fog : list tensor)
    (a : TrainArgs) (s : State) :
  epoch_save_rate a = None ->
  let r := (train train_clear train_fog a s).1 in
  let s' := (train train_clear train_fog a s).2 in
  save_count_of s' = save_count_of s /\
  no_new_h5 s s' /\
  (forall (self : Trainer) (epoch : Z),
     save_guard self epoch (epoch_save_rate a) = Ok false) /\
  r <> Raise mod_none_error.
Proof.
  intros Hrate r s'.
  destruct (train_no_checkpoint train_clear train_fog a Hrate s) as [Hcount Hfiles].
  split; [exact Hcount |]. split; [exact Hfiles |]. split.
  - intros t epoch. rewrite Hrate. unfold save_guard.
    destruct (is_None (weights_path t)); reflexivity.
  - intros Hr. apply (train_raises train_clear train_fog a Hrate s mod_none_error Hr).
    reflexivity.
Qed.

Lemma no_checkpoint_without_save_rate_witness :
  (@train toy_backend five_batches three_batches no_save_args trained_state).1 = Ok tt /\
  save_count_of (@train toy_backend five_batches three_batches no_save_args trained_state).2 = 0%nat /\
  (forall path w,
     files (world (@train toy_backend five_batches three_batches no_save_args trained_state).2)
       !! path <> Some (H5File w)) /\
  save_guard trained_trainer 0 None = Ok false.
Proof.
  destruct (@no_checkpoint_without_save_rate toy_backend five_batches three_batches
              no_save_args trained_state eq_refl)
    as (Hcount & Hfiles & Hguard & _).
  split; [vm_compute; reflexivity |]. split; [exact Hcount |]. split.
  - intros path w H. apply Hfiles in H. discriminate H.
  - exact (Hguard trained_trainer 0).
Defined.

(** ** The batch loop of an epoch *)

Lemma wp_bind {A C} (m : M A) (k : A -> M C) (s : State) (Q : res C -> State -> Prop) :
  (forall a s1, m s = (Ok a, s1) -> wp (k a) s1 Q) ->
  (forall e s1, m s = (Raise e, s1) -> Q (Raise e) s1) ->
  wp (m ≫= k) s Q.
Proof.
  intros Hok Herr. unfold wp. rewrite bind_unfold.
  destruct (m s) as [[a | e] s1]; simpl; [apply Hok | apply Herr]; reflexivity.
Qed.

Lemma batch_loop_cons `{B : Backend} rate len x y rest n0 t1 t2 t3 t4 :
  batch_loop rate len ((x, y) :: rest) n0 (t1, t2, t3, t4) =
    ('(l1, l2, l3, l4) ← train_step x y;
     r ← lift (py_mod n0 (Some rate));
     (if Z.eqb r 0 then emit (PrintProgress n0 len) else mret tt);;
     batch_loop rate len rest (n0 + 1)
       (total_add t1 l1, total_add t2 l2, total_add t3 l3, total_add t4 l4)).
Proof. reflexivity. Qed.

Lemma batch_loop_steps `{B : Backend} (dataset : list (tensor * tensor)) :
  forall rate len n0 totals s n totals' s',
    batch_loop rate len dataset n0 totals s = (Ok (n, totals'), s') ->
    n = n0 + Z.of_nat (length dataset) /\
    step_count_of s' = (step_count_of s + length dataset)%nat.
Proof.
  induction dataset as [| [x y] rest IH]; intros rate len n0 totals s n totals' s' Hrun.
  - inversion Hrun. subst. simpl. split; lia.
  - destruct totals as [[[t1 t2] t3] t4].
    rewrite batch_loop_cons, bind_unfold in Hrun.
    destruct (train_step x y s) as [[[[[l1 l2] l3] l4] | e] s1] eqn:Hstep;
      [| discriminate Hrun].
    apply train_step_counts in Hstep.
    rewrite bind_unfold in Hrun. unfold lift in Hrun.
    destruct (py_mod n0 (Some rate)) as [r | e]; [| discriminate Hrun].
    rewrite bind_unfold in Hrun.
    assert (Hprint : exists s2, (if Z.eqb r 0 then emit (PrintProgress n0 len) else mret tt) s1
                                = (Ok tt, s2) /\ step_count_of s2 = step_count_of s1).
    { destruct (Z.eqb r 0); eexists; split; reflexivity. }
    destruct Hprint as (s2 & Hp & Hc). rewrite Hp in Hrun.
    apply IH in Hrun as [Hn Hs]. simpl length. split; lia.
Qed.

(** A training step reads the trainer object only, and adds its events
    to the trace. *)
Lemma train_step_respects `{B : Backend} (x y : tensor) (t : Trainer) (w1 w2 : World) :
  List.filter is_training_event (trace w1) = List.filter is_training_event (trace w2) ->
  (train_step x y {| self := t; world := w1 |}).1 =
    (train_step x y {| self := t; world := w2 |}).1 /\
  training_input_of (train_step x y {| self := t; world := w1 |}).2 =
    training_input_of (train_step x y {| self := t; world := w2 |}).2.
Proof.
  intros Hf. unfold training_input_of, train_step, call, optimizer_apply.
  run. cbn [net_weights].
  destruct (calc_cycle_loss t x _) as [cycle_clear | e0]; run;
    [| cbn [trace log_event List.filter is_training_event]; rewrite Hf; split; reflexivity].
  destruct (calc_cycle_loss t y _) as [cycle_fog | e0]; run;
    [| cbn [trace log_event List.filter is_training_event]; rewrite Hf; split; reflexivity].
  destruct (identity_loss t y _) as [identity_fog | e0]; run;
    [| cbn [trace log_event List.filter is_training_event]; rewrite Hf; split; reflexivity].
  destruct (identity_loss t x _) as [identity_clear | e0]; run;
    [| cbn [trace log_event List.filter is_training_event]; rewrite Hf; split; reflexivity].
  repeat (match goal with
          | |- context [apply_gradients ?o ?g ?w] => destruct (apply_gradients o g w)
          end; run).
  cbn [trace log_event List.filter is_training_event]. rewrite Hf. split; reflexivity.
Qed.

Lemma for_each_ext {A} (xs : list A) (f g : A -> M unit) :
  (forall x s, f x s = g x s) -> forall s, for_each xs f s = for_each xs g s.
Proof.
  intros Hfg. induction xs as [| x xs IH]; intros s; [reflexivity |].
  rewrite !for_each_cons, Hfg. destruct (g x s) as [[[] | e] s1]; [apply IH | reflexivity].
Qed.

Lemma for_each_seq_shift (f : nat -> M unit) (m : nat) : forall k s,
  for_each (seq (S k) m) f s = for_each (seq k m) (fun i => f (S i)) s.
Proof.
  induction m as [| m IH]; intros k s; [reflexivity |].
  cbn [seq]. rewrite !for_each_cons.
  destruct (f (S k) s) as [[[] | e] s1]; [apply IH | reflexivity].
Qed.

(** Pairing by position is pairing by [zip]. *)
Lemma lockstep_steps_zip `{B : Backend} (train_clear : list tensor) :
  forall train_fog s,
    lockstep_steps train_clear train_fog s =
    for_each (zip train_clear train_fog) (fun '(c, f) => train_step c f;; mret tt) s.
Proof.
  unfold lockstep_steps.
  induction train_clear as [| x xs IH]; intros [| y ys] s; try reflexivity.
  cbn [length min seq zip zip_with]. rewrite !for_each_cons. cbn [lookup list_lookup].
  destruct ((train_step x y;; mret tt) s) as [[[] | e] s1]; [| reflexivity].
  rewrite for_each_seq_shift. rewrite <- IH. apply for_each_ext. intros i s2. reflexivity.
Qed.

(** The batch loop performs the steps of the zipped streams, in order. *)
Lemma batch_loop_lockstep `{B : Backend} (dataset : list (tensor * tensor)) :
  forall rate len n0 totals s1 s2 n totals' s1',
    training_input_of s1 = training_input_of s2 ->
    batch_loop rate len dataset n0 totals s1 = (Ok (n, totals'), s1') ->
    exists s2',
      for_each dataset (fun '(c, f) => train_step c f;; mret tt) s2 = (Ok tt, s2') /\
      training_input_of s1' = training_input_of s2'.
Proof.
  induction dataset as [| [x y] rest IH];
    intros rate len n0 totals s1 s2 n totals' s1' Hin Hrun.
  - inversion Hrun. subst. exists s2. split; [reflexivity | exact Hin].
  - destruct totals as [[[t1 t2] t3] t4].
    rewrite batch_loop_cons, bind_unfold in Hrun.
    destruct s1 as [t w1], s2 as [t' w2]. unfold training_input_of in Hin.
    cbn [self world] in Hin. injection Hin as <- Hf.
    destruct (train_step_respects x y t w1 w2 Hf) as [Hr Hs].
    destruct (train_step x y {| self := t; world := w1 |})
      as [[[[[l1 l2] l3] l4] | e] sa] eqn:Hstep1; [| discriminate Hrun].
    destruct (train_step x y {| self := t; world := w2 |}) as [r2 sb] eqn:Hstep2.
    cbn [fst snd] in Hr, Hs. subst r2.
    rewrite bind_unfold in Hrun. unfold lift in Hrun.
    destruct (py_mod n0 (Some rate)) as [r | e]; [| discriminate Hrun].
    rewrite bind_unfold in Hrun.
    assert (Hprint : exists sc, (if Z.eqb r 0 then emit (PrintProgress n0 len) else mret tt) sa
                                = (Ok tt, sc) /\
                                training_input_of sc = training_input_of sa).
    { destruct (Z.eqb r 0); eexists; split; reflexivity. }
    destruct Hprint as (sc & Hp & Hc). rewrite Hp in Hrun.
    rewrite <- Hc in Hs.
    destruct (IH _ _ _ _ sc sb _ _ _ Hs Hrun) as (s2' & Hrest & Hfinal).
    exists s2'. split; [| exact Hfinal].
    rewrite for_each_cons, bind_unfold, Hstep2. exact Hrest.
Qed.

(** C7.  One epoch consumes the two batch streams zipped in lockstep:
    an epoch that completes has performed exactly
    [min (length train_clear) (length train_fog)] training steps, which
    are the steps on the batches paired by position, in order (the
    networks, the optimisers and the events of training are those of
    these steps); the batches beyond the shorter stream play no part (the
    epoch behaves as on the truncated streams, so a length mismatch
    raises nothing); in particular streams of 5 and 3 batches give 3
    steps. *)
Theorem epoch_steps_min `{B : Backend} (train_clear train_fog : list tensor) (a : TrainArgs)
    (writers : option (string * string)) (len : option Z) (epoch : Z) (s : State) :
  let steps := min (length train_clear) (length train_fog) in
  (forall n s',
     epoch_body train_clear train_fog a writers len epoch s = (Ok n, s') ->
     n = Z.of_nat steps /\ step_count_of s' = (step_count_of s + steps)%nat) /\
  (forall n s',
     epoch_body train_clear train_fog a writers len epoch s = (Ok n, s') ->
     exists s_steps,
       lockstep_steps train_clear train_fog s = (Ok tt, s_steps) /\
       training_of s' = training_of s_steps) /\
  epoch_body train_clear train_fog a writers len epoch s =
    epoch_body (take steps train_clear) (take steps train_fog) a writers len epoch s /\
  (length train_clear = 5%nat -> length train_fog = 3%nat ->
   forall n s',
     epoch_body train_clear train_fog a writers len epoch s = (Ok n, s') ->
     n = 3 /\ step_count_of s' = (step_count_of s + 3)%nat).
Proof.
  intros steps.
  assert (Hsteps : forall n s',
            epoch_body train_clear train_fog a writers len epoch s = (Ok n, s') ->
            n = Z.of_nat steps /\ step_count_of s' = (step_count_of s + steps)%nat).
  { intros n s' Hrun.
    assert (Hwp : wp (epoch_body train_clear train_fog a writers len epoch) s
                    (fun r s1 => forall v, r = Ok v ->
                       v = Z.of_nat steps /\ step_count_of s1 = (step_count_of s + steps)%nat)).
    { pose proof (same_refl step_count_of s) as HI.
      unfold epoch_body.
      do 5 (eapply (wp_bind_preserves (same step_count_of) (same_trans step_count_of));
            [ keeps step_count_of | eassumption | | intros; discriminate ];
            clear HI; intros ? ? HI).
      apply wp_bind; [| intros; discriminate].
      intros [n1 [[[t1 t2] t3] t4]] sb Hbatch.
      apply batch_loop_steps in Hbatch as [Hn Hcount].
      rewrite length_zip in Hn, Hcount. fold steps in Hn, Hcount.
      unfold same in HI. rewrite HI in Hcount. clear HI.
      pose proof (same_refl step_count_of sb) as HI.
      do 14 (eapply (wp_bind_preserves (same step_count_of) (same_trans step_count_of));
             [ keeps step_count_of | eassumption | | intros; discriminate ];
             clear HI; intros ? ? HI).
      apply wp_ret. intros v Hv. inversion Hv. subst v.
      unfold same in HI. split; [lia | congruence]. }
    unfold wp in Hwp. rewrite Hrun in Hwp. exact (Hwp n eq_refl). }
  assert (Hlock : forall n s',
            epoch_body train_clear train_fog a writers len epoch s = (Ok n, s') ->
            exists s_steps,
              lockstep_steps train_clear train_fog s = (Ok tt, s_steps) /\
              training_of s' = training_of s_steps).
  { intros n s' Hrun.
    assert (Hwp : wp (epoch_body train_clear train_fog a writers len epoch) s
                    (fun r s1 => forall v, r = Ok v ->
                       exists s_steps,
                         lockstep_steps train_clear train_fog s = (Ok tt, s_steps) /\
                         training_of s1 = training_of s_steps)).
    { pose proof (same_refl training_input_of s) as HI.
      unfold epoch_body.
      do 5 (eapply (wp_bind_preserves (same training_input_of)
                      (same_trans training_input_of));
            [ keeps training_input_of | eassumption | | intros; discriminate ];
            clear HI; intros ? ? HI).
      apply wp_bind; [| intros; discriminate].
      intros [n1 [[[t1 t2] t3] t4]] sb Hbatch.
      unfold same in HI.
      destruct (batch_loop_lockstep _ _ _ _ _ _ s _ _ _ HI Hbatch) as (sl & Hl & Hsame).
      rewrite <- lockstep_steps_zip in Hl. clear HI.
      assert (Hmade : training_of sb = training_of sl).
      { unfold training_input_of in Hsame. unfold training_of.
        injection Hsame as -> ->. reflexivity. }
      pose proof (same_refl training_of sb) as HI.
      do 14 (eapply (wp_bind_preserves (same training_of) (same_trans training_of));
             [ keeps training_of | eassumption | | intros; discriminate ];
             clear HI; intros ? ? HI).
      apply wp_ret. intros v _. exists sl. split; [exact Hl |].
      unfold same in HI. congruence. }
    unfold wp in Hwp. rewrite Hrun in Hwp. exact (Hwp n eq_refl). }
  split; [exact Hsteps |]. split; [exact Hlock |]. split.
  - unfold epoch_body. subst steps.
    rewrite (zip_with_take_both' pair (min (length train_clear) (length train_fog))
               (min (length train_clear) (length train_fog)) train_clear train_fog) by lia.
    reflexivity.
  - intros H5 H3 n s' Hrun. apply Hsteps in Hrun. subst steps.
    rewrite H5, H3 in Hrun. exact Hrun.
Qed.

Lemma epoch_steps_min_witness :
  exists s' s_steps,
    @epoch_body stepping_backend five_batches three_batches single_epoch None None 0 fresh_state
      = (Ok 3, s') /\
    step_count_of s' = 3%nat /\
    @lockstep_steps stepping_backend five_batches three_batches fresh_state
      = (Ok tt, s_steps) /\
    training_of s' = training_of s_steps /\
    net_weights generator_clear2fog_id (self s') = [vec [F32.one]].
Proof.
  destruct (@epoch_steps_min stepping_backend five_batches three_batches single_epoch
              None None 0 fresh_state) as (_ & Hlock & _ & Hscenario).
  assert (Hrun : exists s', @epoch_body stepping_backend five_batches three_batches
                              single_epoch None None 0 fresh_state = (Ok 3, s'))
    by (eexists; vm_compute; reflexivity).
  destruct Hrun as [s' Hrun].
  destruct (Hlock 3 s' Hrun) as (s_steps & Hl & Hmade).
  destruct (Hscenario eq_refl eq_refl 3 s' Hrun) as [_ Hcount].
  exists s', s_steps. split; [exact Hrun |]. split; [exact Hcount |].
  split; [exact Hl |]. split; [exact Hmade |].
  apply (f_equal snd) in Hrun. cbn [snd] in Hrun. rewrite <- Hrun.
  vm_compute. reflexivity.
Defined.

(** ** The epoch counter *)

Lemma batch_loop_keeps_counter `{B : Backend} (dataset : list (tensor * tensor)) :
  forall rate len n totals, preserves (same counter_of) (batch_loop rate len dataset n totals).
Proof.
  induction dataset as [| [x y] rest IH]; intros; simpl; keeps counter_of.
Qed.

Lemma epoch_body_counter `{B : Backend} (train_clear train_fog : list tensor) (a : TrainArgs)
    (writers : option (string * string)) (len : option Z) (epoch : Z) (s s' : State) (n : Z) :
  epoch_body train_clear train_fog a writers len epoch s = (Ok n, s') ->
  py_add_one (total_epochs (self s)) = Ok (total_epochs (self s')) /\
  config_path (self s') = config_path (self s) /\
  (save_config_each_epoch a = true ->
   forall path, config_path (self s) = Some path ->
     files (world s') !! path = Some (JsonFile (config_of (self s')))).
Proof.
  intros Hrun.
  assert (Hwp : wp (epoch_body train_clear train_fog a writers len epoch) s
                  (fun r s1 => forall v, r = Ok v ->
                     py_add_one (total_epochs (self s)) = Ok (total_epochs (self s1)) /\
                     config_path (self s1) = config_path (self s) /\
                     (save_config_each_epoch a = true ->
                      forall path, config_path (self s) = Some path ->
                        files (world s1) !! path = Some (JsonFile (config_of (self s1)))))).
  { pose proof (same_refl counter_of s) as HI.
    pose proof batch_loop_keeps_counter as Hbatch.
    unfold epoch_body.
    do 16 (eapply (wp_bind_preserves (same counter_of) (same_trans counter_of));
           [ keeps counter_of | eassumption | | intros; discriminate ];
           clear HI; intros ? ? HI;
           repeat match goal with
                  | |- wp (let '(_, _) := ?x in _) _ _ => destruct x
                  end).
    unfold same, counter_of in HI. injection HI as Hte Hcp.
    apply wp_get_self, wp_lift.
    destruct (py_add_one (total_epochs (self s15))) as [total_next | e] eqn:Hadd;
      [| intros; discriminate].
    rewrite Hte in Hadd.
    apply wp_modify_self.
    destruct (save_config_each_epoch a).
    - unfold wp. rewrite bind_unfold. unfold save_config, open_and_dump. run.
      cbn [config_path set_total_epochs]. rewrite Hcp.
      destruct (config_path (self s)) as [p |]; run; [| intros; discriminate].
      destruct (String.eqb p "") eqn:Hp; run; [intros; discriminate |].
      intros v _. cbn. split; [exact Hadd |]. split; [exact Hcp |].
      intros _ path Hpath. injection Hpath as <-. apply lookup_insert_eq.
    - unfold wp. run. intros v _. cbn. split; [exact Hadd |]. split; [exact Hcp |].
      discriminate. }
  unfold wp in Hwp. rewrite Hrun in Hwp. exact (Hwp n eq_refl).
Qed.

Lemma load_config_session (path : string) (k : nat) (s s1 : State) r :
  path <> "" -> session_inv path k s ->
  load_config true s = (r, s1) ->
  counter_of s1 = (PInt (Z.of_nat k), Some path).
Proof.
  intros Hne [Hcp Hfile] Hload.
  destruct (files (world s) !! path) as [[[| | | | | | d] | |] |] eqn:Hf; try contradiction.
  - destruct (load_config_dict s path d Hcp Hne Hf) as (t' & Hrun & Hpers & Hunp).
    rewrite Hrun in Hload. inversion Hload. subst. unfold counter_of. cbn [self].
    apply (f_equal (fun p => p.1.2)) in Hpers.
    apply (f_equal (fun p => p.1.1.1.2)) in Hunp.
    cbn in Hpers, Hunp. unfold merged in Hpers. rewrite Hfile in Hpers.
    congruence.
  - destruct Hfile as [-> Hte].
    rewrite (load_config_missing true s path Hcp) in Hload.
    + inversion Hload. subst. unfold counter_of. cbn [self]. rewrite Hte, Hcp. reflexivity.
    + unfold path_exists. rewrite Hf. destruct (String.eqb path ""); reflexivity.
Qed.

Lemma train_single_epoch `{B : Backend} (train_clear train_fog : list tensor) (a : TrainArgs)
    (path : string) (k : nat) (s s' : State) :
  path <> "" ->
  persistent_single_epoch (Train train_clear train_fog a) = true ->
  session_inv path k s ->
  train train_clear train_fog a s = (Ok tt, s') ->
  session_inv path (S k) s' /\ total_epochs (self s') = PInt (Z.of_nat (S k)).
Proof.
  intros Hne Hargs Hinv Hrun. simpl in Hargs.
  apply andb_true_iff in Hargs as [Hargs Hsave].
  apply andb_true_iff in Hargs as [Hepochs Hload].
  apply Z.eqb_eq in Hepochs.
  assert (Hwp : wp (train train_clear train_fog a) s
                  (fun r s1 => r = Ok tt ->
                     session_inv path (S k) s1 /\
                     total_epochs (self s1) = PInt (Z.of_nat (S k)))).
  { unfold train. apply wp_get_self.
    rewrite Hload, (proj1 Hinv), Hepochs.
    rewrite bool_decide_eq_true_2 by discriminate. cbn [andb].
    apply wp_bind; [| intros; discriminate].
    intros [] s1 Hl. apply (load_config_session path k s s1 _ Hne Hinv) in Hl.
    assert (HI : same counter_of s1 s1) by reflexivity.
    do 2 (eapply (wp_bind_preserves (same counter_of) (same_trans counter_of));
          [ keeps counter_of | eassumption | | intros; discriminate ];
          clear HI; intros ? ? HI).
    unfold same in HI. rewrite Hl in HI.
    change (range 1) with [0]. cbn [epoch_loop].
    apply wp_bind; [| intros; discriminate].
    intros n s3 Hbody. apply epoch_body_counter in Hbody as (Hadd & Hcp & Hfile).
    unfold counter_of in HI. injection HI as Hte Hcp0.
    rewrite Hte in Hadd. rewrite Hcp0 in Hcp. specialize (Hfile Hsave path Hcp0).
    cbn in Hadd. injection Hadd as Hadd.
    apply wp_ret. intros _. split.
    - split; [exact Hcp |]. rewrite Hfile. cbn. rewrite <- Hadd. f_equal. f_equal. lia.
    - rewrite <- Hadd. f_equal. lia. }
  unfold wp in Hwp. rewrite Hrun in Hwp. exact (Hwp eq_refl).
Qed.

Lemma run_session_app `{B : Backend} (path : string) (l1 l2 : list session_step) :
  forall s s',
    run_session path (l1 ++ l2) s = (Ok tt, s') ->
    exists s1, run_session path l1 s = (Ok tt, s1) /\ run_session path l2 s1 = (Ok tt, s').
Proof.
  induction l1 as [| st l1 IH]; intros s s' Hrun.
  - exists s. split; [reflexivity | exact Hrun].
  - destruct st as [g1 g2 d1 d2 L lr b1 ni | tc tf a]; cbn [app run_session] in *;
      rewrite bind_unfold in *.
    + cbn in Hrun |- *. apply IH. exact Hrun.
    + destruct (train tc tf a s) as [[[] | e] s1]; [| discriminate Hrun].
      apply IH. exact Hrun.
Qed.

Lemma run_session_inv `{B : Backend} (path : string) (steps : list session_step) :
  path <> "" ->
  forall k s s',
    forallb persistent_single_epoch steps = true ->
    session_inv path k s ->
    run_session path steps s = (Ok tt, s') ->
    session_inv path (k + train_calls steps) s'.
Proof.
  intros Hne. induction steps as [| st steps IH]; intros k s s' Hall Hinv Hrun.
  - inversion Hrun. subst. unfold train_calls. simpl. rewrite Nat.add_0_r. exact Hinv.
  - cbn [forallb] in Hall. apply andb_true_iff in Hall as [Hst Hall].
    destruct st as [g1 g2 d1 d2 L lr b1 ni | tc tf a]; cbn [run_session] in Hrun;
      rewrite bind_unfold in Hrun.
    + cbn in Hrun. apply (IH k _ s' Hall) in Hrun; [exact Hrun |].
      destruct Hinv as [Hcp Hfile]. split; [reflexivity |].
      cbn [world self]. destruct (files (world s) !! path) as [[[| | | | | | d] | |] |];
        try contradiction; [exact Hfile |]. split; [apply Hfile | reflexivity].
    + destruct (train tc tf a s) as [[[] | e] s1] eqn:Htrain; [| discriminate Hrun].
      apply (train_single_epoch tc tf a path k s s1 Hne Hst Hinv) in Htrain as [Hinv1 _].
      apply (IH (S k) s1 s' Hall Hinv1) in Hrun.
      unfold train_calls in *. cbn [List.filter is_train length].
      replace (k + S (length (List.filter is_train steps)))%nat
        with (S k + length (List.filter is_train steps))%nat by lia.
      exact Hrun.
Qed.

Lemma epoch_callback_keeps_total_epochs `{B : Backend} sample_test p1 p2 p3 p4 :
  preserves (same total_epochs_of) (epoch_callback sample_test p1 p2 p3 p4).
Proof.
  destruct sample_test as [| [| a [| b [| c l]]] | [| a [| b [| c l]]] |];
    keeps total_epochs_of.
Qed.

(** In every outcome of an iteration of the epoch loop, the counter has
    either kept its value or been incremented after all the training
    steps of the epoch. *)
Lemma epoch_body_counter_timing `{B : Backend} (train_clear train_fog : list tensor)
    (a : TrainArgs) (writers : option (string * string)) (len : option Z) (epoch : Z)
    (s : State) :
  let s' := (epoch_body train_clear train_fog a writers len epoch s).2 in
  total_epochs (self s') = total_epochs (self s) \/
  (py_add_one (total_epochs (self s)) = Ok (total_epochs (self s')) /\
   step_count_of s' =
     (step_count_of s + min (length train_clear) (length train_fog))%nat).
Proof.
  set (steps := min (length train_clear) (length train_fog)).
  assert (Hwp : wp (epoch_body train_clear train_fog a writers len epoch) s
                  (fun _ s1 =>
                     total_epochs (self s1) = total_epochs (self s) \/
                     (py_add_one (total_epochs (self s)) = Ok (total_epochs (self s1)) /\
                      step_count_of s1 = (step_count_of s + steps)%nat))).
  { pose proof (same_refl progress_of s) as HI.
    unfold epoch_body.
    do 5 (eapply (wp_bind_preserves (same progress_of) (same_trans progress_of));
          [ keeps progress_of | eassumption
          | | intros ? ? HI'; unfold same, progress_of in HI'; injection HI' as Hte' _;
              left; exact Hte' ];
          clear HI; intros ? ? HI).
    match type of HI with same _ _ ?st => rename st into sa end.
    unfold same, progress_of in HI. injection HI as Hte Hst.
    apply wp_bind.
    - intros [n1 [[[t1 t2] t3] t4]] sb Hbatch.
      pose proof (batch_loop_keeps_counter (zip train_clear train_fog)
                    (progress_print_rate a) len 0 (TInt 0, TInt 0, TInt 0, TInt 0) sa) as Hkeep.
      rewrite Hbatch in Hkeep. unfold same, counter_of in Hkeep. cbn [snd] in Hkeep.
      injection Hkeep as Hte_b _.
      apply batch_loop_steps in Hbatch as [_ Hcount].
      rewrite length_zip in Hcount. fold steps in Hcount.
      assert (Hprog : progress_of sb = (total_epochs (self s), (step_count_of s + steps)%nat)).
      { unfold progress_of. rewrite Hte_b, Hte, Hcount, Hst. reflexivity. }
      clear Hte_b Hcount.
      pose proof (same_refl progress_of sb) as HI.
      do 10 (eapply (wp_bind_preserves (same progress_of) (same_trans progress_of));
             [ keeps progress_of | eassumption
             | | intros ? ? HI'; unfold same in HI'; rewrite Hprog in HI';
                 unfold progress_of in HI'; injection HI' as Hte' _; left; exact Hte' ];
             clear HI; intros ? ? HI).
      match type of HI with same _ _ ?st => rename st into sc end.
      unfold same in HI. rewrite Hprog in HI. unfold progress_of in HI.
      injection HI as Hte_c Hst_c.
      apply wp_get_self, wp_lift.
      destruct (py_add_one (total_epochs (self sc))) as [total_next | e] eqn:Hadd;
        [| left; exact Hte_c].
      rewrite Hte_c in Hadd.
      apply wp_modify_self.
      match goal with
      | |- wp _ ?st _ =>
          assert (HI : same progress_of st st) by reflexivity;
          assert (Hnext : progress_of st = (total_next, (step_count_of s + steps)%nat))
            by (unfold progress_of; cbn [self world set_total_epochs total_epochs];
                unfold step_count_of in *; cbn [world]; rewrite Hst_c; reflexivity)
      end.
      eapply (wp_bind_preserves (same progress_of) (same_trans progress_of)).
      + keeps progress_of.
      + exact HI.
      + intros ? ? HI'. apply wp_ret.
        unfold same in HI'. rewrite Hnext in HI'.
        unfold progress_of in HI'. injection HI' as Hte' Hst'.
        right. rewrite Hte', Hst'. split; [exact Hadd | reflexivity].
      + intros ? ? HI'.
        unfold same in HI'. rewrite Hnext in HI'.
        unfold progress_of in HI'. injection HI' as Hte' Hst'.
        right. rewrite Hte', Hst'. split; [exact Hadd | reflexivity].
    - intros e sb Hbatch.
      pose proof (batch_loop_keeps_counter (zip train_clear train_fog)
                    (progress_print_rate a) len 0 (TInt 0, TInt 0, TInt 0, TInt 0) sa) as Hkeep.
      rewrite Hbatch in Hkeep. unfold same, counter_of in Hkeep. cbn [snd] in Hkeep.
      injection Hkeep as Hte_b _. left. congruence. }
  exact Hwp.
Qed.

(** C1 (as amended).  Every completed iteration of the epoch loop adds
    exactly one to [total_epochs], and it does so after the batch stream
    is exhausted: in every outcome of an iteration the counter has either
    kept its value, or been incremented with all the training steps of
    the epoch performed; [save_config], [configure_checkpoint],
    [save_weights], [train_step] and the sample callback leave it as it
    is ([load_config] alone replaces it, by the stored value); and after
    [N] calls of [train] with [epochs=1] that load the config first and
    save it after the epoch, from a fresh trainer without config file and
    across restarts on the same config file, [total_epochs] is [N]. *)
Theorem total_epochs_counts_completed_epochs `{B : Backend} :
  (forall train_clear train_fog a writers len epoch s n s',
     epoch_body train_clear train_fog a writers len epoch s = (Ok n, s') ->
     py_add_one (total_epochs (self s)) = Ok (total_epochs (self s'))) /\
  (forall train_clear train_fog a writers len epoch s,
     let s' := (epoch_body train_clear train_fog a writers len epoch s).2 in
     total_epochs (self s') = total_epochs (self s) \/
     (py_add_one (total_epochs (self s)) = Ok (total_epochs (self s')) /\
      step_count_of s' =
        (step_count_of s + min (length train_clear) (length train_fog))%nat)) /\
  (forall s,
     total_epochs (self (save_config s).2) = total_epochs (self s) /\
     total_epochs (self (save_weights s).2) = total_epochs (self s) /\
     (forall weights_path,
        total_epochs (self (configure_checkpoint weights_path s).2) = total_epochs (self s)) /\
     (forall real_clear real_fog,
        total_epochs (self (train_step real_clear real_fog s).2) = total_epochs (self s)) /\
     (forall sample_test p1 p2 p3 p4,
        total_epochs (self (epoch_callback sample_test p1 p2 p3 p4 s).2) =
        total_epochs (self s))) /\
  (forall path steps train_clear train_fog a s0 s',
     path <> "" ->
     config_path (self s0) = Some path ->
     total_epochs (self s0) = PInt 0 ->
     files (world s0) !! path = None ->
     forallb persistent_single_epoch (steps ++ [Train train_clear train_fog a]) = true ->
     run_session path (steps ++ [Train train_clear train_fog a]) s0 = (Ok tt, s') ->
     total_epochs (self s') =
       PInt (Z.of_nat (train_calls (steps ++ [Train train_clear train_fog a])))).
Proof.
  split; [| split; [| split]].
  - intros tc tf a writers len epoch s n s' Hrun.
    apply epoch_body_counter in Hrun. apply Hrun.
  - intros tc tf a writers len epoch s. apply epoch_body_counter_timing.
  - intros s.
    assert (H1 : preserves (same total_epochs_of) save_config) by keeps total_epochs_of.
    assert (H2 : preserves (same total_epochs_of) save_weights) by keeps total_epochs_of.
    assert (H3 : forall v, preserves (same total_epochs_of) (configure_checkpoint v))
      by (intros v; keeps total_epochs_of).
    assert (H4 : forall x y, preserves (same total_epochs_of) (train_step x y))
      by (intros x y; keeps total_epochs_of).
    pose proof epoch_callback_keeps_total_epochs as H5.
    split; [exact (H1 s) |]. split; [exact (H2 s) |]. split; [intros v; exact (H3 v s) |].
    split; [intros x y; exact (H4 x y s) | intros t p1 p2 p3 p4; exact (H5 t p1 p2 p3 p4 s)].
  - intros path steps tc tf a s0 s' Hne Hcp Hte Hfile Hall Hrun.
    apply run_session_app in Hrun as (s1 & Hrun1 & Hrun2).
    rewrite forallb_app in Hall. apply andb_true_iff in Hall as [Hall Hlast].
    cbn [forallb] in Hlast. rewrite andb_true_r in Hlast.
    assert (Hinv0 : session_inv path 0 s0).
    { split; [exact Hcp |]. rewrite Hfile. split; [reflexivity | exact Hte]. }
    apply (run_session_inv path steps Hne 0 s0 s1 Hall Hinv0) in Hrun1.
    cbn [run_session] in Hrun2. rewrite bind_unfold in Hrun2.
    destruct (train tc tf a s1) as [[[] | e] s2] eqn:Htrain; [| discriminate Hrun2].
    inversion Hrun2. subst s2.
    apply (train_single_epoch tc tf a path _ s1 s' Hne Hlast Hrun1) in Htrain as [_ Htotal].
    rewrite Htotal. unfold train_calls. rewrite List.filter_app, length_app.
    cbn. do 2 f_equal. lia.
Qed.

Lemma total_epochs_counts_completed_epochs_witness :
  exists s',
    @run_session toy_backend "trainer_config.json" example_session fresh_state = (Ok tt, s') /\
    total_epochs (self s') = PInt 3.
Proof.
  destruct (@total_epochs_counts_completed_epochs toy_backend) as (_ & _ & _ & Hcalls).
  eexists. split; [vm_compute; reflexivity |].
  match goal with
  | |- total_epochs (self ?s') = _ =>
      apply (Hcalls "trainer_config.json"
               [ Train five_batches three_batches single_epoch;
                 Restart [] [] [] [] default_LAMBDA default_lr default_beta_1 true;
                 Train three_batches five_batches single_epoch ]
               [] [] single_epoch fresh_state s');
        [discriminate | reflexivity | reflexivity | reflexivity | reflexivity
        | vm_compute; reflexivity]
  end.
Defined.

(** C1 (as stated) fails: [load_config] lowers [total_epochs] when the
    stored config is behind the trainer.  After a call that persists one
    epoch and a call of two epochs that does not save the config,
    [total_epochs] is 3; the next call reloads the stored 1 and ends at 2. *)
Lemma total_epochs_decreases_on_stale_config :
  total_epochs (self after_unsaved_call) = PInt 3 /\
  total_epochs (self (load_config true after_unsaved_call).2) = PInt 1 /\
  (@train toy_backend [] [] single_epoch after_unsaved_call).1 = Ok tt /\
  total_epochs (self after_third_call) = PInt 2 /\
  ~ (forall s : State,
       int_le (total_epochs (self s)) (total_epochs (self (load_config true s).2))) /\
  ~ (forall (B : Backend) train_clear train_fog a (s : State),
       int_le (total_epochs (self s))
              (total_epochs (self (@train B train_clear train_fog a s).2))).
Proof.
  split; [vm_compute; reflexivity |]. split; [vm_compute; reflexivity |].
  split; [vm_compute; reflexivity |]. split; [vm_compute; reflexivity |].
  split.
  - intros H. specialize (H after_unsaved_call). vm_compute in H. apply H. reflexivity.
  - intros H. specialize (H toy_backend [] [] single_epoch after_unsaved_call).
    vm_compute in H. apply H. reflexivity.
Qed.

(** * Further properties *)

(** ** Symmetry of the losses *)

Lemma abs_binary_round_aux_sign (prec emax : Z) (m e : Z) (l : location) :
  SFabs (binary_round_aux prec emax true m e l) = SFabs (binary_round_aux prec emax false m e l).
Proof.
  unfold binary_round_aux.
  destruct (shr_fexp prec emax m e l) as [mrs' e'].
  destruct (shr_fexp prec emax _ e' loc_Exact) as [mrs'' e''].
  destruct (shr_m mrs''); try reflexivity.
  destruct (Z.leb e'' (emax - prec)); reflexivity.
Qed.

Lemma abs_binary_normalize_opp (prec emax : Z) (m e : Z) :
  SFabs (binary_normalize prec emax (- m) e false) = SFabs (binary_normalize prec emax m e false).
Proof.
  destruct m as [| p | p]; simpl; try reflexivity; unfold binary_round;
    destruct (shl_align p e _) as [mz ez];
    [| symmetry]; apply abs_binary_round_aux_sign.
Qed.

Lemma F32_abs_sub_comm (x y : spec_float) :
  F32.abs (F32.sub x y) = F32.abs (F32.sub y x).
Proof.
  unfold F32.abs, F32.sub.
  destruct x as [sx | sx | | sx mx ex], y as [sy | sy | | sy my ey]; simpl;
    try reflexivity; try (destruct sx, sy; reflexivity).
  rewrite (Z.min_comm ey ex).
  rewrite <- abs_binary_normalize_opp. f_equal. f_equal. lia.
Qed.

Lemma broadcast_dim_comm (x y : nat) : tf.broadcast_dim x y = tf.broadcast_dim y x.
Proof.
  unfold tf.broadcast_dim.
  destruct (Nat.eqb_spec x y) as [-> | Hxy]; [rewrite Nat.eqb_refl; reflexivity |].
  destruct (Nat.eqb_spec y x) as [-> | _]; [congruence |].
  destruct (Nat.eqb_spec x 1) as [-> | Hx], (Nat.eqb_spec y 1) as [-> | Hy];
    congruence.
Qed.

Lemma broadcast_dims_comm (a : list nat) : forall b,
  tf.broadcast_dims a b = tf.broadcast_dims b a.
Proof.
  induction a as [| x a IH]; intros [| y b]; simpl; try reflexivity.
  rewrite (broadcast_dim_comm x y), (IH b). reflexivity.
Qed.

Lemma broadcast_shape_comm (a b : list nat) :
  tf.broadcast_shape a b = tf.broadcast_shape b a.
Proof. unfold tf.broadcast_shape. rewrite broadcast_dims_comm. reflexivity. Qed.

Lemma zip_with_abs_sub_comm (l1 : list spec_float) : forall l2,
  map F32.abs (zip_with F32.sub l1 l2) = map F32.abs (zip_with F32.sub l2 l1).
Proof.
  induction l1 as [| x l1 IH]; intros [| y l2]; simpl; try reflexivity.
  rewrite (F32_abs_sub_comm x y), (IH l2). reflexivity.
Qed.

Lemma subtract_abs_comm (a b : tensor) :
  option_map tf.abs (tf.elementwise F32.sub a b) =
  option_map tf.abs (tf.elementwise F32.sub b a).
Proof.
  unfold tf.elementwise. rewrite (broadcast_shape_comm (shape a) (shape b)).
  destruct (tf.broadcast_shape (shape b) (shape a)) as [out |]; [| reflexivity].
  unfold tf.abs. simpl. rewrite zip_with_abs_sub_comm. reflexivity.
Qed.

(** X1.  The cycle loss and the identity loss are symmetric in their two
    images, for all tensors: whatever the shapes and the elements (NaN
    and infinities included), the two orders give the same float when the
    shapes broadcast, and both raise when they do not. *)
Theorem cycle_and_identity_loss_symmetric (self : Trainer) (a b : tensor) :
  calc_cycle_loss self a b = calc_cycle_loss self b a /\
  identity_loss self a b = identity_loss self b a.
Proof.
  unfold calc_cycle_loss, identity_loss, tf.subtract.
  pose proof (subtract_abs_comm a b) as H.
  destruct (tf.elementwise F32.sub a b) as [d |], (tf.elementwise F32.sub b a) as [d' |];
    cbn [option_map] in H; try discriminate H; [| split; reflexivity].
  assert (Habs : tf.abs d = tf.abs d') by congruence.
  unfold mbind, res_bind. rewrite Habs. split; reflexivity.
Qed.

(** ** Saving and restoring checkpoints *)

Lemma string_app_inv_head (a b c : string) : a ++ b = a ++ c -> b = c.
Proof.
  induction a as [| ch a IH]; simpl; intros H; [exact H |].
  injection H as H. exact (IH H).
Qed.

(** The four weight files of a directory have different paths. *)
Lemma checkpoint_path_inj (dir : string) (n m : net_id) :
  checkpoint_path dir n = checkpoint_path dir m -> n = m.
Proof.
  unfold checkpoint_path, os_path.join.
  destruct n, m; simpl; try reflexivity;
    (destruct (String.eqb dir "" || os_path.ends_with_slash dir); intros H;
     apply string_app_inv_head in H; discriminate H).
Qed.

Lemma save_weights_run (s : State) (dir : string) :
  weights_path (self s) = PStr dir ->
  exists s1,
    save_weights s = (Ok tt, s1) /\
    self s1 = self s /\
    (forall n, files (world s1) !! checkpoint_path dir n = Some (H5File (net_weights n (self s)))) /\
    (forall path, (forall n, path <> checkpoint_path dir n) ->
                  files (world s1) !! path = files (world s) !! path) /\
    save_count_of s1 = (save_count_of s + 4)%nat /\
    step_count_of s1 = step_count_of s /\
    clock (world s1) = clock (world s).
Proof.
  intros Hdir. unfold save_weights. run.
  rewrite (get_models_and_paths_str _ dir Hdir). run. simpl zip.
  repeat (rewrite for_each_cons; cbn beta iota; unfold save_model_weights; run).
  eexists. split; [reflexivity |]. cbn [self world files trace clock log_event write_file].
  split; [reflexivity |]. split; [| split; [| split; [| split]]].
  - intros n. destruct n;
      repeat first [ rewrite lookup_insert_eq; reflexivity
                   | rewrite lookup_insert_ne
                       by (intros H; apply checkpoint_path_inj in H; discriminate H) ].
  - intros path Hpath. rewrite !lookup_insert_ne by (intros H; symmetry in H; exact (Hpath _ H)).
    reflexivity.
  - unfold save_count_of, count_events. simpl. lia.
  - reflexivity.
  - reflexivity.
Qed.

(** X2.  A checkpoint round-trips: once [save_weights] has returned
    normally (which takes an existing checkpoint directory),
    [configure_checkpoint] on that directory, in the same trainer or in
    another one whose networks have the same structure, returns normally
    and gives the four networks the saved variables.  The optimisers are
    not part of the checkpoint: they stay those of the restoring trainer. *)
Theorem checkpoint_round_trip `{B : Backend} (s s1 : State) (dir : string) (t : Trainer) :
  weights_path (self s) = PStr dir ->
  save_weights s = (Ok tt, s1) ->
  (forall n, same_shapes (net_weights n t) (net_weights n (self s)) = true) ->
  exists s2,
    configure_checkpoint (PStr dir) {| self := t; world := world s1 |} = (Ok tt, s2) /\
    (forall n, net_weights n (self s2) = net_weights n (self s)) /\
    (forall n, net_optimizer n (self s2) = net_optimizer n t) /\
    weights_path (self s2) = PStr dir /\
    files (world s2) = files (world s1).
Proof.
  intros Hdir Hsaved Hfit.
  destruct (save_weights_run s dir Hdir) as (s1' & Hsave & _ & Hfiles & _).
  rewrite Hsaved in Hsave. injection Hsave as <-.
  unfold configure_checkpoint. run.
  rewrite (get_models_and_paths_str _ dir) by reflexivity. run. simpl zip.
  repeat (rewrite for_each_cons; cbn beta iota;
          erewrite restore_one_present
            by first [ apply checkpoint_path_nonempty | apply Hfiles
                     | match goal with
                       | |- same_shapes (net_weights ?n _) _ = true => exact (Hfit n)
                       end ]).
  eexists. split; [reflexivity |].
  cbn [self world files log_event].
  split; [intros n; destruct n; reflexivity |].
  split; [intros n; destruct n; reflexivity |].
  split; reflexivity.
Qed.

Lemma checkpoint_round_trip_witness :
  exists s1 s2,
    save_weights checkpointed_state = (Ok tt, s1) /\
    @configure_checkpoint toy_backend (PStr "weights")
      {| self := blank_trainer; world := world s1 |} = (Ok tt, s2) /\
    net_weights generator_clear2fog_id (self s2) = [vec [F32.one]] /\
    net_weights generator_fog2clear_id (self s2) = [vec [F32.half]] /\
    net_weights discriminator_fog_id (self s2) = [vec [F32.zero]] /\
    net_weights discriminator_clear_id (self s2) = [vec [F32.one; F32.half]].
Proof.
  assert (Hsave : exists s1, save_weights checkpointed_state = (Ok tt, s1))
    by (eexists; vm_compute; reflexivity).
  destruct Hsave as [s1 Hsave].
  destruct (@checkpoint_round_trip toy_backend checkpointed_state s1 "weights" blank_trainer
              eq_refl Hsave)
    as (s2 & Hrestore & Hnets & _).
  - intros n. destruct n; reflexivity.
  - exists s1, s2. split; [exact Hsave |]. split; [exact Hrestore |].
    split; [exact (Hnets generator_clear2fog_id) |].
    split; [exact (Hnets generator_fog2clear_id) |].
    split; [exact (Hnets discriminator_fog_id) | exact (Hnets discriminator_clear_id)].
Defined.

(** X3.  A checkpoint directory that is a JSON value other than a string
    ([None] as [__init__] sets it, or a boolean, a number, a list or an
    object as [load_config] can install them) makes [save_weights] raise
    a [TypeError] and write nothing, and makes [configure_checkpoint]
    raise a [TypeError] after it has stored the value in [weights_path],
    without creating a directory or loading anything. *)
Theorem non_string_checkpoint_dir_raises `{B : Backend} (s : State) :
  (is_string (weights_path (self s)) = false ->
   exists msg, save_weights s = (Raise (TypeError msg), s)) /\
  (forall v, is_string v = false ->
   exists msg,
     configure_checkpoint v s =
       (Raise (TypeError msg), {| self := set_weights_path v (self s); world := world s |})).
Proof.
  split.
  - intros Hv. unfold save_weights. run. unfold get_models_and_paths.
    destruct (weights_path (self s)); try discriminate Hv; simpl;
      eexists; destruct s; reflexivity.
  - intros v Hv. unfold configure_checkpoint. run. unfold get_models_and_paths.
    cbn [weights_path set_weights_path].
    destruct v; try discriminate Hv; simpl; eexists; reflexivity.
Qed.

Lemma non_string_checkpoint_dir_raises_witness :
  (exists msg, save_weights fresh_state = (Raise (TypeError msg), fresh_state)) /\
  (exists msg,
     @configure_checkpoint toy_backend (PList [PStr "weights"]) trained_state =
       (Raise (TypeError msg),
        {| self := set_weights_path (PList [PStr "weights"]) trained_trainer;
           world := empty_world |})).
Proof.
  destruct (@non_string_checkpoint_dir_raises toy_backend fresh_state) as [Hsave _].
  destruct (@non_string_checkpoint_dir_raises toy_backend trained_state) as [_ Hconf].
  split; [apply Hsave; reflexivity | apply (Hconf (PList [PStr "weights"])); reflexivity].
Defined.

(** ** The effects of a training step *)

Lemma train_step_keeps_hyperparameters `{B : Backend} (x y : tensor) :
  preserves (same hyperparameters_of) (train_step x y).
Proof. keeps hyperparameters_of. Qed.

(** What a step does to the trainer and to the trace, by outcome. *)
Lemma train_step_run `{B : Backend} (real_clear real_fog : tensor) (s : State) :
  let r := (train_step real_clear real_fog s).1 in
  let s' := (train_step real_clear real_fog s).2 in
  (forall e, r = Raise e -> self s' = self s /\ step_count_of s' = step_count_of s) /\
  (forall v, r = Ok v ->
   forall n,
     (net_weights n (self s'), net_optimizer n (self s')) =
     apply_gradients (net_optimizer n (self s))
                     (tape_gradient n (self s) real_clear real_fog)
                     (net_weights n (self s))).
Proof.
  intros r s'. subst r s'. unfold train_step, call, optimizer_apply.
  run. cbn [net_weights].
  destruct (calc_cycle_loss (self s) real_clear _) as [cycle_clear | e0];
    [| split; [intros; split; reflexivity | discriminate]].
  run.
  destruct (calc_cycle_loss (self s) real_fog _) as [cycle_fog | e0];
    [| split; [intros; split; reflexivity | discriminate]].
  run.
  destruct (identity_loss (self s) real_fog _) as [identity_fog | e0];
    [| split; [intros; split; reflexivity | discriminate]].
  run.
  destruct (identity_loss (self s) real_clear _) as [identity_clear | e0];
    [| split; [intros; split; reflexivity | discriminate]].
  run. cbn [net_weights net_optimizer].
  destruct (apply_gradients (generator_clear2fog_optimizer (self s)) _ _) as [w1 o1] eqn:E1.
  run. cbn [net_weights net_optimizer set_net generator_fog2clear generator_fog2clear_optimizer].
  destruct (apply_gradients (generator_fog2clear_optimizer (self s)) _ _) as [w2 o2] eqn:E2.
  run. cbn [net_weights net_optimizer set_net discriminator_clear discriminator_clear_optimizer].
  destruct (apply_gradients (discriminator_clear_optimizer (self s)) _ _) as [w3 o3] eqn:E3.
  run. cbn [net_weights net_optimizer set_net discriminator_fog discriminator_fog_optimizer].
  destruct (apply_gradients (discriminator_fog_optimizer (self s)) _ _) as [w4 o4] eqn:E4.
  run. split; [discriminate |].
  intros v _ n. destruct n; cbn; congruence.
Qed.

(** X4.  A training step changes nothing but the networks and their
    optimisers: the hyperparameters, the persisted attributes, the files
    and the clock stay as they are; and a step that raises (the losses
    are computed before any optimiser runs) has updated no network at
    all. *)
Theorem train_step_only_updates_networks `{B : Backend} (real_clear real_fog : tensor)
    (s : State) :
  hyperparameters_of (train_step real_clear real_fog s).2 = hyperparameters_of s /\
  (forall e, (train_step real_clear real_fog s).1 = Raise e ->
     self (train_step real_clear real_fog s).2 = self s).
Proof.
  split; [exact (train_step_keeps_hyperparameters real_clear real_fog s) |].
  intros e He. apply (proj1 (train_step_run real_clear real_fog s) e He).
Qed.

Lemma train_step_only_updates_networks_witness :
  (@train_step growing_backend (vec [F32.one; F32.half]) (vec [F32.half; F32.one])
     fresh_state).1 = Raise IncompatibleShapes /\
  self (@train_step growing_backend (vec [F32.one; F32.half]) (vec [F32.half; F32.one])
          fresh_state).2 = fresh_trainer.
Proof.
  destruct (@train_step_only_updates_networks growing_backend
              (vec [F32.one; F32.half]) (vec [F32.half; F32.one]) fresh_state)
    as [_ Hraise].
  assert (Hr : (@train_step growing_backend (vec [F32.one; F32.half])
                  (vec [F32.half; F32.one]) fresh_state).1 = Raise IncompatibleShapes)
    by (vm_compute; reflexivity).
  split; [exact Hr | exact (Hraise _ Hr)].
Defined.

(** X5.  In a step that returns, every network is updated exactly once,
    by its own optimiser, from the gradient taken on the recording made
    with the networks as they were on entry: the result for one network
    does not depend on the updates of the others, whatever their order. *)
Theorem train_step_updates_from_entry_state `{B : Backend} (real_clear real_fog : tensor)
    (s : State) (n : net_id) :
  (exists v, (train_step real_clear real_fog s).1 = Ok v) ->
  (net_weights n (self (train_step real_clear real_fog s).2),
   net_optimizer n (self (train_step real_clear real_fog s).2)) =
  apply_gradients (net_optimizer n (self s))
                  (tape_gradient n (self s) real_clear real_fog)
                  (net_weights n (self s)).
Proof.
  intros [v Hv]. exact (proj2 (train_step_run real_clear real_fog s) v Hv n).
Qed.

Lemma train_step_updates_from_entry_state_witness :
  (net_weights discriminator_fog_id
     (self (@train_step stepping_backend (vec [F32.one]) (vec [F32.half]) fresh_state).2),
   net_optimizer discriminator_fog_id
     (self (@train_step stepping_backend (vec [F32.one]) (vec [F32.half]) fresh_state).2)) =
  @apply_gradients stepping_backend
    (net_optimizer discriminator_fog_id fresh_trainer)
    (@tape_gradient stepping_backend discriminator_fog_id fresh_trainer (vec [F32.one]) (vec [F32.half]))
    (net_weights discriminator_fog_id fresh_trainer) /\
  fst (@apply_gradients stepping_backend
         (net_optimizer discriminator_fog_id fresh_trainer)
         (@tape_gradient stepping_backend discriminator_fog_id fresh_trainer
            (vec [F32.one]) (vec [F32.half]))
         (net_weights discriminator_fog_id fresh_trainer)) = [vec [F32.one]].
Proof.
  split; [| vm_compute; reflexivity].
  apply (@train_step_updates_from_entry_state stepping_backend (vec [F32.one]) (vec [F32.half])
           fresh_state discriminator_fog_id).
  eexists. vm_compute. reflexivity.
Defined.
(** ** Failures of the config persistence *)

Lemma load_key_nondict (v : pyval) (key : string) (set : pyval -> Trainer -> Trainer)
    (s : State) :
  is_dict v = false -> (load_key v key set s).2 = s.
Proof.
  intros Hv. unfold load_key. run.
  destruct v; try discriminate Hv; simpl; try reflexivity.
  - destruct (is_substring _ _ _); reflexivity.
  - destruct (existsb _ _); reflexivity.
Qed.

Lemma load_config_dict_ok (flag : bool) (s : State) (path : string) (d : list (string * pyval)) :
  config_path (self s) = Some path ->
  files (world s) !! path = Some (JsonFile (PDict d)) ->
  (load_config flag s).1 = Ok tt.
Proof.
  intros Hpath Hfile. unfold load_config. run. rewrite Hpath. run.
  unfold path_exists. rewrite Hfile.
  destruct (String.eqb path ""); simpl; [reflexivity |].
  unfold open_and_load. run. rewrite Hfile. run.
  destruct flag; repeat (rewrite load_key_dict; run); reflexivity.
Qed.

(** X6.  [load_config] never leaves a half-loaded trainer: whenever it
    raises (no config path, a file that is not JSON, a JSON value that is
    not an object), no attribute has been changed, no file touched and
    nothing printed. *)
Theorem load_config_failure_changes_nothing (flag : bool) (s s' : State) (e : exn) :
  load_config flag s = (Raise e, s') -> s' = s.
Proof.
  unfold load_config. run.
  destruct (config_path (self s)) as [path |] eqn:Hpath; run;
    [| intros H; inversion H; reflexivity].
  destruct (path_exists path (world s)) eqn:Hex; simpl; run; [| discriminate].
  unfold open_and_load. run.
  destruct (files (world s) !! path) as [[v | w | ] |] eqn:Hfile; run;
    try (intros H; inversion H; reflexivity).
  destruct (is_dict v) eqn:Hv.
  - destruct v; try discriminate Hv. intros H.
    pose proof (load_config_dict_ok flag s path d Hpath Hfile) as Hok.
    exfalso. revert Hok. unfold load_config. run. rewrite Hpath. run.
    rewrite Hex. simpl. unfold open_and_load. run. rewrite Hfile. run.
    rewrite H. discriminate.
  - intros H. destruct flag;
      repeat (rewrite ?bind_unfold in H;
              match type of H with
              | context [load_key v ?k ?f ?st] =>
                  let E := fresh "E" in
                  pose proof (load_key_nondict v k f st Hv) as E;
                  destruct (load_key v k f st) as [[[] | ?] ?]; simpl in E; subst;
                  [| inversion H; reflexivity]
              end);
      discriminate H.
Qed.

Lemma load_config_failure_changes_nothing_witness :
  load_config true string_config_state =
    (Raise (TypeError "indices must be integers"), string_config_state) /\
  load_config true garbage_config_state =
    (Raise (JSONDecodeError "trainer_config.json"), garbage_config_state).
Proof.
  assert (H1 : exists s', load_config true string_config_state =
                          (Raise (TypeError "indices must be integers"), s'))
    by (eexists; vm_compute; reflexivity).
  assert (H2 : exists s', load_config true garbage_config_state =
                          (Raise (JSONDecodeError "trainer_config.json"), s'))
    by (eexists; vm_compute; reflexivity).
  destruct H1 as [s1 H1], H2 as [s2 H2].
  rewrite <- (load_config_failure_changes_nothing _ _ _ _ H1) at 2.
  rewrite <- (load_config_failure_changes_nothing _ _ _ _ H2) at 2.
  split; assumption.
Defined.


(** ** The sample callback as pure inference *)

Lemma epoch_callback_keeps_trainer `{B : Backend} sample_test p1 p2 p3 p4 :
  preserves (same untouched_by_inference) (epoch_callback sample_test p1 p2 p3 p4).
Proof.
  destruct sample_test as [| [| a [| b [| c l]]] | [| a [| b [| c l]]] |];
    frame (same_refl untouched_by_inference) (same_trans untouched_by_inference)
          ltac:(intros [? ?]; reflexivity).
Qed.

Lemma epoch_callback_tuple_as_list `{B : Backend} (l : list tensor) p1 p2 p3 p4 :
  epoch_callback (STuple l) p1 p2 p3 p4 = epoch_callback (SList l) p1 p2 p3 p4.
Proof. reflexivity. Qed.

Lemma epoch_callback_pair_inferences `{B : Backend} (a b : tensor) p1 p2 p3 p4 (s : State) :
  count_events is_inference (trace (world (epoch_callback (SList [a; b]) p1 p2 p3 p4 s).2)) =
    (count_events is_inference (trace (world s)) + 6)%nat /\
  (p1 || p2 || p3 || p4 = false ->
   (epoch_callback (SList [a; b]) p1 p2 p3 p4 s).1 = Ok tt /\
   count_events is_visualization (trace (world (epoch_callback (SList [a; b]) p1 p2 p3 p4 s).2)) =
     count_events is_visualization (trace (world s))).
Proof.
  unfold epoch_callback, call.
  destruct p1, p2, p3, p4; run; cbn [orb];
    destruct (image_log_path (self s)); run; unfold count_events; simpl;
    (split; [lia | first [discriminate | intros _; split; reflexivity]]).
Qed.

(** X8.  The sample callback is inference only: whatever its arguments
    and its outcome, it leaves the trainer object (networks, optimisers,
    attributes) as it is, reads no clock, calls no network in training
    mode and applies no optimiser.  On a pair it calls the networks
    exactly six times; on anything else it calls none. *)
Theorem epoch_callback_is_inference_only `{B : Backend} (sample_test : sample_arg)
    (p1 p2 p3 p4 : bool) (s : State) :
  let s' := (epoch_callback sample_test p1 p2 p3 p4 s).2 in
  untouched_by_inference s' = untouched_by_inference s /\
  count_events is_inference (trace (world s')) =
    (count_events is_inference (trace (world s)) + if is_pair sample_test then 6 else 0)%nat.
Proof.
  intros s'. split; [exact (epoch_callback_keeps_trainer sample_test p1 p2 p3 p4 s) |].
  subst s'.
  destruct sample_test as [| [| a [| b [| c l]]] | [| a [| b [| c l]]] |];
    try rewrite epoch_callback_tuple_as_list;
    try (cbn; lia);
    apply epoch_callback_pair_inferences.
Qed.

(** X9.  With the four plot and save toggles off, the callback on a pair
    still runs the six inferences but invokes no visualization
    collaborator, and it returns normally whatever [image_log_path]
    holds. *)
Theorem epoch_callback_silent_without_toggles `{B : Backend} (sample_test : sample_arg)
    (s : State) :
  is_pair sample_test = true ->
  (epoch_callback sample_test false false false false s).1 = Ok tt /\
  count_events is_visualization
    (trace (world (epoch_callback sample_test false false false false s).2)) =
  count_events is_visualization (trace (world s)).
Proof.
  intros Hpair.
  destruct sample_test as [| [| a [| b [| c l]]] | [| a [| b [| c l]]] |];
    try discriminate Hpair; try rewrite epoch_callback_tuple_as_list;
    apply epoch_callback_pair_inferences; reflexivity.
Qed.

Lemma epoch_callback_silent_without_toggles_witness :
  (@epoch_callback toy_backend (STuple [vec [F32.one]; vec [F32.half]]) false false false false
     fresh_state).1 = Ok tt /\
  count_events is_visualization
    (trace (world (@epoch_callback toy_backend (STuple [vec [F32.one]; vec [F32.half]])
                     false false false false fresh_state).2)) =
  count_events is_visualization (trace (world fresh_state)).
Proof.
  apply (@epoch_callback_silent_without_toggles toy_backend
           (STuple [vec [F32.one]; vec [F32.half]]) fresh_state).
  reflexivity.
Defined.
(** ** Whole calls of [train] *)

Lemma epoch_body_steps `{B : Backend} (train_clear train_fog : list tensor) (a : TrainArgs)
    (writers : option (string * string)) (len : option Z) (epoch : Z) (s s' : State) (n : Z) :
  epoch_body train_clear train_fog a writers len epoch s = (Ok n, s') ->
  n = Z.of_nat (min (length train_clear) (length train_fog)) /\
  step_count_of s' = (step_count_of s + min (length train_clear) (length train_fog))%nat.
Proof.
  intros Hrun. set (steps := min (length train_clear) (length train_fog)).
  assert (Hwp : wp (epoch_body train_clear train_fog a writers len epoch) s
                  (fun r s1 => forall v, r = Ok v ->
                     v = Z.of_nat steps /\ step_count_of s1 = (step_count_of s + steps)%nat)).
  { pose proof (same_refl step_count_of s) as HI.
    unfold epoch_body.
    do 5 (eapply (wp_bind_preserves (same step_count_of) (same_trans step_count_of));
          [ keeps step_count_of | eassumption | | intros; discriminate ];
          clear HI; intros ? ? HI).
    apply wp_bind; [| intros; discriminate].
    intros [n1 [[[t1 t2] t3] t4]] sb Hbatch.
    apply batch_loop_steps in Hbatch as [Hn Hcount].
    rewrite length_zip in Hn, Hcount. fold steps in Hn, Hcount.
    unfold same in HI. rewrite HI in Hcount. clear HI.
    pose proof (same_refl step_count_of sb) as HI.
    do 14 (eapply (wp_bind_preserves (same step_count_of) (same_trans step_count_of));
           [ keeps step_count_of | eassumption | | intros; discriminate ];
           clear HI; intros ? ? HI).
    apply wp_ret. intros v Hv. inversion Hv. subst v.
    unfold same in HI. split; [lia | congruence]. }
  unfold wp in Hwp. rewrite Hrun in Hwp. exact (Hwp n eq_refl).
Qed.

Lemma epoch_loop_progress `{B : Backend} (train_clear train_fog : list tensor) (a : TrainArgs)
    (writers : option (string * string)) (es : list Z) :
  forall len s s' z,
    epoch_loop train_clear train_fog a writers len es s = (Ok tt, s') ->
    total_epochs (self s) = PInt z ->
    total_epochs (self s') = PInt (z + Z.of_nat (length es)) /\
    step_count_of s' =
      (step_count_of s + length es * min (length train_clear) (length train_fog))%nat.
Proof.
  induction es as [| epoch es IH]; intros len s s' z Hrun Hz.
  - inversion Hrun. subst. simpl. rewrite Z.add_0_r. split; [exact Hz | lia].
  - cbn [epoch_loop] in Hrun. rewrite bind_unfold in Hrun.
    destruct (epoch_body train_clear train_fog a writers len epoch s) as [[n | e] s1] eqn:Hbody;
      [| discriminate Hrun].
    pose proof (epoch_body_steps _ _ _ _ _ _ _ _ _ Hbody) as [_ Hsteps].
    apply epoch_body_counter in Hbody as (Hadd & _ & _).
    rewrite Hz in Hadd. cbn in Hadd. injection Hadd as Hadd. symmetry in Hadd.
    apply (IH _ _ _ _ Hrun) in Hadd as [Hte Hst].
    split; [rewrite Hte; f_equal; simpl length; lia |].
    rewrite Hst, Hsteps. simpl length. lia.
Qed.

Lemma length_range (n : Z) : length (range n) = Z.to_nat n.
Proof. unfold range. rewrite length_map, length_seq. reflexivity. Qed.

(** X10.  A call of [train] that does not reload the config and returns
    has run all its epochs: [total_epochs] has grown by [epochs] (by
    nothing when [epochs] is zero or negative), and the number of training
    steps performed is [epochs] times the length of the shorter stream. *)
Theorem train_runs_all_epochs `{B : Backend} (train_clear train_fog : list tensor)
    (a : TrainArgs) (s s' : State) (z : Z) :
  load_config_first a = false ->
  total_epochs (self s) = PInt z ->
  train train_clear train_fog a s = (Ok tt, s') ->
  total_epochs (self s') = PInt (z + Z.max 0 (epochs a)) /\
  step_count_of s' =
    (step_count_of s + Z.to_nat (epochs a) * min (length train_clear) (length train_fog))%nat.
Proof.
  intros Hload Hz Hrun.
  assert (Hwp : wp (train train_clear train_fog a) s
                  (fun r s1 => r = Ok tt ->
                     total_epochs (self s1) = PInt (z + Z.max 0 (epochs a)) /\
                     step_count_of s1 =
                       (step_count_of s + Z.to_nat (epochs a) *
                                          min (length train_clear) (length train_fog))%nat)).
  { pose proof (same_refl progress_of s) as HI.
    unfold train. apply wp_get_self. rewrite Hload. cbn [andb].
    do 3 (eapply (wp_bind_preserves (same progress_of) (same_trans progress_of));
          [ keeps progress_of | eassumption | | intros; discriminate ];
          clear HI; intros ? ? HI).
    unfold same, progress_of in HI. injection HI as Hte Hst.
    unfold wp.
    destruct (epoch_loop _ _ _ _ _ _ _) as [[[] | e] s3] eqn:Hloop; [| discriminate].
    intros _. cbn [fst snd].
    apply (epoch_loop_progress _ _ _ _ _ _ _ _ z) in Hloop as [H1 H2]; [| congruence].
    rewrite length_range in H1, H2. split; [rewrite H1; f_equal; lia | lia]. }
  unfold wp in Hwp. rewrite Hrun in Hwp. exact (Hwp eq_refl).
Qed.

Lemma train_runs_all_epochs_witness :
  exists s',
    @train toy_backend five_batches three_batches
      (no_reload_args 2 (Some 1) 10 false SNone) trained_state = (Ok tt, s') /\
    total_epochs (self s') = PInt 5 /\
    step_count_of s' = 6%nat.
Proof.
  eexists. split; [vm_compute; reflexivity |].
  match goal with
  | |- total_epochs (self ?s') = _ /\ _ =>
      apply (@train_runs_all_epochs toy_backend five_batches three_batches
               (no_reload_args 2 (Some 1) 10 false SNone) trained_state s' 3);
        [reflexivity | reflexivity | vm_compute; reflexivity]
  end.
Defined.
(** ** The progress report *)

Lemma batch_loop_zero_rate `{B : Backend} (len : option Z) (x y : tensor)
    (rest : list (tensor * tensor)) (n : Z) (totals : total * total * total * total)
    (s : State) :
  (forall v s1, train_step x y s = (Ok v, s1) ->
     batch_loop 0 len ((x, y) :: rest) n totals s =
       (Raise (ZeroDivisionError "integer division or modulo by zero"), s1)) /\
  (forall e s1, train_step x y s = (Raise e, s1) ->
     batch_loop 0 len ((x, y) :: rest) n totals s = (Raise e, s1)).
Proof.
  destruct totals as [[[t1 t2] t3] t4]. rewrite batch_loop_cons, bind_unfold.
  split.
  - intros [[[l1 l2] l3] l4] s1 Hstep. rewrite Hstep. reflexivity.
  - intros e s1 Hstep. rewrite Hstep. reflexivity.
Qed.

(** An epoch over two non-empty streams raises after its first step. *)
Lemma epoch_body_zero_rate `{B : Backend}
    (train_clear train_fog : list tensor) (a : TrainArgs)
    (writers : option (string * string)) (len : option Z) (epoch : Z) (s : State) :
  progress_print_rate a = 0 ->
  train_clear <> [] -> train_fog <> [] ->
  (exists e, (epoch_body train_clear train_fog a writers len epoch s).1 = Raise e) /\
  total_epochs (self (epoch_body train_clear train_fog a writers len epoch s).2) =
    total_epochs (self s) /\
  (step_count_of (epoch_body train_clear train_fog a writers len epoch s).2
   <= step_count_of s + 1)%nat.
Proof.
  intros Hrate Hc Hf.
  destruct train_clear as [| x tc]; [congruence |].
  destruct train_fog as [| y tf]; [congruence |].
  assert (Hwp : wp (epoch_body (x :: tc) (y :: tf) a writers len epoch) s
                  (fun r s1 => (exists e, r = Raise e) /\
                               total_epochs (self s1) = total_epochs (self s) /\
                               (step_count_of s1 <= step_count_of s + 1)%nat)).
  { pose proof (same_refl progress_of s) as HI.
    unfold epoch_body. rewrite Hrate.
    do 5 (eapply (wp_bind_preserves (same progress_of) (same_trans progress_of));
          [ keeps progress_of | eassumption
          | | intros ? ? HI'; unfold same, progress_of in HI'; injection HI' as -> ->;
              split; [eexists; reflexivity | split; [reflexivity | lia]] ];
          clear HI; intros ? ? HI).
    match type of HI with same _ _ ?st => rename st into sb end.
    unfold same, progress_of in HI. injection HI as Hte Hst.
    unfold wp. rewrite bind_unfold. cbn [zip zip_with].
    destruct (batch_loop_zero_rate len x y (zip tc tf) 0 (TInt 0, TInt 0, TInt 0, TInt 0) sb)
      as [Hok Herr].
    destruct (train_step x y sb) as [[v | e] st] eqn:Hstep.
    - rewrite (Hok v st eq_refl). cbn [fst snd].
      split; [eexists; reflexivity |].
      pose proof (train_step_counts x y sb st v Hstep) as Hcount.
      assert (Hkeep : preserves (same total_epochs_of) (train_step x y)) by keeps total_epochs_of.
      specialize (Hkeep sb). rewrite Hstep in Hkeep. unfold same, total_epochs_of in Hkeep.
      cbn in Hkeep. split; [congruence | lia].
    - rewrite (Herr e st eq_refl). cbn [fst snd].
      split; [eexists; reflexivity |].
      destruct (train_step_run x y sb) as [Hraise _].
      rewrite Hstep in Hraise. cbn [fst snd] in Hraise.
      destruct (Hraise e eq_refl) as [Hself Hcount].
      rewrite Hself, Hcount. split; [congruence | lia]. }
  exact Hwp.
Qed.

Lemma range_pos (n : Z) : 0 < n -> exists es, range n = 0 :: es.
Proof.
  intros Hn. unfold range. destruct (Z.to_nat n) as [| k] eqn:Hk; [lia |].
  eexists. reflexivity.
Qed.

(** X11.  With [progress_print_rate = 0], at least one epoch and two
    non-empty streams, [train] never returns: [n % progress_print_rate]
    is evaluated after the first training step, so the call raises with
    at most one training step performed, and, when the config is not
    reloaded, with the epoch counter at its value on entry. *)
Theorem zero_progress_print_rate_aborts_training `{B : Backend}
    (train_clear train_fog : list tensor) (a : TrainArgs) (s : State) :
  progress_print_rate a = 0 ->
  0 < epochs a ->
  train_clear <> [] -> train_fog <> [] ->
  (exists e, (train train_clear train_fog a s).1 = Raise e) /\
  (step_count_of (train train_clear train_fog a s).2 <= step_count_of s + 1)%nat /\
  (load_config_first a = false ->
   total_epochs (self (train train_clear train_fog a s).2) = total_epochs (self s)).
Proof.
  intros Hrate Hepochs Hc Hf.
  destruct (range_pos (epochs a) Hepochs) as [es Hes].
  assert (Hloop : forall writers sb,
            (exists e, (epoch_loop train_clear train_fog a writers None (range (epochs a)) sb).1
                       = Raise e) /\
            total_epochs (self (epoch_loop train_clear train_fog a writers None
                                  (range (epochs a)) sb).2) = total_epochs (self sb) /\
            (step_count_of (epoch_loop train_clear train_fog a writers None
                              (range (epochs a)) sb).2 <= step_count_of sb + 1)%nat).
  { intros writers sb. rewrite Hes. cbn [epoch_loop]. rewrite bind_unfold.
    destruct (epoch_body_zero_rate train_clear train_fog a writers None 0 sb Hrate Hc Hf)
      as ([e He] & Hte & Hst).
    destruct (epoch_body train_clear train_fog a writers None 0 sb) as [[n | e'] s1];
      cbn [fst snd] in *; [discriminate He |].
    split; [eexists; reflexivity | split; assumption]. }
  assert (Hsteps : wp (train train_clear train_fog a) s
                     (fun r s1 => (exists e, r = Raise e) /\
                                  (step_count_of s1 <= step_count_of s + 1)%nat)).
  { pose proof (same_refl step_count_of s) as HI.
    unfold train. apply wp_get_self.
    do 3 (eapply (wp_bind_preserves (same step_count_of) (same_trans step_count_of));
          [ keeps step_count_of | eassumption
          | | intros ? ? HI'; unfold same in HI'; rewrite <- HI';
              split; [eexists; reflexivity | lia] ];
          clear HI; intros ? ? HI).
    match type of HI with same _ _ ?st => rename st into sb end.
    unfold same in HI. unfold wp.
    match goal with
    | |- context [epoch_loop _ _ _ ?w _ _ _] => destruct (Hloop w sb) as (He & _ & Hst)
    end.
    split; [exact He | lia]. }
  assert (Hcounter : load_config_first a = false ->
            wp (train train_clear train_fog a) s
               (fun r s1 => total_epochs (self s1) = total_epochs (self s))).
  { intros Hload. pose proof (same_refl total_epochs_of s) as HI.
    unfold train. apply wp_get_self. rewrite Hload. cbn [andb].
    do 3 (eapply (wp_bind_preserves (same total_epochs_of) (same_trans total_epochs_of));
          [ keeps total_epochs_of | eassumption
          | | intros ? ? HI'; unfold same, total_epochs_of in HI'; congruence ];
          clear HI; intros ? ? HI).
    match type of HI with same _ _ ?st => rename st into sb end.
    unfold same, total_epochs_of in HI. unfold wp.
    match goal with
    | |- context [epoch_loop _ _ _ ?w _ _ _] => destruct (Hloop w sb) as (_ & Hte & _)
    end.
    congruence. }
  unfold wp in Hsteps, Hcounter. destruct Hsteps as [He Hst].
  split; [exact He | split; [exact Hst | exact Hcounter]].
Qed.

Lemma zero_progress_print_rate_aborts_training_witness :
  (exists e, (@train toy_backend five_batches three_batches zero_rate_args trained_state).1 =
             Raise e) /\
  (step_count_of (@train toy_backend five_batches three_batches zero_rate_args
                    trained_state).2 <= step_count_of trained_state + 1)%nat /\
  (load_config_first zero_rate_args = false ->
   total_epochs (self (@train toy_backend five_batches three_batches zero_rate_args
                         trained_state).2) = total_epochs (self trained_state)).
Proof.
  apply (@zero_progress_print_rate_aborts_training toy_backend five_batches three_batches
           zero_rate_args trained_state);
    [reflexivity | reflexivity | discriminate | discriminate].
Defined.
(** ** Validation of the sample *)

Lemma epoch_callback_rejects `{B : Backend} (sample_test : sample_arg)
    (p1 p2 p3 p4 : bool) (s : State) :
  sample_test <> SNone -> is_pair sample_test = false ->
  exists e, epoch_callback sample_test p1 p2 p3 p4 s = (Raise e, s).
Proof.
  intros Hnone Hpair. destruct sample_test as [| l | l |]; [congruence | | |].
  - destruct l as [| a [| b [| c l]]]; try discriminate Hpair; eexists; reflexivity.
  - destruct l as [| a [| b [| c l]]]; try discriminate Hpair; eexists; reflexivity.
  - eexists; reflexivity.
Qed.

Lemma epoch_body_rejects `{B : Backend} (train_clear train_fog : list tensor) (a : TrainArgs)
    (writers : option (string * string)) (len : option Z) (epoch : Z) (s : State) :
  sample_test a <> SNone -> is_pair (sample_test a) = false ->
  (exists e, (epoch_body train_clear train_fog a writers len epoch s).1 = Raise e) /\
  untrained (epoch_body train_clear train_fog a writers len epoch s).2 = untrained s.
Proof.
  intros Hnone Hpair.
  assert (Hwp : wp (epoch_body train_clear train_fog a writers len epoch) s
                  (fun r s1 => (exists e, r = Raise e) /\ untrained s1 = untrained s)).
  { pose proof (same_refl untrained s) as HI.
    unfold epoch_body.
    do 3 (eapply (wp_bind_preserves (same untrained) (same_trans untrained));
          [ keeps untrained | eassumption
          | | intros ? ? HI'; split; [eexists; reflexivity | exact HI'] ];
          clear HI; intros ? ? HI).
    match type of HI with same _ _ ?st => rename st into sb end.
    unfold wp. rewrite bind_unfold.
    destruct (epoch_callback_rejects (sample_test a) (plot_sample_generator a)
                (plot_sample_gen_and_disc a) (save_sample_generator_output a)
                (save_sample_gen_and_disc_output a) sb Hnone Hpair) as [e He].
    rewrite He. cbn [fst snd]. split; [eexists; reflexivity | exact HI]. }
  exact Hwp.
Qed.

(** X12.  [train] validates [sample_test] before it trains: when the
    sample is neither [None] nor a list or tuple of two elements and at
    least one epoch is requested, the call raises, and no network has been
    called, no training step performed, no weight file written, and the
    networks and optimisers are as on entry. *)
Theorem train_rejects_malformed_sample `{B : Backend}
    (train_clear train_fog : list tensor) (a : TrainArgs) (s : State) :
  sample_test a <> SNone -> is_pair (sample_test a) = false ->
  0 < epochs a ->
  (exists e, (train train_clear train_fog a s).1 = Raise e) /\
  untrained (train train_clear train_fog a s).2 = untrained s.
Proof.
  intros Hnone Hpair Hepochs.
  destruct (range_pos (epochs a) Hepochs) as [es Hes].
  assert (Hwp : wp (train train_clear train_fog a) s
                  (fun r s1 => (exists e, r = Raise e) /\ untrained s1 = untrained s)).
  { pose proof (same_refl untrained s) as HI.
    unfold train. apply wp_get_self.
    do 3 (eapply (wp_bind_preserves (same untrained) (same_trans untrained));
          [ keeps untrained | eassumption
          | | intros ? ? HI'; split; [eexists; reflexivity | exact HI'] ];
          clear HI; intros ? ? HI).
    match type of HI with same _ _ ?st => rename st into sb end.
    rewrite Hes. cbn [epoch_loop]. unfold wp. rewrite bind_unfold.
    match goal with
    | |- context [epoch_body _ _ _ ?w _ _ _] =>
        destruct (epoch_body_rejects train_clear train_fog a w None 0 sb Hnone Hpair)
          as [[e He] Hsame]
    end.
    destruct (epoch_body train_clear train_fog a _ None 0 sb) as [[n | e'] st];
      cbn [fst snd] in *; [discriminate He |].
    split; [eexists; reflexivity | unfold same in HI; congruence]. }
  exact Hwp.
Qed.

Lemma train_rejects_malformed_sample_witness :
  (exists e, (@train toy_backend five_batches three_batches three_sample_args
                trained_state).1 = Raise e) /\
  untrained (@train toy_backend five_batches three_batches three_sample_args
               trained_state).2 = untrained trained_state.
Proof.
  apply (@train_rejects_malformed_sample toy_backend five_batches three_batches
           three_sample_args trained_state);
    [discriminate | reflexivity | reflexivity].
Defined.
(** ** The cadence of the checkpoints *)

Lemma batch_loop_keeps_cadence `{B : Backend} (dataset : list (tensor * tensor)) :
  forall rate len n totals, preserves (same cadence_of) (batch_loop rate len dataset n totals).
Proof.
  induction dataset as [| [x y] rest IH]; intros; simpl; keeps cadence_of.
Qed.

Lemma save_weights_not_string (s : State) :
  is_string (weights_path (self s)) = false ->
  exists e, save_weights s = (Raise e, s).
Proof.
  intros Hstr. unfold save_weights. run. unfold get_models_and_paths.
  destruct (weights_path (self s)); try discriminate Hstr; eexists; reflexivity.
Qed.

(** The checkpoint block of an epoch, when it completes. *)
Lemma save_block_cadence (t : Trainer) (epoch : Z) (s st : State) (v : unit) :
  (save_weights;;
   total_next ← lift (py_add_one (total_epochs t));
   print_with_timestamp "Saving checkpoint for epoch {} (total {}) at {}"
                        [PInt (epoch + 1); total_next; weights_path t]) s = (Ok v, st) ->
  cadence_of st = (weights_path (self s), (save_count_of s + 4)%nat).
Proof.
  rewrite bind_unfold.
  destruct (is_string (weights_path (self s))) eqn:Hstr.
  - destruct (weights_path (self s)) as [| | | | dir | |] eqn:Hdir; try discriminate Hstr.
    destruct (save_weights_run s dir Hdir) as (sv & Hsave & Hself & _ & _ & Hsaved & _).
    rewrite Hsave. cbn [fst snd]. run.
    destruct (py_add_one (total_epochs t)); run; intros Hst; inversion Hst; subst st.
    unfold cadence_of. cbn [self]. rewrite Hself, Hdir, <- Hsaved. reflexivity.
  - destruct (save_weights_not_string s Hstr) as [e He]. rewrite He. discriminate.
Qed.

(** What one completed epoch adds to the weight files written. *)
Lemma epoch_body_saves `{B : Backend} (train_clear train_fog : list tensor) (a : TrainArgs)
    (writers : option (string * string)) (len : option Z) (epoch r : Z) (s s' : State) (n : Z) :
  weights_path (self s) <> PNone ->
  epoch_save_rate a = Some r -> r <> 0 ->
  epoch_body train_clear train_fog a writers len epoch s = (Ok n, s') ->
  weights_path (self s') = weights_path (self s) /\
  save_count_of s' =
    (save_count_of s + if Z.eqb ((epoch + 1) mod r) 0 then 4 else 0)%nat.
Proof.
  intros Hpath Hrate Hr Hrun.
  assert (Hwp : wp (epoch_body train_clear train_fog a writers len epoch) s
                  (fun res s1 => forall v, res = Ok v ->
                     weights_path (self s1) = weights_path (self s) /\
                     save_count_of s1 =
                       (save_count_of s + if Z.eqb ((epoch + 1) mod r) 0 then 4 else 0)%nat)).
  { pose proof (same_refl cadence_of s) as HI.
    pose proof (batch_loop_keeps_cadence (zip train_clear train_fog)) as Hbatch.
    unfold epoch_body. rewrite Hrate.
    do 6 (eapply (wp_bind_preserves (same cadence_of) (same_trans cadence_of));
          [ keeps cadence_of | eassumption | | intros; discriminate ];
          clear HI; intros ? ? HI).
    match goal with p : (Z * (total * total * total * total))%type |- _ =>
      destruct p as [n1 [[[t1 t2] t3] t4]] end.
    do 2 (eapply (wp_bind_preserves (same cadence_of) (same_trans cadence_of));
          [ keeps cadence_of | eassumption | | intros; discriminate ];
          clear HI; intros ? ? HI).
    match type of HI with same _ _ ?st => rename st into sb end.
    unfold same, cadence_of in HI. injection HI as Hwp Hcount.
    apply wp_get_self. apply wp_lift. unfold save_guard.
    destruct (is_None (weights_path (self sb))) eqn:Hnone;
      [destruct (weights_path (self sb)); try discriminate Hnone; congruence |].
    assert (Hmod : py_mod (epoch + 1) (Some r) = Ok ((epoch + 1) mod r))
      by (destruct r; [congruence | reflexivity | reflexivity]).
    rewrite Hmod. cbn.
    destruct (Z.eqb ((epoch + 1) mod r) 0).
    - apply wp_bind; [| intros; discriminate].
      intros [] st Hst. apply save_block_cadence in Hst.
      pose proof (same_refl cadence_of st) as HI.
      do 9 (eapply (wp_bind_preserves (same cadence_of) (same_trans cadence_of));
            [ keeps cadence_of | eassumption | | intros; discriminate ];
            clear HI; intros ? ? HI).
      apply wp_ret. intros _ _. unfold same in HI. rewrite Hst in HI.
      unfold cadence_of in HI. injection HI as HI1 HI2.
      split; [congruence | lia].
    - pose proof (same_refl cadence_of sb) as HI.
      do 10 (eapply (wp_bind_preserves (same cadence_of) (same_trans cadence_of));
             [ keeps cadence_of | eassumption | | intros; discriminate ];
             clear HI; intros ? ? HI).
      apply wp_ret. intros _ _. unfold same, cadence_of in HI. injection HI as HI1 HI2.
      split; [congruence | lia]. }
  unfold wp in Hwp. rewrite Hrun in Hwp. exact (Hwp n eq_refl).
Qed.

Lemma epoch_loop_saves `{B : Backend} (train_clear train_fog : list tensor) (a : TrainArgs)
    (writers : option (string * string)) (r : Z) (es : list Z) :
  epoch_save_rate a = Some r -> r <> 0 ->
  forall len s s',
    weights_path (self s) <> PNone ->
    epoch_loop train_clear train_fog a writers len es s = (Ok tt, s') ->
    save_count_of s' =
      (save_count_of s +
       4 * length (List.filter (fun e => Z.eqb ((e + 1) mod r) 0) es))%nat.
Proof.
  intros Hrate Hr. induction es as [| epoch es IH]; intros len s s' Hpath Hrun.
  - inversion Hrun. subst. simpl. lia.
  - cbn [epoch_loop] in Hrun. rewrite bind_unfold in Hrun.
    destruct (epoch_body train_clear train_fog a writers len epoch s) as [[n | e] sb] eqn:Hbody;
      [| discriminate Hrun].
    cbn [fst snd] in Hrun.
    destruct (epoch_body_saves _ _ _ _ _ _ _ _ _ _ Hpath Hrate Hr Hbody) as [Hsame Hcount].
    rewrite <- Hsame in Hpath. rewrite (IH _ _ _ Hpath Hrun), Hcount.
    cbn [List.filter]. destruct (Z.eqb ((epoch + 1) mod r) 0); simpl length; lia.
Qed.

(** Among the epochs [0 .. k-1], those whose number plus one is a
    multiple of [r]. *)
Lemma due_epochs (r : Z) (k : nat) :
  r <> 0 ->
  length (List.filter (fun e => Z.eqb ((e + 1) mod r) 0) (map Z.of_nat (seq 0 k))) =
    Z.to_nat (Z.of_nat k / Z.abs r).
Proof.
  intros Hr. assert (Habs : 0 < Z.abs r) by lia.
  induction k as [| k IH]; [reflexivity |].
  rewrite seq_S, map_app, List.filter_app, length_app, IH. cbn [map List.filter Nat.add].
  assert (Hdiv : (Z.of_nat k + 1) mod r = 0 <-> (Z.of_nat k + 1) mod Z.abs r = 0).
  { rewrite !Z.mod_divide by lia. symmetry. apply Z.divide_abs_l. }
  replace (Z.of_nat (S k)) with (Z.of_nat k + 1) by lia.
  pose proof (Z.div_mod (Z.of_nat k) (Z.abs r) ltac:(lia)) as Hk.
  pose proof (Z.mod_pos_bound (Z.of_nat k) (Z.abs r) Habs) as Hbound.
  pose proof (Z.div_pos (Z.of_nat k) (Z.abs r) ltac:(lia) Habs) as Hq.
  destruct (Z.eqb_spec ((Z.of_nat k + 1) mod r) 0) as [Hz | Hnz].
  - apply Hdiv in Hz.
    assert (Hnext : (Z.of_nat k + 1) / Z.abs r = Z.of_nat k / Z.abs r + 1).
    { symmetry. apply (Z.div_unique_pos _ _ _ 0); [lia |].
      pose proof (Z.div_mod (Z.of_nat k + 1) (Z.abs r) ltac:(lia)) as Hk1.
      rewrite Hz in Hk1.
      assert (Z.abs r * ((Z.of_nat k + 1) / Z.abs r - Z.of_nat k / Z.abs r) =
              Z.of_nat k mod Z.abs r + 1) by lia.
      assert ((Z.of_nat k + 1) / Z.abs r - Z.of_nat k / Z.abs r = 1) by nia.
      nia. }
    rewrite Hnext. simpl length. lia.
  - assert (Hnz' : (Z.of_nat k + 1) mod Z.abs r <> 0) by (intros H; apply Hnz, Hdiv, H).
    assert (Hnext : (Z.of_nat k + 1) / Z.abs r = Z.of_nat k / Z.abs r).
    { symmetry. apply (Z.div_unique_pos _ _ _ (Z.of_nat k mod Z.abs r + 1)); [| lia].
      split; [lia |].
      assert (Z.of_nat k mod Z.abs r + 1 <> Z.abs r); [| lia].
      intros Heq. apply Hnz'.
      replace (Z.of_nat k + 1) with (0 + (Z.of_nat k / Z.abs r + 1) * Z.abs r) by nia.
      rewrite Z.mod_add by lia. reflexivity. }
    rewrite Hnext. simpl length. lia.
Qed.

(** X13.  The cadence of the checkpoints: a call of [train] that does
    not reload the config, has a checkpoint directory and a save rate [r]
    other than zero, and returns, has written the four weight files once
    for every [|r|]-th epoch of the call, that is [epochs // |r|] times. *)
Theorem train_checkpoint_cadence `{B : Backend} (train_clear train_fog : list tensor)
    (a : TrainArgs) (s s' : State) (r : Z) :
  load_config_first a = false ->
  weights_path (self s) <> PNone ->
  epoch_save_rate a = Some r -> r <> 0 ->
  train train_clear train_fog a s = (Ok tt, s') ->
  save_count_of s' = (save_count_of s + 4 * Z.to_nat (epochs a / Z.abs r))%nat.
Proof.
  intros Hload Hpath Hrate Hr Hrun.
  assert (Hwp : wp (train train_clear train_fog a) s
                  (fun res s1 => res = Ok tt ->
                     save_count_of s1 =
                       (save_count_of s + 4 * Z.to_nat (epochs a / Z.abs r))%nat)).
  { pose proof (same_refl cadence_of s) as HI.
    unfold train. apply wp_get_self. rewrite Hload. cbn [andb].
    do 3 (eapply (wp_bind_preserves (same cadence_of) (same_trans cadence_of));
          [ keeps cadence_of | eassumption | | intros; discriminate ];
          clear HI; intros ? ? HI).
    match type of HI with same _ _ ?st => rename st into sb end.
    unfold same, cadence_of in HI. injection HI as Hwpath Hcount.
    unfold wp.
    destruct (epoch_loop _ _ _ _ _ _ _) as [[[] | e] sc] eqn:Hloop; [| discriminate].
    intros _. cbn [fst snd].
    apply (epoch_loop_saves _ _ _ _ r _ Hrate Hr) in Hloop; [| congruence].
    unfold range in Hloop. rewrite (due_epochs r _ Hr) in Hloop.
    rewrite Hloop, Hcount. f_equal. f_equal.
    destruct (Z.le_gt_cases 0 (epochs a)) as [Hpos | Hneg].
    - rewrite Z2Nat.id by lia. reflexivity.
    - replace (Z.to_nat (epochs a)) with 0%nat by lia.
      rewrite Z.div_0_l by lia.
      pose proof (Z.div_lt_upper_bound (epochs a) (Z.abs r) 0 ltac:(lia) ltac:(lia)).
      lia. }
  unfold wp in Hwp. rewrite Hrun in Hwp. exact (Hwp eq_refl).
Qed.

Lemma train_checkpoint_cadence_witness :
  exists s',
    @train toy_backend five_batches three_batches every_second_args distinct_state =
      (Ok tt, s') /\
    save_count_of s' = 8%nat.
Proof.
  eexists. split; [vm_compute; reflexivity |].
  match goal with
  | |- save_count_of ?s' = _ =>
      apply (@train_checkpoint_cadence toy_backend five_batches three_batches
               every_second_args distinct_state s' 2);
        [reflexivity | discriminate | reflexivity | discriminate | vm_compute; reflexivity]
  end.
Defined.
(** ** The log directory of the summaries *)

Lemma batch_loop_keeps_logdir `{B : Backend} (dataset : list (tensor * tensor)) :
  forall rate len n totals, preserves (same logdir_of) (batch_loop rate len dataset n totals).
Proof.
  induction dataset as [| [x y] rest IH]; intros; simpl; keeps logdir_of.
Qed.

Lemma epoch_body_keeps_logdir `{B : Backend} (train_clear train_fog : list tensor)
    (a : TrainArgs) (writers : option (string * string)) (len : option Z) (epoch : Z) :
  preserves (same logdir_of) (epoch_body train_clear train_fog a writers len epoch).
Proof.
  pose proof (batch_loop_keeps_logdir (zip train_clear train_fog)) as Hbatch.
  keeps logdir_of.
Qed.

Lemma epoch_loop_keeps_logdir `{B : Backend} (train_clear train_fog : list tensor)
    (a : TrainArgs) (writers : option (string * string)) (es : list Z) :
  forall len, preserves (same logdir_of) (epoch_loop train_clear train_fog a writers len es).
Proof.
  induction es as [| epoch es IH]; intros len; simpl.
  - keeps logdir_of.
  - pose proof (epoch_body_keeps_logdir train_clear train_fog a writers len epoch) as Hbody.
    keeps logdir_of.
Qed.

(** X14.  The log directory of the summaries is chosen once: a call of
    [train] with [use_tensorboard] that does not reload the config and
    returns leaves a string in [tensorboard_current_logdir]: the one it
    found there, or, when it found [None], the base directory joined with
    the timestamp of the start of the call; and it has created exactly
    two summary writers, at that directory with ["-clear"] and ["-fog"]
    appended. *)
Theorem tensorboard_logdir_chosen_once `{B : Backend} (train_clear train_fog : list tensor)
    (a : TrainArgs) (s s' : State) :
  use_tensorboard a = true ->
  load_config_first a = false ->
  train train_clear train_fog a s = (Ok tt, s') ->
  exists dir,
    tensorboard_current_logdir (self s') = PStr dir /\
    (tensorboard_current_logdir (self s) = PStr dir \/
     tensorboard_current_logdir (self s) = PNone /\
     os_path.join_val (tensorboard_base_logdir (self s)) (strftime_now (clock (world s)))
       = Ok dir) /\
    file_writers_of s' =
      CreateFileWriter (dir ++ "-fog") :: CreateFileWriter (dir ++ "-clear")
        :: file_writers_of s.
Proof.
  intros Huse Hload Hrun.
  assert (Hwp : wp (train train_clear train_fog a) s
            (fun r s1 => r = Ok tt ->
               exists dir,
                 tensorboard_current_logdir (self s1) = PStr dir /\
                 (tensorboard_current_logdir (self s) = PStr dir \/
                  tensorboard_current_logdir (self s) = PNone /\
                  os_path.join_val (tensorboard_base_logdir (self s))
                                   (strftime_now (clock (world s))) = Ok dir) /\
                 file_writers_of s1 =
                   CreateFileWriter (dir ++ "-fog") :: CreateFileWriter (dir ++ "-clear")
                     :: file_writers_of s)).
  { pose proof (same_refl logdir_inputs_of s) as HI.
    unfold train. apply wp_get_self. rewrite Hload, Huse. cbn [andb].
    do 2 (eapply (wp_bind_preserves (same logdir_inputs_of) (same_trans logdir_inputs_of));
          [ keeps logdir_inputs_of | eassumption | | intros; discriminate ];
          clear HI; intros ? ? HI).
    match type of HI with same _ _ ?st => rename st into sb end.
    unfold same, logdir_inputs_of in HI. injection HI as Hcur Hbase Hclock Hwriters.
    apply wp_bind; [| intros; discriminate].
    intros w sc Hw.
    assert (Hsc : exists dir,
              tensorboard_current_logdir (self sc) = PStr dir /\
              (tensorboard_current_logdir (self sb) = PStr dir \/
               tensorboard_current_logdir (self sb) = PNone /\
               os_path.join_val (tensorboard_base_logdir (self sb))
                                (strftime_now (clock (world sb))) = Ok dir) /\
              file_writers_of sc =
                CreateFileWriter (dir ++ "-fog") :: CreateFileWriter (dir ++ "-clear")
                  :: file_writers_of sb).
    { revert Hw. unfold read_clock. run.
      destruct (tensorboard_current_logdir (self sb)) as [| | | | dir | |] eqn:Hc;
        cbn [is_None]; run; rewrite ?Hc; cbn [py_add_str]; run; try discriminate.
      - destruct (os_path.join_val (tensorboard_base_logdir (self sb))
                    (strftime_now (clock (world sb)))) as [dir | e] eqn:Hjoin;
          run; cbn [py_add_str tensorboard_current_logdir set_tensorboard_current_logdir];
          run; [| discriminate].
        intros Hw. inversion Hw. subst. eexists.
        split; [reflexivity |]. split; [right; split; reflexivity |]. reflexivity.
      - intros Hw. inversion Hw. subst. eexists.
        split; [exact Hc |]. split; [left; reflexivity |]. reflexivity. }
    destruct Hsc as (dir & Hdir & Horigin & Hcreated).
    pose proof (epoch_loop_keeps_logdir train_clear train_fog a w (range (epochs a)) None sc)
      as Hkeep.
    unfold wp. intros _. unfold same, logdir_of in Hkeep. injection Hkeep as Hk1 Hk2.
    exists dir. rewrite Hk1, Hk2, Hcreated, Hwriters, <- Hcur, <- Hbase, <- Hclock.
    split; [exact Hdir |]. split; [exact Horigin | reflexivity]. }
  unfold wp in Hwp. rewrite Hrun in Hwp. exact (Hwp eq_refl).
Qed.

Lemma tensorboard_logdir_chosen_once_witness :
  exists s',
    @train toy_backend five_batches three_batches tensorboard_args trained_state =
      (Ok tt, s') /\
    exists dir,
      tensorboard_current_logdir (self s') = PStr dir /\
      (tensorboard_current_logdir (self trained_state) = PStr dir \/
       tensorboard_current_logdir (self trained_state) = PNone /\
       os_path.join_val (tensorboard_base_logdir (self trained_state))
         (@strftime_now toy_backend (clock (world trained_state))) = Ok dir) /\
      file_writers_of s' =
        CreateFileWriter (dir ++ "-fog") :: CreateFileWriter (dir ++ "-clear")
          :: file_writers_of trained_state.
Proof.
  eexists. split; [vm_compute; reflexivity |].
  match goal with
  | |- exists dir, tensorboard_current_logdir (self ?s') = _ /\ _ =>
      apply (@tensorboard_logdir_chosen_once toy_backend five_batches three_batches
               tensorboard_args trained_state s');
        [reflexivity | reflexivity | vm_compute; reflexivity]
  end.
Defined.
